(** * The notebook server's lifecycle: port acquisition, signals, teardown

    A shallow embedding of [NotebookApp] from
    [IPython/frontend/html/notebook/notebookapp.py]: the methods
    [init_webapp], [init_signal], [_handle_sigint], [_restore_sigint_handler],
    [_confirm_exit], [_signal_stop], [cleanup_kernels], [start] and the trait
    observer [_ip_changed].

    Python statements become computations in a state-and-exception monad over
    a record [Process] that holds the application's traits and the pieces of
    process state the methods touch (bound sockets, the signal table, the
    event loop's stop flag and callback queue, started threads, the kernel
    registry).  Every call that leaves the application (logging, [listen],
    [signal.signal], [select], ...) is also appended to a trace of events, so
    that "was called", "was called once" and "was never called" are
    statements about that trace.  What the outside world answers (whether a
    port is free, what the random generator draws, what the user types) is
    collected in a record [World], over which the methods are
    parameterised. *)

From Stdlib Require Import ZArith Lia Bool Ascii String.
From stdpp Require Import base gmap list strings.

Local Open Scope string_scope.
Local Open Scope list_scope.
Local Open Scope Z_scope.

(** ** Exceptions, signals and events *)

(** The exceptions the modelled methods can see.  [SocketError] is
    [socket.error] with its [errno]; [WebbrowserError] is [webbrowser.Error]. *)
Inductive exn : Type :=
| SocketError (errno : Z)
| KeyboardInterrupt
| WebbrowserError
| OtherError (what : string).

(** [errno.EADDRINUSE] (its Linux value; only equality with it matters). *)
Definition EADDRINUSE : Z := 98.

Inductive outcome (A : Type) : Type :=
| Return (a : A)
| Raise (e : exn).
Arguments Return {A} a.
Arguments Raise {A} e.

Inductive signum : Type := SIGINT | SIGTERM.

(** What can be registered for a signal: the two bound methods the
    application installs, or Python's own handler for SIGINT. *)
Inductive handler : Type :=
| default_int_handler
| handle_sigint_handler
| signal_stop_handler.

(** Targets of [threading.Thread(target=...)]. *)
Inductive thread_target : Type :=
| confirm_exit_target
| browser_open_target (url : string * string * Z * string).

(** Callbacks handed to [IOLoop.add_callback]. *)
Inductive callback : Type :=
| restore_sigint_handler_callback.

Inductive level : Type := INFO | CRITICAL.

(** Log records, kept as the format string's identity and its arguments. *)
Inductive message : Type :=
| MsgInsecure
| MsgPortInUse (port : Z)
| MsgShutdownConfirmed
| MsgReceivedSignal (sig : signum)
| MsgShuttingDownKernels
| MsgRunningAt (proto host : string) (port : Z) (base : string)
| MsgUseControlC
| MsgInterrupted.

(** Calls that leave the application, in program order. *)
Inductive event : Type :=
| EvLog (lvl : level) (msg : message)
| EvListen (port : Z) (ip : string)
| EvSignal (sig : signum) (h : handler)
| EvThreadStart (t : thread_target)
| EvStdout (text : string)
| EvSelect (timeout : Z)
| EvReadline
| EvLoopStop
| EvAddCallback (cb : callback)
| EvLoopStart
| EvWebbrowserGet (name : option string)
| EvKillKernel (kid : string).

Global Instance exn_eq_dec : EqDecision exn.
Proof. solve_decision. Defined.
Global Instance signum_eq_dec : EqDecision signum.
Proof. solve_decision. Defined.
Global Instance handler_eq_dec : EqDecision handler.
Proof. solve_decision. Defined.
Global Instance thread_target_eq_dec : EqDecision thread_target.
Proof. solve_decision. Defined.
Global Instance callback_eq_dec : EqDecision callback.
Proof. solve_decision. Defined.
Global Instance level_eq_dec : EqDecision level.
Proof. solve_decision. Defined.
Global Instance message_eq_dec : EqDecision message.
Proof. solve_decision. Defined.
Global Instance event_eq_dec : EqDecision event.
Proof. solve_decision. Defined.

(** ** The application's traits and the process state *)

Definition LOCALHOST : string := "127.0.0.1".

(** The configurable traits of [NotebookApp] that the lifecycle reads. *)
Record Traits : Type := mkTraits {
  ip : string;
  port : Z;
  certfile : string;
  keyfile : string;
  password : string;
  open_browser : bool;
  browser : string;
  read_only : bool;
  base_project_url : string
}.

(** The declared defaults of the traits. *)
Definition default_traits : Traits :=
  {| ip := LOCALHOST; port := 8888; certfile := ""; keyfile := "";
     password := ""; open_browser := true; browser := ""; read_only := false;
     base_project_url := "/" |}.

Definition with_ip (v : string) (t : Traits) : Traits :=
  {| ip := v; port := port t; certfile := certfile t; keyfile := keyfile t;
     password := password t; open_browser := open_browser t;
     browser := browser t; read_only := read_only t;
     base_project_url := base_project_url t |}.

Definition with_port (v : Z) (t : Traits) : Traits :=
  {| ip := ip t; port := v; certfile := certfile t; keyfile := keyfile t;
     password := password t; open_browser := open_browser t;
     browser := browser t; read_only := read_only t;
     base_project_url := base_project_url t |}.

(** [ssl_options]: [None], or the dict with [certfile] and maybe [keyfile]. *)
Definition ssl_dict : Type := (string * option string)%type.

(** The kernel registry maps a kernel id to its handle; the handle's content
    plays no part here. *)
Definition kernel_handle : Type := unit.

Record Process : Type := mkProcess {
  traits : Traits;
  ssl_options : option ssl_dict;          (* of [self.http_server] *)
  sockets : list (Z * string);            (* bound by [http_server.listen] *)
  sigint : handler;                       (* the signal table *)
  sigterm : option handler;
  stop_requested : bool;                  (* [IOLoop.stop()] was called *)
  callbacks : list callback;              (* queued by [add_callback] *)
  threads : list thread_target;           (* started, not yet run to the end *)
  kernels : gmap string kernel_handle;    (* [kernel_manager]'s registry *)
  draws : nat;                            (* calls to [randint] so far *)
  trace : list event
}.

Definition with_traits (f : Traits -> Traits) (p : Process) : Process :=
  mkProcess (f (traits p)) (ssl_options p) (sockets p) (sigint p) (sigterm p)
    (stop_requested p) (callbacks p) (threads p) (kernels p) (draws p) (trace p).
Definition with_ssl_options (v : option ssl_dict) (p : Process) : Process :=
  mkProcess (traits p) v (sockets p) (sigint p) (sigterm p)
    (stop_requested p) (callbacks p) (threads p) (kernels p) (draws p) (trace p).
Definition with_sockets (v : list (Z * string)) (p : Process) : Process :=
  mkProcess (traits p) (ssl_options p) v (sigint p) (sigterm p)
    (stop_requested p) (callbacks p) (threads p) (kernels p) (draws p) (trace p).
Definition with_sigint (v : handler) (p : Process) : Process :=
  mkProcess (traits p) (ssl_options p) (sockets p) v (sigterm p)
    (stop_requested p) (callbacks p) (threads p) (kernels p) (draws p) (trace p).
Definition with_sigterm (v : option handler) (p : Process) : Process :=
  mkProcess (traits p) (ssl_options p) (sockets p) (sigint p) v
    (stop_requested p) (callbacks p) (threads p) (kernels p) (draws p) (trace p).
Definition with_stop_requested (v : bool) (p : Process) : Process :=
  mkProcess (traits p) (ssl_options p) (sockets p) (sigint p) (sigterm p)
    v (callbacks p) (threads p) (kernels p) (draws p) (trace p).
Definition with_callbacks (v : list callback) (p : Process) : Process :=
  mkProcess (traits p) (ssl_options p) (sockets p) (sigint p) (sigterm p)
    (stop_requested p) v (threads p) (kernels p) (draws p) (trace p).
Definition with_threads (v : list thread_target) (p : Process) : Process :=
  mkProcess (traits p) (ssl_options p) (sockets p) (sigint p) (sigterm p)
    (stop_requested p) (callbacks p) v (kernels p) (draws p) (trace p).
Definition with_kernels (v : gmap string kernel_handle) (p : Process) : Process :=
  mkProcess (traits p) (ssl_options p) (sockets p) (sigint p) (sigterm p)
    (stop_requested p) (callbacks p) (threads p) v (draws p) (trace p).
Definition with_draws (v : nat) (p : Process) : Process :=
  mkProcess (traits p) (ssl_options p) (sockets p) (sigint p) (sigterm p)
    (stop_requested p) (callbacks p) (threads p) (kernels p) v (trace p).
Definition emit (e : event) (p : Process) : Process :=
  mkProcess (traits p) (ssl_options p) (sockets p) (sigint p) (sigterm p)
    (stop_requested p) (callbacks p) (threads p) (kernels p) (draws p)
    (trace p ++ [e]).

(** A freshly started interpreter holding an application with traits [t]
    and a kernel registry [ks]. *)
Definition boot (t : Traits) (ks : gmap string kernel_handle) : Process :=
  mkProcess t None [] default_int_handler None false [] [] ks 0%nat [].

(** ** The monad of Python statements *)

Definition M (A : Type) : Type := Process -> outcome A * Process.

Definition ret {A} (a : A) : M A := fun p => (Return a, p).
Definition raise {A} (e : exn) : M A := fun p => (Raise e, p).
Definition bind {A B} (m : M A) (k : A -> M B) : M B :=
  fun p => match m p with
           | (Return a, p') => k a p'
           | (Raise e, p') => (Raise e, p')
           end.
Definition get : M Process := fun p => (Return p, p).
Definition modify (f : Process -> Process) : M unit := fun p => (Return tt, f p).
(** Reading [self]'s traits. *)
Definition get_self : M Traits := fun p => (Return (traits p), p).

Global Instance M_ret : MRet M := @ret.
Global Instance M_bind : MBind M := fun A B k m => bind m k.

(** [try: body / except: handle / finally: final], with Python's rules: the
    handler is consulted only when the body raises, [None] from [handle]
    means no [except] clause matches; [final] runs on every path and an
    exception of its own replaces the pending one. *)
Definition try_except_finally {A} (body : M A) (handle : exn -> option (M A))
    (final : M unit) : M A :=
  fun p =>
    let '(r, p1) :=
      match body p with
      | (Return a, p') => (Return a, p')
      | (Raise e, p') =>
          match handle e with
          | Some h => h p'
          | None => (Raise e, p')
          end
      end in
    match final p1 with
    | (Return _, p2) => (r, p2)
    | (Raise e, p2) => (Raise e, p2)
    end.

(** Final state and result of running a computation. *)
Definition result {A} (m : M A) (p : Process) : outcome A := fst (m p).
Definition after {A} (m : M A) (p : Process) : Process := snd (m p).

(** The events a computation adds to the trace. *)
Definition emitted {A} (m : M A) (p : Process) : list event :=
  drop (length (trace p)) (trace (after m p)).

(** ** Small pieces of Python *)

(** Truth value of a string: empty is false. *)
Definition truthy (s : string) : bool := negb (String.eqb s "").

(** [a or b] on strings. *)
Definition str_or (a b : string) : string := if truthy a then a else b.

(** [range(a, b)] on integers (Python 2: a list). *)
Definition py_range (a b : Z) : list Z :=
  map (fun i => a + Z.of_nat i) (seq 0 (Z.to_nat (b - a))).

(** [str.lower] on ASCII letters. *)
Definition lower_ascii (c : ascii) : ascii :=
  let k := nat_of_ascii c in
  if ((65 <=? k)%nat && (k <=? 90)%nat)%bool then ascii_of_nat (k + 32) else c.

Fixpoint lower (s : string) : string :=
  match s with
  | EmptyString => EmptyString
  | String c s' => String (lower_ascii c) (lower s')
  end.

(** [s.startswith(p)]. *)
Definition startswith (p s : string) : bool := String.prefix p s.

(** How a loop body ends: fall through to the next item, or [break]. *)
Inductive flow : Type := Next | Break.

(** [for x in l: body] with [break]; an exception leaves the loop. *)
Fixpoint for_each {A} (l : list A) (body : A -> M flow) : M unit :=
  match l with
  | [] => mret tt
  | x :: l' =>
      f ← body x;
      match f with
      | Next => for_each l' body
      | Break => mret tt
      end
  end.

(** [try: body / except: handle / else: els]. *)
Definition try_except_else {A B} (body : M A) (handle : exn -> option (M B))
    (els : A -> M B) : M B :=
  fun p =>
    match body p with
    | (Return a, p') => els a p'
    | (Raise e, p') =>
        match handle e with
        | Some h => h p'
        | None => (Raise e, p')
        end
    end.

(** ** The outside world *)

(** Everything the process asks its surroundings.  Answers may change with
    time; time is the number of events so far. *)
Record World : Type := mkWorld {
  (** the raw value behind the [k]-th call of [randint] *)
  entropy : nat -> Z;
  (** [listen(port, ip)] at a time: [None] binds, [Some e] raises [e] *)
  net : nat -> Z -> string -> option exn;
  (** [select([sys.stdin], [], [], timeout)]: is a line there in time? *)
  stdin_ready : nat -> Z -> bool;
  (** the line [sys.stdin.readline()] returns *)
  stdin_line : nat -> string;
  (** does [webbrowser.get(name)] find a controller? *)
  webbrowser_lookup : option string -> bool;
  (** what [IOLoop.start()] does until it returns or raises *)
  loop_run : M unit;
  (** what [kill_kernel(kid)] does to the kernel registry *)
  kill_effect : string -> gmap string kernel_handle -> gmap string kernel_handle
}.

(** What [launch_new_instance], [initialize] and [init_configurables]
    call outside this module: the decorator [catch_config_error], the
    parent class's [initialize], the application's constructor and the
    three managers.  Each may log, assign traits, change the kernel
    registry, or raise. *)
Record Startup : Type := mkStartup {
  (** [NotebookApp.instance()] *)
  instance : M unit;
  (** the decorator [@catch_config_error], applied to a method *)
  catch_config_error : M unit -> M unit;
  (** [super(NotebookApp, self).initialize(argv)] *)
  super_initialize : M unit;
  (** [default_secure(self.config)] *)
  default_secure : M unit;
  (** [self.kernel_manager = MappingKernelManager(...)] *)
  new_kernel_manager : M unit;
  (** [self.notebook_manager = NotebookManager(...)] *)
  new_notebook_manager : M unit;
  (** [self.notebook_manager.list_notebooks()] *)
  list_notebooks : M unit;
  (** [self.cluster_manager = ClusterManager(...)] *)
  new_cluster_manager : M unit;
  (** [self.cluster_manager.update_profiles()] *)
  update_profiles : M unit
}.

Section NotebookApp.

Variable w : World.

(** *** Primitives *)

Definition log (lvl : level) (msg : message) : M unit :=
  modify (emit (EvLog lvl msg)).

(** [random.randint(lo, hi)]: an integer between [lo] and [hi], both
    included. *)
Definition randint (lo hi : Z) : M Z :=
  fun p => (Return (lo + entropy w (draws p) mod (hi - lo + 1)),
            with_draws (S (draws p)) p).

(** [self.http_server.listen(port, ip)]: binds a socket or raises. *)
Definition http_server_listen (port : Z) (ip : string) : M unit :=
  fun p =>
    let p1 := emit (EvListen port ip) p in
    match net w (length (trace p)) port ip with
    | None => (Return tt, with_sockets (sockets p1 ++ [(port, ip)]) p1)
    | Some e => (Raise e, p1)
    end.

(** [signal.signal(sig, h)]. *)
Definition signal_signal (sig : signum) (h : handler) : M unit :=
  modify (fun p =>
    emit (EvSignal sig h)
      match sig with
      | SIGINT => with_sigint h p
      | SIGTERM => with_sigterm (Some h) p
      end).

(** [threading.Thread(target=t).start()]. *)
Definition thread_start (t : thread_target) : M unit :=
  modify (fun p => emit (EvThreadStart t) (with_threads (threads p ++ [t]) p)).

(** [ioloop.IOLoop.instance().stop()]. *)
Definition ioloop_stop : M unit :=
  modify (fun p => emit EvLoopStop (with_stop_requested true p)).

(** [ioloop.IOLoop.instance().add_callback(cb)]. *)
Definition ioloop_add_callback (cb : callback) : M unit :=
  modify (fun p => emit (EvAddCallback cb) (with_callbacks (callbacks p ++ [cb]) p)).

(** [ioloop.IOLoop.instance().start()]. *)
Definition ioloop_start : M unit :=
  modify (emit EvLoopStart);; loop_run w.

Definition stdout_write (text : string) : M unit := modify (emit (EvStdout text)).

(** [select.select([sys.stdin], [], [], timeout)]; the result is whether
    the returned read list is non-empty. *)
Definition select_stdin (timeout : Z) : M bool :=
  fun p => (Return (stdin_ready w (length (trace p)) timeout),
            emit (EvSelect timeout) p).

Definition stdin_readline : M string :=
  fun p => (Return (stdin_line w (length (trace p))), emit EvReadline p).

(** [webbrowser.get(name)]: a controller, or [webbrowser.Error]. *)
Definition webbrowser_get (name : option string) : M unit :=
  fun p =>
    let p1 := emit (EvWebbrowserGet name) p in
    if webbrowser_lookup w name then (Return tt, p1) else (Raise WebbrowserError, p1).

(** *** [init_webapp] *)

(** [n = 50  # Max number of attempts, keep reasonably large.] *)
Definition n : Z := 50.

(** The condition of the [if] that guards the critical log record:
    [ssl_options is None and not self.ip and
     not (self.read_only and not self.password)]. *)
Definition insecure (ssl : option ssl_dict) (self : Traits) : bool :=
  bool_decide (ssl = None) && negb (truthy (ip self))
  && negb (read_only self && negb (truthy (password self))).

(** The [ssl_options] built from [certfile] and [keyfile]. *)
Definition make_ssl_options (self : Traits) : option ssl_dict :=
  if truthy (certfile self)
  then Some (certfile self,
             if truthy (keyfile self) then Some (keyfile self) else None)
  else None.

(** The list the [for] statement iterates over:
    [range(self.port, self.port+5) +
     [self.port + randint(-2*n, 2*n) for i in range(n-5)]]. *)
Definition candidate_ports : M (list Z) :=
  self ← get_self;
  let head := py_range (port self) (port self + 5) in
  tail ← mapM (fun _ : Z =>
                 self ← get_self;
                 r ← randint (-2 * n) (2 * n);
                 mret (port self + r))
              (py_range 0 (n - 5));
  mret (head ++ tail).

(** The body of the [for] statement: one [listen] in a [try]. *)
Definition try_port (candidate : Z) : M flow :=
  try_except_else
    (self ← get_self; http_server_listen candidate (ip self))
    (fun e =>
       match e with
       | SocketError errno =>
           Some (if bool_decide (errno ≠ EADDRINUSE)
                 then raise e
                 else log INFO (MsgPortInUse candidate);; mret Next)
       | _ => None
       end)
    (fun _ => modify (with_traits (with_port candidate));; mret Break).

(** The port search alone: the tail of [init_webapp] from the comment
    [# Try random ports centered around the default.] on. *)
Definition acquire_port : M unit :=
  candidates ← candidate_ports;
  for_each candidates try_port.

(** [init_webapp].  Building the [NotebookWebApplication] and the
    [HTTPServer] object touches nothing of the modelled state but
    [ssl_options]. *)
Definition init_webapp : M unit :=
  self ← get_self;
  let ssl := make_ssl_options self in
  modify (with_ssl_options ssl);;
  (if insecure ssl self then log CRITICAL MsgInsecure else mret tt);;
  acquire_port.

(** *** Signals *)

Definition init_signal : M unit :=
  signal_signal SIGINT handle_sigint_handler;;
  signal_signal SIGTERM signal_stop_handler.

Definition _handle_sigint : M unit :=
  signal_signal SIGINT signal_stop_handler;;
  thread_start confirm_exit_target.

Definition _restore_sigint_handler : M unit :=
  signal_signal SIGINT handle_sigint_handler.

(** The test on the answer: [line.lower().startswith('y')]. *)
Definition affirmative (line : string) : bool := startswith "y" (lower line).

(** The last three statements of [_confirm_exit], reached on every path
    but the early [return]. *)
Definition resume_operation : M unit :=
  stdout_write "resuming operation...";;
  ioloop_add_callback restore_sigint_handler_callback.

Definition _confirm_exit : M unit :=
  stdout_write "Shutdown Notebook Server (y/[n])? ";;
  r ← select_stdin 5;
  if r : bool then
    line ← stdin_readline;
    if affirmative line then
      log CRITICAL MsgShutdownConfirmed;;
      ioloop_stop
    else resume_operation
  else
    stdout_write "No answer for 5s:";;
    resume_operation.

Definition _signal_stop (sig : signum) : M unit :=
  log CRITICAL (MsgReceivedSignal sig);;
  ioloop_stop.

(** Calling a registered handler. *)
Definition call_handler (h : handler) (sig : signum) : M unit :=
  match h with
  | default_int_handler => raise KeyboardInterrupt
  | handle_sigint_handler => _handle_sigint
  | signal_stop_handler => _signal_stop sig
  end.

(** Delivery of a signal: the handler registered at that moment runs.
    SIGTERM without a handler ends the process. *)
Definition deliver (sig : signum) : M unit :=
  p ← get;
  match sig with
  | SIGINT => call_handler (sigint p) SIGINT
  | SIGTERM =>
      match sigterm p with
      | Some h => call_handler h SIGTERM
      | None => raise (OtherError "terminated")
      end
  end.

(** The event loop runs each queued callback once, in order, and empties
    the queue. *)
Definition run_callback (cb : callback) : M unit :=
  match cb with
  | restore_sigint_handler_callback => _restore_sigint_handler
  end.

Definition ioloop_run_callbacks : M unit :=
  p ← get;
  modify (with_callbacks []);;
  for_each (callbacks p) (fun cb => run_callback cb;; mret Next).

(** The confirmation thread runs to its end. *)
Definition run_confirm_thread : M unit :=
  modify (fun p => with_threads (list_difference (threads p) [confirm_exit_target]) p);;
  _confirm_exit.

(** What the specification calls the coordinator's state, read off the
    process: stopping once [IOLoop.stop()] was called; otherwise by the
    handler registered for SIGINT. *)
Inductive SignalState : Type := Normal | ConfirmPending | ForcedStop.

Definition signal_state (p : Process) : option SignalState :=
  if stop_requested p then Some ForcedStop
  else match sigint p with
       | handle_sigint_handler => Some Normal
       | signal_stop_handler => Some ConfirmPending
       | default_int_handler => None
       end.

(** *** Teardown and [start] *)

(** [list(km.kernel_ids)]: the keys of the registry, copied. *)
Definition kernel_ids (p : Process) : list string := (map_to_list (kernels p)).*1.

(** Modelled from the spec: [MappingKernelManager.kill_kernel] lives in
    [kernelmanager.py], which is not among the sources.  Section 6 asks of
    the kernel subsystem's [stop(id)] that it is idempotent and that an
    unknown or already stopped id is no error, and section 4.3 that it
    changes the registry; so the call always returns and may change the
    registry in any way ([kill_effect]). *)
Definition kill_kernel (kid : string) : M unit :=
  modify (fun p => emit (EvKillKernel kid) (with_kernels (kill_effect w kid (kernels p)) p)).

Definition cleanup_kernels : M unit :=
  log INFO MsgShuttingDownKernels;;
  p ← get;
  for_each (kernel_ids p) (fun kid => kill_kernel kid;; mret Next).

(** The host shown in the log record of [start]
    ([self.ip if self.ip else '[all ip addresses on your system]']) and the
    host of the URL given to the browser ([self.ip or '127.0.0.1']). *)
Definition display_host (self : Traits) : string :=
  if truthy (ip self) then ip self else "[all ip addresses on your system]".
Definition browser_host (self : Traits) : string := str_or (ip self) "127.0.0.1".

(** The [if self.open_browser:] block of [start]. *)
Definition launch_browser (proto : string) : M unit :=
  self ← get_self;
  let ip := browser_host self in
  (if truthy (browser self)
   then webbrowser_get (Some (browser self))
   else webbrowser_get None);;
  thread_start (browser_open_target (proto, ip, port self, base_project_url self)).

(** The [try] statement that ends [start]. *)
Definition run_loop : M unit :=
  try_except_finally
    ioloop_start
    (fun e => match e with
              | KeyboardInterrupt => Some (log INFO MsgInterrupted)
              | _ => None
              end)
    cleanup_kernels.

Definition start : M unit :=
  self ← get_self;
  let ip := display_host self in
  let proto := if truthy (certfile self) then "https" else "http" in
  log INFO (MsgRunningAt proto ip (port self) (base_project_url self));;
  log INFO MsgUseControlC;;
  (if open_browser self then launch_browser proto else mret tt);;
  run_loop.

Variable su : Startup.

Definition init_configurables : M unit :=
  default_secure su;;
  new_kernel_manager su;;
  new_notebook_manager su;;
  list_notebooks su;;
  new_cluster_manager su;;
  update_profiles su.

(** [initialize], a method under the decorator [@catch_config_error]. *)
Definition initialize : M unit :=
  catch_config_error su
    (super_initialize su;;
     init_configurables;;
     init_webapp;;
     init_signal).

Definition launch_new_instance : M unit :=
  instance su;;
  initialize;;
  start.

(** *** Assignment to the [ip] trait *)

(** The observer [_ip_changed(self, name, old, new)]; [assign] is the
    assignment [self.ip = ...] it performs. *)
Definition _ip_changed (assign : string -> M unit) (name old new : string) : M unit :=
  if String.eqb new "*" then assign "" else mret tt.

(** Modelled from the spec: the trait machinery ([IPython.utils.traitlets])
    is not among the sources.  An assignment [self.ip = value] that changes
    the value stores it and then calls the observer [_ip_changed] with the
    old and the new value; the claim on the wildcard host describes this as
    "assigning to the ip setting immediately rewrites it".  [depth] bounds
    the nesting of assignments made from observers, as the interpreter's
    recursion limit does. *)
Fixpoint assign_ip (depth : nat) (value : string) : M unit :=
  match depth with
  | O => raise (OtherError "maximum recursion depth exceeded")
  | S d =>
      self ← get_self;
      let old := ip self in
      if String.eqb old value then mret tt
      else modify (with_traits (with_ip value));;
           _ip_changed (assign_ip d) "ip" old value
  end.

End NotebookApp.

(** ** Reading traces *)

(** Appending several events. *)
Definition emit_all (es : list event) (p : Process) : Process :=
  foldl (fun q e => emit e q) p es.

(** The ports [listen] was called with, in order. *)
Definition listened (es : list event) : list Z :=
  omap (fun e => match e with EvListen c _ => Some c | _ => None end) es.

(** The kernel ids [kill_kernel] was called with, in order. *)
Definition killed (es : list event) : list string :=
  omap (fun e => match e with EvKillKernel k => Some k | _ => None end) es.

(** What one refused attempt on [c] leaves in the trace: the call and the
    log record. *)
Definition refusals (host : string) (cands : list Z) : list event :=
  flat_map (fun c => [EvListen c host; EvLog INFO (MsgPortInUse c)]) cands.

(** Every port of [cands], at the time its turn comes (two events per
    refused attempt), is answered with address-in-use. *)
Fixpoint refused (w : World) (t : nat) (host : string) (cands : list Z) : bool :=
  match cands with
  | [] => true
  | c :: rest =>
      bool_decide (net w t c host = Some (SocketError EADDRINUSE))
      && refused w (S (S t)) host rest
  end.

(** The value of the [k]-th draw of [randint(-2*n, 2*n)]. *)
Definition offset (w : World) (k : nat) : Z :=
  -2 * n + entropy w k mod (2 * n - -2 * n + 1).

(** The candidate list as a function of the preferred port and of the
    number [d] of draws made before. *)
Definition candidates_from (w : World) (preferred : Z) (d : nat) : list Z :=
  py_range preferred (preferred + 5)
  ++ map (fun i => preferred + offset w (d + i)) (seq 0 (Z.to_nat (n - 5))).

(** The events one pass of the search can leave. *)
Definition search_event (e : event) : Prop :=
  match e with
  | EvListen _ _ => True
  | EvLog INFO (MsgPortInUse _) => True
  | _ => False
  end.

(** The state in which [init_webapp] starts its port search: the
    [ssl_options] are set and the warning, if any, is logged. *)
Definition before_search (p : Process) : Process :=
  let q := with_ssl_options (make_ssl_options (traits p)) p in
  if insecure (make_ssl_options (traits p)) (traits p)
  then emit (EvLog CRITICAL MsgInsecure) q
  else q.

(** What the user does after the prompt of [_confirm_exit] started in
    state [p]: [None] when nothing is typed within the timeout of [select],
    otherwise the line read.  The prompt is the first event, [select] the
    second, [readline] the third. *)
Definition answer (w : World) (p : Process) : option string :=
  if stdin_ready w (S (length (trace p))) 5
  then Some (stdin_line w (S (S (length (trace p)))))
  else None.

(** The answer came in time and passes the test of [_confirm_exit]. *)
Definition confirmed (w : World) (p : Process) : bool :=
  match answer w p with
  | Some line => affirmative line
  | None => false
  end.

(** The effect of the callback [_restore_sigint_handler] on the process. *)
Definition restored (p : Process) : Process :=
  emit (EvSignal SIGINT handle_sigint_handler) (with_sigint handle_sigint_handler p).

(** How many times [kill_kernel(kid)] was called in a run of events. *)
Definition requests (kid : string) (es : list event) : nat :=
  length (filter (fun k => k = kid) (killed es)).

(** The effect of one [kill_kernel(kid)] on the process. *)
Definition kill_step (w : World) (q : Process) (kid : string) : Process :=
  emit (EvKillKernel kid) (with_kernels (kill_effect w kid (kernels q)) q).

(** The state in which the [finally] clause of [start] begins, given how
    the loop was left: a [KeyboardInterrupt] is caught and logged first. *)
Definition at_exit (left : outcome unit * Process) : Process :=
  match fst left with
  | Raise KeyboardInterrupt => emit (EvLog INFO MsgInterrupted) (snd left)
  | _ => snd left
  end.

(** The argument of [webbrowser.get] in [start]. *)
Definition browser_name (self : Traits) : option string :=
  if truthy (browser self) then Some (browser self) else None.

(** The state of [start] after its two log records. *)
Definition announced (p : Process) : Process :=
  let self := traits p in
  let proto := if truthy (certfile self) then "https" else "http" in
  emit (EvLog INFO MsgUseControlC)
    (emit (EvLog INFO (MsgRunningAt proto (display_host self) (port self)
                         (base_project_url self))) p).

(** The state of [start] once the browser thread is started. *)
Definition browser_started (p : Process) : Process :=
  let self := traits p in
  let proto := if truthy (certfile self) then "https" else "http" in
  let t := browser_open_target (proto, browser_host self, port self,
                                base_project_url self) in
  let q := emit (EvWebbrowserGet (browser_name self)) (announced p) in
  emit (EvThreadStart t) (with_threads (threads p ++ [t]) q).

(** The depth of nested calls the interpreter allows by default. *)
Definition recursion_limit : nat := 1000.

(** The statement [self.ip = value], as configuration loading or any other
    code performs it. *)
Definition set_ip (value : string) : M unit := assign_ip recursion_limit value.

(** A sequence of assignments to the [ip] trait. *)
Definition configure (values : list string) : M unit :=
  for_each values (fun v => set_ip v;; mret Next).

(** ** The specification's wording, for comparison *)

(** "The valid port range" of TCP. *)
Definition valid_port (c : Z) : Prop := 0 <= c <= 65535.

(** The bind-time warning condition as the specification words it: no TLS
    configured, the host means all interfaces, and (no password is set or
    read-only mode is off). *)
Definition spec_warning_condition (self : Traits) : bool :=
  negb (truthy (certfile self)) && negb (truthy (ip self))
  && (negb (truthy (password self)) || negb (read_only self)).

(** ** Worlds and processes used in examples *)

(** A world with the given network and random source: nobody types, a
    browser is found, the loop returns at once, killing a kernel removes
    it from the registry. *)
Definition world_of (net0 : nat -> Z -> string -> option exn) (ent : nat -> Z) : World :=
  mkWorld ent net0 (fun _ _ => false) (fun _ => "") (fun _ => true)
    (fun p => (Return tt, p)) (fun kid m => delete kid m).

Definition all_free : nat -> Z -> string -> option exn := fun _ _ _ => None.
Definition all_in_use : nat -> Z -> string -> option exn :=
  fun _ _ _ => Some (SocketError EADDRINUSE).

(** Ports below [c0] are in use; [c0] and above fail with [errno]. *)
Definition in_use_below (c0 errno : Z) : nat -> Z -> string -> option exn :=
  fun _ c _ => if c <? c0 then Some (SocketError EADDRINUSE) else Some (SocketError errno).

(** The socket layer refuses a port outside 0..65535 with an
    [OverflowError]; every port inside is in use. *)
Definition port_checked : nat -> Z -> string -> option exn :=
  fun _ c _ =>
    if (0 <=? c) && (c <=? 65535)
    then Some (SocketError EADDRINUSE)
    else Some (OtherError "OverflowError: port must be 0-65535").

(** The user answers [line] in time. *)
Definition answering (line : string) : World :=
  mkWorld (fun _ => 0) all_free (fun _ _ => true) (fun _ => line) (fun _ => true)
    (fun p => (Return tt, p)) (fun kid m => delete kid m).

(** No browser can be found. *)
Definition no_browser : World :=
  mkWorld (fun _ => 0) all_free (fun _ _ => false) (fun _ => "") (fun _ => false)
    (fun p => (Return tt, p)) (fun kid m => delete kid m).

(** Killing kernel ["A"] also takes ["B"] out of the registry. *)
Definition entangled : World :=
  mkWorld (fun _ => 0) all_free (fun _ _ => false) (fun _ => "") (fun _ => true)
    (fun p => (Return tt, p))
    (fun kid m => if String.eqb kid "A" then delete "B" (delete "A" m) else delete kid m).

(** The loop is left by a propagating [KeyboardInterrupt]. *)
Definition interrupted : World :=
  mkWorld (fun _ => 0) all_free (fun _ _ => false) (fun _ => "") (fun _ => true)
    (fun p => (Raise KeyboardInterrupt, p)) (fun kid m => delete kid m).

Definition three_kernels : gmap string kernel_handle :=
  {[ "A" := tt; "B" := tt; "C" := tt ]}.

(** A start-up in which the constructor, the parent class and the
    managers return without touching the modelled state, and the decorator
    has nothing to catch. *)
Definition quiet_startup : Startup :=
  mkStartup (mret tt) (fun method => method) (mret tt) (mret tt) (mret tt)
    (mret tt) (mret tt) (mret tt) (mret tt).

(** A start-up whose configuration sets the host to all interfaces and
    whose kernel manager begins with an empty registry. *)
Definition configuring_startup : Startup :=
  mkStartup (mret tt) (fun method => method)
    (modify (with_traits (with_ip EmptyString)))
    (mret tt) (modify (with_kernels ∅)) (mret tt) (mret tt)
    (mret tt) (mret tt).

(** Every port is free, a browser is found, and while the loop runs the
    three kernels are started; then the loop returns. *)
Definition serving : World :=
  mkWorld (fun _ => 0) all_free (fun _ _ => false) (fun _ => "") (fun _ => true)
    (fun p => (Return tt, with_kernels three_kernels p)) (fun kid m => delete kid m).

(** The launch reaches [init_webapp] in state [p0]: the constructor, the
    parent's [initialize] and [init_configurables] have returned, and the
    decorator lets this run of [initialize] pass as it is. *)
Definition reaches_webapp (w : World) (su : Startup) (p p0 : Process) : Prop :=
  let p1 := after (instance su) p in
  result (instance su) p = Return tt
  /\ catch_config_error su
       (super_initialize su;; init_configurables su;; init_webapp w;; init_signal) p1
     = (super_initialize su;; init_configurables su;; init_webapp w;; init_signal) p1
  /\ result (super_initialize su;; init_configurables su) p1 = Return tt
  /\ p0 = after (super_initialize su;; init_configurables su) p1.

(** ** The rest of the module: URL joining, routes, settings, MathJax *)

(** [s.endswith(suffix)]: some tail of [s] is [suffix]. *)
Fixpoint endswith (suffix s : string) : bool :=
  String.eqb suffix s
  || match s with
     | EmptyString => false
     | String _ s' => endswith suffix s'
     end.

(** [s[:-1]]: all but the last character; empty for the empty string. *)
Fixpoint drop_last (s : string) : string :=
  match s with
  | EmptyString => EmptyString
  | String c s' =>
      match s' with
      | EmptyString => EmptyString
      | String _ _ => String c (drop_last s')
      end
  end.

(** [url_path_join(a, b)]. *)
Definition url_path_join (a b : string) : string :=
  if endswith "/" a && startswith "/" b
  then drop_last a +:+ b
  else a +:+ b.

(** The module's regular expressions. *)
Definition _kernel_id_regex : string := "(?P<kernel_id>\w+-\w+-\w+-\w+-\w+)".
Definition _kernel_action_regex : string := "(?P<action>restart|interrupt)".
Definition _notebook_id_regex : string := "(?P<notebook_id>\w+-\w+-\w+-\w+-\w+)".
Definition _profile_regex : string := "(?P<profile>[a-zA-Z0-9]+)".
Definition _cluster_action_regex : string := "(?P<action>start|stop)".

(** The request handler classes imported from [.handlers]. *)
Inductive handler_class : Type :=
| ProjectDashboardHandler | LoginHandler | LogoutHandler | NewHandler
| NamedNotebookHandler | NotebookCopyHandler | PrintNotebookHandler
| MainKernelHandler | KernelHandler | KernelActionHandler | IOPubHandler
| ShellHandler | NotebookRootHandler | NotebookHandler | RSTHandler
| AuthenticatedFileHandler | MainClusterHandler | ClusterActionHandler
| ClusterProfileHandler.

(** A route: the pattern, the class, and the keyword arguments of the
    class when the tuple has a third item. *)
Definition route : Type := (string * handler_class * list (string * string))%type.

(** The list [handlers] of [NotebookWebApplication.__init__]. *)
Definition handlers (notebook_dir : string) : list route :=
  [ ("/", ProjectDashboardHandler, []);
    ("/login", LoginHandler, []);
    ("/logout", LogoutHandler, []);
    ("/new", NewHandler, []);
    ("/" +:+ _notebook_id_regex, NamedNotebookHandler, []);
    ("/" +:+ _notebook_id_regex +:+ "/copy", NotebookCopyHandler, []);
    ("/" +:+ _notebook_id_regex +:+ "/print", PrintNotebookHandler, []);
    ("/kernels", MainKernelHandler, []);
    ("/kernels/" +:+ _kernel_id_regex, KernelHandler, []);
    ("/kernels/" +:+ _kernel_id_regex +:+ "/" +:+ _kernel_action_regex,
     KernelActionHandler, []);
    ("/kernels/" +:+ _kernel_id_regex +:+ "/iopub", IOPubHandler, []);
    ("/kernels/" +:+ _kernel_id_regex +:+ "/shell", ShellHandler, []);
    ("/notebooks", NotebookRootHandler, []);
    ("/notebooks/" +:+ _notebook_id_regex, NotebookHandler, []);
    ("/rstservice/render", RSTHandler, []);
    ("/files/(.*)", AuthenticatedFileHandler, [("path", notebook_dir)]);
    ("/clusters", MainClusterHandler, []);
    ("/clusters/" +:+ _profile_regex +:+ "/" +:+ _cluster_action_regex,
     ClusterActionHandler, []);
    ("/clusters/" +:+ _profile_regex, ClusterProfileHandler, []) ].

(** The loop that prepends [base_project_url] (already converted to a
    byte string) onto the patterns:
    [tuple([pattern] + list(handler[1:]))] for each handler. *)
Definition new_handlers (base_project_url notebook_dir : string) : list route :=
  map (fun handler : route =>
         let pattern := url_path_join base_project_url handler.1.1 in
         (pattern, handler.1.2, handler.2))
      (handlers notebook_dir).

(** [os.path.join(a, b)] on a POSIX system. *)
Definition posix_join (a b : string) : string :=
  if startswith "/" b then b
  else if String.eqb a EmptyString || endswith "/" a then a +:+ b
  else a +:+ "/" +:+ b.

(** The [settings] of the web application: the four defaults, then
    [settings.update(settings_overrides)].  [here] is
    [os.path.dirname(__file__)], [cookie_secret] the bytes
    [os.urandom(1024)] returned. *)
Definition default_settings (here cookie_secret : string) : gmap string string :=
  {[ "template_path" := posix_join here "templates";
     "static_path" := posix_join here "static";
     "cookie_secret" := cookie_secret;
     "login_url" := "/login" ]}.

Definition web_settings (here cookie_secret : string)
    (settings_overrides : gmap string string) : gmap string string :=
  settings_overrides ∪ default_settings here cookie_secret.

(** [s.split(sep)] for a one-character separator. *)
Fixpoint split_on (sep : ascii) (s : string) : list string :=
  match s with
  | EmptyString => [EmptyString]
  | String c s' =>
      if Ascii.eqb c sep then EmptyString :: split_on sep s'
      else match split_on sep s' with
           | part :: parts => String c part :: parts
           | [] => [String c EmptyString]
           end
  end.

(** How often a character occurs in a string. *)
Fixpoint occurrences (c : ascii) (s : string) : nat :=
  match s with
  | EmptyString => O
  | String c' s' => (if Ascii.eqb c' c then 1 else 0) + occurrences c s'
  end.

Inductive mathjax_level : Type := LOG_INFO | LOG_WARN | LOG_ERROR.

(** The log records of the MathJax methods. *)
Inductive mathjax_message : Type :=
| UsingLocalMathJax
| UsingMathJaxFromCDN
| CouldntDetermineCDN
| CouldntResolveCloudFront
| LoadingWillProbablyFail
| ForUnsecuredAccess
| UnsecuredConfigLine
| UsingMathJax (url : string).

(** What [_mathjax_url_default] asks the machine: [os.path.exists], and
    [socket.gethostbyname_ex], which gives the true host name and the alias
    list or raises ([None]). *)
Record Lookup : Type := mkLookup {
  path_exists : string -> bool;
  gethostbyname_ex : string -> option (string * list string)
}.

(** The test in the alias loop:
    [len(parts) == 3 and alias.endswith(".cloudfront.net")]. *)
Definition is_static_cloudfront (alias : string) : bool :=
  (length (split_on "." alias) =? 3)%nat && endswith ".cloudfront.net" alias.

(** The [for alias in aliases] loop with its [break]: the host name it
    leaves in [hostname]. *)
Fixpoint pick_alias (hostname : string) (aliases : list string) : string :=
  match aliases with
  | [] => hostname
  | alias :: rest =>
      if is_static_cloudfront alias then alias else pick_alias hostname rest
  end.

(** The four error records logged when no CloudFront host was found. *)
Definition cloudfront_errors : list (mathjax_level * mathjax_message) :=
  [ (LOG_ERROR, CouldntResolveCloudFront); (LOG_ERROR, LoadingWillProbablyFail);
    (LOG_ERROR, ForUnsecuredAccess); (LOG_ERROR, UnsecuredConfigLine) ].

(** [_mathjax_url_default]: the URL and the log records written. *)
Definition _mathjax_url_default (enable_mathjax : bool)
    (webapp_settings : gmap string string) (here : string) (env : Lookup)
    : string * list (mathjax_level * mathjax_message) :=
  if negb enable_mathjax then (EmptyString, [])
  else
    let static_path :=
      default (posix_join here "static") (webapp_settings !! "static_path") in
    let static_url_prefix :=
      default "/static/" (webapp_settings !! "static_url_prefix") in
    if path_exists env (posix_join (posix_join static_path "mathjax") "MathJax.js")
    then (static_url_prefix +:+ "mathjax/MathJax.js", [(LOG_INFO, UsingLocalMathJax)])
    else
      let hostname := "cdn.mathjax.org" in
      let resolved :=
        match gethostbyname_ex env hostname with
        | None => (hostname, [(LOG_WARN, CouldntDetermineCDN)])
        | Some (true_host, aliases) =>
            (pick_alias hostname (true_host :: aliases), [])
        end in
      let hostname := resolved.1 in
      ("https://" +:+ hostname +:+ "/mathjax/latest/MathJax.js",
       [(LOG_INFO, UsingMathJaxFromCDN)] ++ resolved.2
       ++ (if negb (endswith ".cloudfront.net" hostname)
           then cloudfront_errors else [])).

(** The two MathJax traits and the log. *)
Record MathJaxTraits : Type := mkMathJaxTraits {
  enable_mathjax : bool;
  mathjax_url : string;
  mathjax_log : list (mathjax_level * mathjax_message)
}.

Definition store_mathjax_url (v : string) (s : MathJaxTraits) : MathJaxTraits :=
  mkMathJaxTraits (enable_mathjax s) v (mathjax_log s).
Definition store_enable_mathjax (v : bool) (s : MathJaxTraits) : MathJaxTraits :=
  mkMathJaxTraits v (mathjax_url s) (mathjax_log s).
Definition log_mathjax (lvl : mathjax_level) (msg : mathjax_message)
    (s : MathJaxTraits) : MathJaxTraits :=
  mkMathJaxTraits (enable_mathjax s) (mathjax_url s) (mathjax_log s ++ [(lvl, msg)]).

(** The observer [_enable_mathjax_changed]; [assign_url] is the
    assignment [self.mathjax_url = ...] it performs.  [None] stands for the
    interpreter giving up on too deep a nesting. *)
Definition _enable_mathjax_changed
    (assign_url : string -> MathJaxTraits -> option MathJaxTraits)
    (name : string) (old new : bool) (s : MathJaxTraits) : option MathJaxTraits :=
  if negb new then assign_url EmptyString s else Some s.

(** The observer [_mathjax_url_changed]. *)
Definition _mathjax_url_changed
    (assign_url : string -> MathJaxTraits -> option MathJaxTraits)
    (name old new : string) (s : MathJaxTraits) : option MathJaxTraits :=
  if truthy new && negb (enable_mathjax s)
  then assign_url EmptyString s
  else Some (log_mathjax LOG_INFO (UsingMathJax new) s).

(** Modelled from the spec: the trait machinery ([IPython.utils.traitlets])
    is not among the sources.  As for the [ip] trait, an assignment that
    changes the value stores it and then calls the trait's observer with the
    old and the new value; [depth] bounds the nesting of assignments made
    from observers. *)
Fixpoint assign_mathjax_url (depth : nat) (value : string) (s : MathJaxTraits)
    : option MathJaxTraits :=
  match depth with
  | O => None
  | S d =>
      let old := mathjax_url s in
      if String.eqb old value then Some s
      else _mathjax_url_changed (assign_mathjax_url d) "mathjax_url" old value
             (store_mathjax_url value s)
  end.

Definition assign_enable_mathjax (depth : nat) (value : bool) (s : MathJaxTraits)
    : option MathJaxTraits :=
  match depth with
  | O => None
  | S d =>
      let old := enable_mathjax s in
      if Bool.eqb old value then Some s
      else _enable_mathjax_changed (assign_mathjax_url d) "enable_mathjax" old value
             (store_enable_mathjax value s)
  end.

(** One assignment to either trait, and a sequence of them. *)
Inductive mathjax_assignment : Type :=
| SetEnableMathjax (value : bool)
| SetMathjaxUrl (value : string).

Definition assign_mathjax (a : mathjax_assignment) (s : MathJaxTraits)
    : option MathJaxTraits :=
  match a with
  | SetEnableMathjax v => assign_enable_mathjax recursion_limit v s
  | SetMathjaxUrl v => assign_mathjax_url recursion_limit v s
  end.

Fixpoint assign_all_mathjax (l : list mathjax_assignment) (s : MathJaxTraits)
    : option MathJaxTraits :=
  match l with
  | [] => Some s
  | a :: rest =>
      match assign_mathjax a s with
      | Some s' => assign_all_mathjax rest s'
      | None => None
      end
  end.

(** ** The alias table *)

(** The dict given to [aliases.update]. *)
Definition notebook_alias_updates : gmap string string :=
  {[ "ip" := "NotebookApp.ip";
     "port" := "NotebookApp.port";
     "keyfile" := "NotebookApp.keyfile";
     "certfile" := "NotebookApp.certfile";
     "notebook-dir" := "NotebookManager.notebook_dir";
     "browser" := "NotebookApp.browser" ]}.

(** The module's [aliases]: a copy of the kernel's table, updated, with
    [f] popped. *)
Definition aliases (ipkernel_aliases : gmap string string) : gmap string string :=
  delete "f" (notebook_alias_updates ∪ ipkernel_aliases).

(** The aliases scrubbed from the kernel's command line. *)
Definition notebook_aliases : list string :=
  ["port"; "ip"; "keyfile"; "certfile"; "notebook-dir"].

(** ** Activity around the signal coordinator *)

(** What can happen to the coordinator once the loop runs: a signal
    arrives, the confirmation thread (if one is outstanding) runs to its
    end, the loop runs its queued callbacks. *)
Inductive action : Type :=
| Interrupt
| Terminate
| ConfirmThreadRuns
| LoopRunsCallbacks.

Definition perform (w : World) (a : action) : M unit :=
  match a with
  | Interrupt => deliver SIGINT
  | Terminate => deliver SIGTERM
  | ConfirmThreadRuns =>
      p ← get;
      if bool_decide (confirm_exit_target ∈ threads p)
      then run_confirm_thread w
      else mret tt
  | LoopRunsCallbacks => ioloop_run_callbacks
  end.

Definition perform_all (w : World) (l : list action) : M unit :=
  for_each l (fun a => perform w a;; mret Next).

(** Confirmation threads started and not finished, plus restorations
    queued and not run. *)
Definition outstanding (p : Process) : nat :=
  (length (filter (fun t => t = confirm_exit_target) (threads p))
   + length (callbacks p))%nat.

(** The coordinator's invariant once [init_signal] has run. *)
Definition coordinated (p : Process) : Prop :=
  sigterm p = Some signal_stop_handler
  /\ sigint p <> default_int_handler
  /\ (outstanding p <= 1)%nat
  /\ (sigint p = handle_sigint_handler -> outstanding p = 0%nat).

(** The parts of the process the port search does not touch. *)
Definition search_frame (p q : Process) : Prop :=
  ssl_options q = ssl_options p
  /\ sigint q = sigint p
  /\ sigterm q = sigterm p
  /\ stop_requested q = stop_requested p
  /\ callbacks q = callbacks p
  /\ threads q = threads p
  /\ kernels q = kernels p.

(** * Properties *)

(** ** Running computations *)

(** Decidable facts on concrete runs are settled by running. *)
Ltac by_evaluation := apply (bool_decide_unpack _); vm_compute; exact I.

Lemma run_bind {A B} (m : M A) (k : A -> M B) (p : Process) :
  (m ≫= k) p = match m p with
               | (Return a, p') => k a p'
               | (Raise e, p') => (Raise e, p')
               end.
Proof. reflexivity. Qed.

Lemma trace_emit_all es p : trace (emit_all es p) = trace p ++ es.
Proof.
  revert p. induction es as [|e es IH]; intros p; simpl.
  - by rewrite app_nil_r.
  - rewrite IH. simpl. by rewrite <- app_assoc.
Qed.

Lemma traits_emit_all es p : traits (emit_all es p) = traits p.
Proof. revert p. induction es as [|e es IH]; intros p; simpl; [done|by rewrite IH]. Qed.

Lemma sockets_emit_all es p : sockets (emit_all es p) = sockets p.
Proof. revert p. induction es as [|e es IH]; intros p; simpl; [done|by rewrite IH]. Qed.

Lemma emitted_extends {A} (m : M A) p es :
  trace (after m p) = trace p ++ es -> emitted m p = es.
Proof. intros H. unfold emitted. rewrite H. by rewrite drop_app_length. Qed.

Lemma listened_app es1 es2 : listened (es1 ++ es2) = listened es1 ++ listened es2.
Proof. unfold listened. apply omap_app. Qed.

Lemma listened_refusals host cands : listened (refusals host cands) = cands.
Proof. induction cands as [|c cands IH]; simpl; [done|by rewrite IH]. Qed.

(** ** One attempt *)

Section Attempt.

Variable w : World.

Lemma try_port_free c p :
  net w (length (trace p)) c (ip (traits p)) = None ->
  try_port w c p =
    (Return Break,
     with_traits (with_port c)
       (with_sockets (sockets p ++ [(c, ip (traits p))])
          (emit (EvListen c (ip (traits p))) p))).
Proof.
  intros H. unfold try_port, try_except_else.
  rewrite run_bind. unfold get_self, http_server_listen. simpl. by rewrite H.
Qed.

Lemma try_port_in_use c p :
  net w (length (trace p)) c (ip (traits p)) = Some (SocketError EADDRINUSE) ->
  try_port w c p =
    (Return Next,
     emit (EvLog INFO (MsgPortInUse c)) (emit (EvListen c (ip (traits p))) p)).
Proof.
  intros H. unfold try_port, try_except_else.
  rewrite run_bind. unfold get_self, http_server_listen. simpl. by rewrite H.
Qed.

Lemma try_port_fatal c p e :
  net w (length (trace p)) c (ip (traits p)) = Some e ->
  e <> SocketError EADDRINUSE ->
  try_port w c p = (Raise e, emit (EvListen c (ip (traits p))) p).
Proof.
  intros H Hne. unfold try_port, try_except_else.
  rewrite run_bind. unfold get_self, http_server_listen. simpl. rewrite H.
  destruct e as [errno| | |what]; try reflexivity.
  rewrite bool_decide_true; [reflexivity|congruence].
Qed.

(** A run of refused candidates is walked through to its end, leaving
    only its calls and log records. *)
Lemma for_each_refused pre rest p :
  refused w (length (trace p)) (ip (traits p)) pre = true ->
  for_each (pre ++ rest) (try_port w) p =
  for_each rest (try_port w) (emit_all (refusals (ip (traits p)) pre) p).
Proof.
  revert p. induction pre as [|c pre IH]; intros p H; [reflexivity|].
  simpl in H. apply andb_true_iff in H as [Hc Hrest].
  apply bool_decide_eq_true in Hc.
  change ((c :: pre) ++ rest) with (c :: (pre ++ rest)).
  cbn [for_each]. rewrite run_bind, (try_port_in_use _ _ Hc).
  rewrite IH; [reflexivity|].
  simpl. rewrite !length_app. simpl. rewrite !Nat.add_1_r. exact Hrest.
Qed.

End Attempt.

(** ** The candidate list *)

Section Candidates.

Variable w : World.

Lemma offset_range k : -2 * n <= offset w k <= 2 * n.
Proof.
  unfold offset, n.
  pose proof (Z.mod_pos_bound (entropy w k) (2 * 50 - -2 * 50 + 1)). lia.
Qed.

Lemma with_draws_same p : with_draws (draws p) p = p.
Proof. by destruct p. Qed.

(** The list comprehension draws once per item of [range(n-5)], in
    order. *)
Lemma comprehension_draws (l : list Z) p :
  mapM (fun _ : Z =>
          self ← get_self;
          r ← randint w (-2 * n) (2 * n);
          mret (port self + r)) l p
  = (Return (map (fun i => port (traits p) + offset w (draws p + i)%nat)
               (seq 0 (length l))),
     with_draws (draws p + length l)%nat p).
Proof.
  revert p. induction l as [|x l IH]; intros p.
  - simpl. rewrite Nat.add_0_r, with_draws_same. reflexivity.
  - cbn [mapM]. unfold mbind, M_bind, bind, get_self, randint, mret, M_ret, ret in *.
    cbn beta iota. rewrite IH. cbn beta iota. fold (offset w (draws p)).
    f_equal.
    + f_equal. cbn [length seq map]. rewrite Nat.add_0_r. f_equal.
      rewrite <- seq_shift, map_map. apply map_ext. intros i.
      simpl. do 2 f_equal. lia.
    + destruct p; unfold with_draws; simpl. f_equal. lia.
Qed.

Lemma length_py_range a b : length (py_range a b) = Z.to_nat (b - a).
Proof. unfold py_range. by rewrite length_map, length_seq. Qed.

Lemma candidate_ports_run p :
  candidate_ports w p =
    (Return (candidates_from w (port (traits p)) (draws p)),
     with_draws (draws p + Z.to_nat (n - 5))%nat p).
Proof.
  unfold candidate_ports. rewrite run_bind. unfold get_self at 1. cbn beta iota.
  rewrite run_bind, comprehension_draws. cbn beta iota.
  rewrite length_py_range. rewrite Z.sub_0_r. reflexivity.
Qed.

(** The first five candidates are the preferred port and its four
    successors; [n - 5] drawn ones follow. *)
Lemma candidates_from_shape preferred d :
  candidates_from w preferred d =
    [preferred; preferred + 1; preferred + 2; preferred + 3; preferred + 4]
    ++ map (fun i => preferred + offset w (d + i)%nat) (seq 0 45).
Proof.
  unfold candidates_from, py_range.
  replace (preferred + 5 - preferred) with 5 by lia.
  simpl. f_equal. apply Z.add_0_r.
Qed.

Lemma length_candidates_from preferred d :
  length (candidates_from w preferred d) = 50%nat.
Proof. rewrite candidates_from_shape. rewrite length_app, length_map, length_seq. reflexivity. Qed.

End Candidates.

(** ** The port search *)

Section Search.

Variable w : World.

Lemma refused_always t host cands :
  (forall t' c, c ∈ cands -> net w t' c host = Some (SocketError EADDRINUSE)) ->
  refused w t host cands = true.
Proof.
  revert t. induction cands as [|c cands IH]; intros t H; [reflexivity|].
  simpl. apply andb_true_iff. split.
  - apply bool_decide_eq_true. apply H. left.
  - apply IH. intros t' c' Hc'. apply H. by right.
Qed.

Lemma length_refusals host cands :
  length (refusals host cands) = (2 * length cands)%nat.
Proof. induction cands as [|c cands IH]; simpl; [done|rewrite IH; lia]. Qed.

(** Whatever the network answers, the loop calls [listen] on an initial
    segment of the candidates, in their order, and leaves nothing but those
    calls and its log records. *)
Lemma for_each_try_port_events cands p :
  exists es,
    trace (after (for_each cands (try_port w)) p) = trace p ++ es
    /\ listened es `prefix_of` cands
    /\ Forall search_event es.
Proof.
  revert p. induction cands as [|c cands IH]; intros p.
  - exists []. simpl. rewrite app_nil_r. repeat split; [done|constructor].
  - unfold after. cbn [for_each]. rewrite run_bind.
    destruct (net w (length (trace p)) c (ip (traits p))) as [e|] eqn:Hnet.
    + destruct (decide (e = SocketError EADDRINUSE)) as [->|Hne].
      * rewrite (try_port_in_use _ _ _ Hnet).
        destruct (IH (emit (EvLog INFO (MsgPortInUse c))
                        (emit (EvListen c (ip (traits p))) p))) as (es & Htr & Hpre & Hall).
        exists ([EvListen c (ip (traits p)); EvLog INFO (MsgPortInUse c)] ++ es).
        unfold after in Htr. rewrite Htr. simpl. rewrite <- !app_assoc. simpl.
        repeat split.
        -- by apply prefix_cons.
        -- repeat constructor. exact Hall.
      * rewrite (try_port_fatal _ _ _ _ Hnet Hne).
        exists [EvListen c (ip (traits p))]. simpl. repeat split.
        -- apply prefix_cons, prefix_nil.
        -- repeat constructor.
    + rewrite (try_port_free _ _ _ Hnet).
      exists [EvListen c (ip (traits p))]. simpl. repeat split.
      -- apply prefix_cons, prefix_nil.
      -- repeat constructor.
Qed.

Lemma acquire_port_run p :
  acquire_port w p =
    for_each (candidates_from w (port (traits p)) (draws p)) (try_port w)
      (with_draws (draws p + Z.to_nat (n - 5))%nat p).
Proof. unfold acquire_port. by rewrite run_bind, candidate_ports_run. Qed.

(** The loop stops at the first candidate that is not refused with
    address-in-use, raising what [listen] raised. *)
Lemma for_each_fatal pre c post p e :
  refused w (length (trace p)) (ip (traits p)) pre = true ->
  net w (length (trace p) + 2 * length pre)%nat c (ip (traits p)) = Some e ->
  e <> SocketError EADDRINUSE ->
  for_each (pre ++ c :: post) (try_port w) p =
    (Raise e,
     emit (EvListen c (ip (traits p))) (emit_all (refusals (ip (traits p)) pre) p)).
Proof.
  intros Hpre Hnet Hne. rewrite (for_each_refused _ _ _ _ Hpre).
  cbn [for_each]. rewrite run_bind.
  rewrite (try_port_fatal w c _ e).
  - by rewrite traits_emit_all.
  - by rewrite trace_emit_all, traits_emit_all, length_app, length_refusals.
  - exact Hne.
Qed.

(** The loop stops at the first free candidate, binds it and makes it the
    effective port. *)
Lemma for_each_bound pre c post p :
  refused w (length (trace p)) (ip (traits p)) pre = true ->
  net w (length (trace p) + 2 * length pre)%nat c (ip (traits p)) = None ->
  for_each (pre ++ c :: post) (try_port w) p =
    (Return tt,
     let q := emit_all (refusals (ip (traits p)) pre) p in
     with_traits (with_port c)
       (with_sockets (sockets p ++ [(c, ip (traits p))])
          (emit (EvListen c (ip (traits p))) q))).
Proof.
  intros Hpre Hnet. rewrite (for_each_refused _ _ _ _ Hpre).
  cbn [for_each]. rewrite run_bind.
  rewrite (try_port_free w c _).
  - by rewrite traits_emit_all, sockets_emit_all.
  - by rewrite trace_emit_all, traits_emit_all, length_app, length_refusals.
Qed.

(** When every candidate is refused the loop runs off its end. *)
Lemma for_each_exhausted cands p :
  refused w (length (trace p)) (ip (traits p)) cands = true ->
  for_each cands (try_port w) p =
    (Return tt, emit_all (refusals (ip (traits p)) cands) p).
Proof.
  intros H. rewrite <- (app_nil_r cands) at 1.
  by rewrite (for_each_refused _ _ _ _ H).
Qed.

End Search.

(** ** Port acquisition in [init_webapp] *)

Section Acquisition.

Variable w : World.

Lemma truthy_false s : truthy s = false <-> s = "".
Proof.
  unfold truthy. rewrite negb_false_iff. apply String.eqb_eq.
Qed.

Lemma truthy_true s : truthy s = true <-> s <> "".
Proof.
  unfold truthy. rewrite negb_true_iff. apply String.eqb_neq.
Qed.

Lemma init_webapp_run p : init_webapp w p = acquire_port w (before_search p).
Proof.
  unfold init_webapp, before_search. rewrite run_bind. unfold get_self at 1.
  cbn beta iota zeta. rewrite run_bind. unfold modify at 1. cbn beta iota.
  rewrite run_bind.
  destruct (insecure (make_ssl_options (traits p)) (traits p)); reflexivity.
Qed.

Lemma acquire_port_events p :
  exists es,
    trace (after (acquire_port w) p) = trace p ++ es
    /\ listened es `prefix_of` candidates_from w (port (traits p)) (draws p)
    /\ Forall search_event es.
Proof.
  unfold after. rewrite acquire_port_run.
  apply (for_each_try_port_events w _
           (with_draws (draws p + Z.to_nat (n - 5))%nat p)).
Qed.

Lemma insecure_iff self :
  insecure (make_ssl_options self) self = true <->
  certfile self = "" /\ ip self = ""
  /\ (password self <> "" \/ read_only self = false).
Proof.
  unfold insecure, make_ssl_options.
  rewrite !andb_true_iff, !negb_true_iff, andb_false_iff, negb_false_iff.
  rewrite bool_decide_eq_true, !truthy_false, truthy_true.
  destruct (truthy (certfile self)) eqn:Hc.
  - apply truthy_true in Hc. split; [intros [[? _] _]; discriminate|tauto].
  - apply truthy_false in Hc. tauto.
Qed.

Lemma before_search_shape p :
  before_search p
  = emit_all (if insecure (make_ssl_options (traits p)) (traits p)
              then [EvLog CRITICAL MsgInsecure] else [])
      (with_ssl_options (make_ssl_options (traits p)) p).
Proof. unfold before_search. destruct (insecure _ _); reflexivity. Qed.

Lemma trace_before_search p :
  trace (before_search p)
  = trace p ++ (if insecure (make_ssl_options (traits p)) (traits p)
                then [EvLog CRITICAL MsgInsecure] else []).
Proof. rewrite before_search_shape, trace_emit_all. reflexivity. Qed.

Lemma after_init_webapp p :
  after (init_webapp w) p = after (acquire_port w) (before_search p).
Proof. unfold after. rewrite init_webapp_run. reflexivity. Qed.

(** What [init_webapp] leaves in the trace: the warning or nothing, then
    the events of the search. *)
Lemma init_webapp_emitted p :
  exists es,
    emitted (init_webapp w) p
    = (if insecure (make_ssl_options (traits p)) (traits p)
       then [EvLog CRITICAL MsgInsecure] else []) ++ es
    /\ Forall search_event es.
Proof.
  destruct (acquire_port_events (before_search p)) as (es & Htr & _ & Hall).
  exists es. split; [|exact Hall].
  apply emitted_extends.
  rewrite after_init_webapp, Htr, trace_before_search.
  symmetry. apply app_assoc.
Qed.

End Acquisition.

(** ** Claims on port acquisition *)

(** C1, evaluated on the code: when every candidate port is refused with
    address-in-use at every moment, [init_webapp] tries the whole list of
    fifty candidates and then returns normally.  No exception is raised, the
    [port] trait keeps the preferred port, and no socket is bound. *)
Theorem exhaustion_returns_normally (w : World) (p : Process) :
  (forall t c, c ∈ candidates_from w (port (traits p)) (draws p) ->
               net w t c (ip (traits p)) = Some (SocketError EADDRINUSE)) ->
  result (init_webapp w) p = Return tt
  /\ listened (emitted (init_webapp w) p)
     = candidates_from w (port (traits p)) (draws p)
  /\ length (listened (emitted (init_webapp w) p)) = 50%nat
  /\ port (traits (after (init_webapp w) p)) = port (traits p)
  /\ sockets (after (init_webapp w) p) = sockets p.
Proof.
  intros Hbusy.
  set (cands := candidates_from w (port (traits p)) (draws p)) in *.
  set (q := with_draws (draws (before_search p) + Z.to_nat (n - 5))%nat (before_search p)).
  assert (Htraits : traits (before_search p) = traits p).
  { unfold before_search. by destruct (insecure _ _). }
  assert (Hdraws : draws (before_search p) = draws p).
  { unfold before_search. by destruct (insecure _ _). }
  assert (Hsock : sockets (before_search p) = sockets p).
  { unfold before_search. by destruct (insecure _ _). }
  assert (Hrun : init_webapp w p = (Return tt, emit_all (refusals (ip (traits p)) cands) q)).
  { rewrite init_webapp_run, acquire_port_run. fold q.
    rewrite Htraits, Hdraws. fold cands.
    rewrite (for_each_exhausted w cands q).
    - unfold q. simpl. by rewrite Htraits.
    - apply refused_always. intros t' c Hc. unfold q. simpl. rewrite Htraits.
      by apply Hbusy. }
  assert (Hev : emitted (init_webapp w) p
                = (if insecure (make_ssl_options (traits p)) (traits p)
                   then [EvLog CRITICAL MsgInsecure] else [])
                  ++ refusals (ip (traits p)) cands).
  { apply emitted_extends. unfold after. rewrite Hrun. simpl.
    rewrite trace_emit_all. unfold q, before_search. simpl.
    destruct (insecure _ _); simpl; [by rewrite <- app_assoc|reflexivity]. }
  unfold result, after. rewrite Hev. rewrite Hrun. simpl.
  rewrite listened_app, listened_refusals.
  assert (Hnone : listened (if insecure (make_ssl_options (traits p)) (traits p)
                            then [EvLog CRITICAL MsgInsecure] else []) = []).
  { by destruct (insecure _ _). }
  rewrite Hnone. simpl.
  rewrite traits_emit_all, sockets_emit_all. unfold q. simpl.
  rewrite Htraits, Hsock. repeat split.
  apply length_candidates_from.
Qed.

(** The same at a concrete input: every port is in use at all times. *)
Lemma exhaustion_returns_normally_witness :
  let w := world_of all_in_use (fun k => Z.of_nat k * 37) in
  let p := boot default_traits ∅ in
  result (init_webapp w) p = Return tt
  /\ listened (emitted (init_webapp w) p)
     = candidates_from w (port (traits p)) (draws p)
  /\ length (listened (emitted (init_webapp w) p)) = 50%nat
  /\ port (traits (after (init_webapp w) p)) = port (traits p)
  /\ sockets (after (init_webapp w) p) = sockets p.
Proof.
  intros w p. apply (exhaustion_returns_normally w p). reflexivity.
Defined.

(** The server then goes on: with every port in use, [launch_new_instance]
    announces the preferred port and runs the event loop with no socket
    bound. *)
Example unbound_server_runs :
  let w := world_of all_in_use (fun k => Z.of_nat k * 37) in
  let p := boot default_traits ∅ in
  result (launch_new_instance w quiet_startup) p = Return tt
  /\ sockets (after (launch_new_instance w quiet_startup) p) = []
  /\ EvLog INFO (MsgRunningAt "http" "127.0.0.1" 8888 "/")
       ∈ trace (after (launch_new_instance w quiet_startup) p)
  /\ EvLoopStart ∈ trace (after (launch_new_instance w quiet_startup) p).
Proof.
  repeat split; try reflexivity; by_evaluation.
Qed.

Lemma nth_in_range (ds : list Z) (i : nat) :
  Forall (fun d => -2 * n <= d <= 2 * n) ds -> -2 * n <= nth i ds 0 <= 2 * n.
Proof.
  intros H. revert i. induction H as [|d ds Hd _ IH]; intros [|i]; simpl;
    try (unfold n; lia); [exact Hd|apply IH].
Qed.

Lemma map_nth_seq (f : Z -> Z) (ds : list Z) :
  map (fun i => f (nth i ds 0)) (seq 0 (length ds)) = map f ds.
Proof.
  induction ds as [|d ds IH]; [reflexivity|].
  cbn [length seq map nth]. f_equal.
  rewrite <- seq_shift, map_map. exact IH.
Qed.

(** C2, as the code has it, for a preferred port [P] whose whole interval
    [P - 2n, P + 2n] lies in the port range: the candidates are [P] and its
    four successors, in order, followed by exactly [n - 5 = 45] further ones
    ([n = 50] is the whole budget, the first five included), each a port of
    that interval: [P] plus a draw of [randint(-2n, 2n)].  A draw takes each
    of the [4n + 1] values of [-2n .. 2n] on exactly one residue of the
    random source modulo [4n + 1], so it is uniform when the source is; each
    draw reads the next value of the source, and every list of 45 draws can
    come up, so the draws do not constrain one another and a repeated port
    is tried again.  The ports [listen] is called with are an initial
    segment of this list. *)
Theorem candidate_sequence (w : World) (p : Process) :
  valid_port (port (traits p) - 2 * n) ->
  valid_port (port (traits p) + 2 * n) ->
  let P := port (traits p) in
  exists tail,
    result (candidate_ports w) p
      = Return ([P; P + 1; P + 2; P + 3; P + 4] ++ tail)
    /\ length tail = Z.to_nat (n - 5)
    /\ length ([P; P + 1; P + 2; P + 3; P + 4] ++ tail) = Z.to_nat n
    /\ Forall (fun c => P - 2 * n <= c <= P + 2 * n /\ valid_port c) tail
    /\ (forall i, (i < Z.to_nat (n - 5))%nat ->
          nth i tail 0 = P + (entropy w (draws p + i) mod (4 * n + 1) - 2 * n))
    /\ (forall (q : Process) (d : Z),
          -2 * n <= d <= 2 * n ->
          result (randint w (-2 * n) (2 * n)) q = Return d
          <-> entropy w (draws q) mod (4 * n + 1) = d + 2 * n)
    /\ listened (emitted (acquire_port w) p)
         `prefix_of` ([P; P + 1; P + 2; P + 3; P + 4] ++ tail)
    /\ forall ds : list Z,
         length ds = Z.to_nat (n - 5) ->
         Forall (fun d => -2 * n <= d <= 2 * n) ds ->
         exists w' : World,
           result (candidate_ports w') p
             = Return ([P; P + 1; P + 2; P + 3; P + 4] ++ map (Z.add P) ds).
Proof.
  intros Hlow Hhigh P.
  exists (map (fun i => P + offset w (draws p + i)%nat) (seq 0 45)).
  assert (Hres : forall w0, result (candidate_ports w0) p
                 = Return ([P; P + 1; P + 2; P + 3; P + 4]
                           ++ map (fun i => P + offset w0 (draws p + i)%nat) (seq 0 45))).
  { intros w0. unfold result. rewrite candidate_ports_run. simpl fst.
    by rewrite candidates_from_shape. }
  split; [apply Hres|].
  split; [by rewrite length_map, length_seq|].
  split; [by rewrite length_app, length_map, length_seq|].
  split.
  { apply Forall_map, Forall_forall. intros i _. simpl.
    pose proof (offset_range w (draws p + i)).
    unfold valid_port in *. fold P in Hlow, Hhigh. lia. }
  split.
  { intros i Hi. change (Z.to_nat (n - 5)) with 45%nat in Hi.
    rewrite (nth_indep _ 0 (P + offset w (draws p + 0)%nat))
      by (by rewrite length_map, length_seq).
    rewrite (map_nth (fun i => P + offset w (draws p + i)%nat)).
    rewrite seq_nth by exact Hi. unfold offset, n. cbn [Nat.add].
    change (2 * 50 - -2 * 50 + 1) with 201. change (4 * 50 + 1) with 201. lia. }
  split.
  { intros q d Hd. unfold result, randint, n in *. cbn [fst].
    change (2 * 50 - -2 * 50 + 1) with 201. change (4 * 50 + 1) with 201.
    split.
    - intros H. injection H as H. lia.
    - intros H. f_equal. lia. }
  split.
  { destruct (acquire_port_events w p) as (es & Htr & Hpre & _).
    rewrite (emitted_extends _ _ _ Htr).
    by rewrite candidates_from_shape in Hpre. }
  intros ds Hlen Hds.
  exists (mkWorld (fun k => nth (k - draws p) ds 0 + 2 * n) (net w) (stdin_ready w)
            (stdin_line w) (webbrowser_lookup w) (loop_run w) (kill_effect w)).
  rewrite Hres. do 2 f_equal.
  change 45%nat with (Z.to_nat (n - 5)). rewrite <- Hlen.
  rewrite <- (map_nth_seq (Z.add P) ds). apply map_ext. intros i.
  f_equal. unfold offset. simpl entropy.
  replace (draws p + i - draws p)%nat with i by lia.
  pose proof (nth_in_range ds i Hds) as Hi. unfold n in *.
  rewrite Z.mod_small; lia.
Qed.

(** The default port 8888, whose interval is 8788..8988, and a source
    that repeats itself: the same port is tried again each time it comes
    up. *)
Lemma candidate_sequence_witness :
  let w := world_of all_in_use (fun _ => 203) in
  let p := boot default_traits ∅ in
  valid_port (8888 - 2 * n)
  /\ valid_port (8888 + 2 * n)
  /\ exists tail,
       result (candidate_ports w) p
         = Return ([8888; 8889; 8890; 8891; 8892] ++ tail)
       /\ length tail = 45%nat
       /\ Forall (fun c => 8888 - 2 * n <= c <= 8888 + 2 * n /\ valid_port c) tail
       /\ listened (emitted (acquire_port w) p)
          = [8888; 8889; 8890; 8891; 8892] ++ replicate 45 8790.
Proof.
  intros w p.
  assert (Hlow : valid_port (port (traits p) - 2 * n)) by (vm_compute; split; discriminate).
  assert (Hhigh : valid_port (port (traits p) + 2 * n)) by (vm_compute; split; discriminate).
  split; [exact Hlow|]. split; [exact Hhigh|].
  destruct (candidate_sequence w p Hlow Hhigh) as (tail & Hres & Hlen & _ & Hall & _).
  exists tail. split; [exact Hres|]. split; [exact Hlen|]. split; [exact Hall|].
  reflexivity.
Defined.

(** C2 as worded fails on the code: it has the five consecutive attempts
    followed by up to 50 more.  When every attempt is refused with
    address-in-use the search ends after 50 attempts in all, 45 of them
    drawn, not after 5 and 50 more. *)
Lemma candidate_sequence_counterexample :
  let busy := world_of all_in_use (fun k => Z.of_nat k * 37) in
  let p := boot default_traits ∅ in
  result (acquire_port busy) p = Return tt
  /\ length (listened (emitted (acquire_port busy) p)) = 50%nat
  /\ length (drop 5 (listened (emitted (acquire_port busy) p))) = 45%nat
  /\ length (listened (emitted (acquire_port busy) p)) <> (5 + 50)%nat.
Proof.
  split; [vm_compute; reflexivity|]. split; [vm_compute; reflexivity|].
  split; [vm_compute; reflexivity|]. vm_compute. discriminate.
Qed.

(** A preferred port near the low end of the range, with the socket layer
    of [port_checked]: a draw of [-100] from port 50 makes the candidate
    [-50], and [listen] is called with it. *)
Example candidate_below_port_range :
  let w := world_of port_checked (fun _ => 0) in
  let p := boot (with_port 50 default_traits) ∅ in
  listened (emitted (acquire_port w) p) = [50; 51; 52; 53; 54; -50]
  /\ ~ valid_port (-50)
  /\ result (acquire_port w) p
     = Raise (OtherError "OverflowError: port must be 0-65535").
Proof.
  split; [vm_compute; reflexivity|]. split; [unfold valid_port; lia|].
  vm_compute; reflexivity.
Qed.

(** C8: in the port search, an attempt refused with address-in-use is
    logged and the next candidate is tried; the first attempt that fails in
    any other way ends the search at once with that exception: no later
    candidate is tried, nothing more is logged, nothing is bound. *)
Theorem bind_failure_handling (w : World) (p : Process) (k : nat) (c : Z) (e : exn) :
  let cands := candidates_from w (port (traits p)) (draws p) in
  let host := ip (traits p) in
  cands !! k = Some c ->
  refused w (length (trace p)) host (take k cands) = true ->
  net w (length (trace p) + 2 * k)%nat c host = Some e ->
  e <> SocketError EADDRINUSE ->
  result (acquire_port w) p = Raise e
  /\ emitted (acquire_port w) p = refusals host (take k cands) ++ [EvListen c host]
  /\ listened (emitted (acquire_port w) p) = take (S k) cands
  /\ sockets (after (acquire_port w) p) = sockets p.
Proof.
  intros cands host Hk Hpre Hnet Hne.
  set (q := with_draws (draws p + Z.to_nat (n - 5))%nat p).
  assert (Hlen : length (take k cands) = k).
  { apply length_take_le. apply lookup_lt_Some in Hk. lia. }
  assert (Hrun : acquire_port w p
                 = (Raise e, emit (EvListen c host) (emit_all (refusals host (take k cands)) q))).
  { rewrite acquire_port_run. fold cands q.
    rewrite <- (take_drop_middle cands k c Hk) at 1.
    apply (for_each_fatal w (take k cands) c (drop (S k) cands) q e).
    - exact Hpre.
    - rewrite Hlen. exact Hnet.
    - exact Hne. }
  assert (Hev : emitted (acquire_port w) p = refusals host (take k cands) ++ [EvListen c host]).
  { apply emitted_extends. unfold after. rewrite Hrun. simpl.
    rewrite trace_emit_all. simpl. by rewrite <- app_assoc. }
  unfold result, after. rewrite Hev, Hrun. simpl.
  rewrite listened_app, listened_refusals, sockets_emit_all. simpl.
  repeat split. symmetry. by apply take_S_r.
Qed.

(** Ports 8888 and 8889 are in use, 8890 fails with [EACCES] (13). *)
Lemma bind_failure_handling_witness :
  let w := world_of (in_use_below 8890 13) (fun _ => 0) in
  let p := boot default_traits ∅ in
  result (acquire_port w) p = Raise (SocketError 13)
  /\ emitted (acquire_port w) p
     = [EvListen 8888 LOCALHOST; EvLog INFO (MsgPortInUse 8888);
        EvListen 8889 LOCALHOST; EvLog INFO (MsgPortInUse 8889);
        EvListen 8890 LOCALHOST]
  /\ listened (emitted (acquire_port w) p) = [8888; 8889; 8890]
  /\ sockets (after (acquire_port w) p) = [].
Proof.
  intros w p.
  apply (bind_failure_handling w p 2 8890 (SocketError 13));
    [reflexivity|reflexivity|reflexivity|discriminate].
Defined.

(** ** The bind-time warning *)

(** C3, as the code has it: [init_webapp] logs the critical warning if and
    only if no certificate is configured, the host is empty (all
    interfaces), and a password is set or read-only mode is off, that is,
    unless the server is read-only and has no password.  The warning is
    advisory: its only effect is the log record, and the port search runs
    after it as it would without. *)
Theorem security_warning (w : World) (p : Process) :
  let self := traits p in
  let warn := insecure (make_ssl_options self) self in
  (EvLog CRITICAL MsgInsecure ∈ emitted (init_webapp w) p
   <-> certfile self = "" /\ ip self = ""
       /\ (password self <> "" \/ read_only self = false))
  /\ (warn = true <-> EvLog CRITICAL MsgInsecure ∈ emitted (init_webapp w) p)
  /\ init_webapp w p
     = acquire_port w
         (emit_all (if warn then [EvLog CRITICAL MsgInsecure] else [])
            (with_ssl_options (make_ssl_options self) p)).
Proof.
  intros self warn. subst self warn.
  destruct (init_webapp_emitted w p) as (es & Hev & Hall).
  assert (Hmem : insecure (make_ssl_options (traits p)) (traits p) = true
                 <-> EvLog CRITICAL MsgInsecure ∈ emitted (init_webapp w) p).
  { rewrite Hev.
    destruct (insecure (make_ssl_options (traits p)) (traits p)).
    - split; [intros _; apply elem_of_app; left; apply list_elem_of_singleton; reflexivity
             |reflexivity].
    - split; [discriminate|]. cbn [app]. intros Hin.
      rewrite Forall_forall in Hall. apply Hall in Hin. destruct Hin. }
  split; [|split].
  - rewrite <- Hmem. apply insecure_iff.
  - exact Hmem.
  - rewrite init_webapp_run, before_search_shape. reflexivity.
Qed.

(** C3 as worded fails on the code.  A read-only server without password,
    without certificate, on all interfaces: the worded condition holds ("no
    password is set") and no warning is logged.  With a password set and
    read-only mode on, the worded condition fails and the warning is
    logged. *)
Lemma security_warning_counterexample :
  let w := world_of all_free (fun _ => 0) in
  let quiet := mkTraits "" 8888 "" "" "" true "" true "/" in
  let loud := mkTraits "" 8888 "" "" "sha1:salt:hash" true "" true "/" in
  (spec_warning_condition quiet = true
   /\ EvLog CRITICAL MsgInsecure ∉ emitted (init_webapp w) (boot quiet ∅))
  /\ (spec_warning_condition loud = false
      /\ EvLog CRITICAL MsgInsecure ∈ emitted (init_webapp w) (boot loud ∅)).
Proof.
  split; split; [reflexivity|by_evaluation|reflexivity|by_evaluation].
Qed.

(** The specification's end-to-end case: port 8888, no certificate, all
    interfaces, no password (and read-only mode off, the default): the
    warning is logged and the preferred port is bound. *)
Example end_to_end_insecure_start :
  let w := world_of all_free (fun _ => 0) in
  let p := boot (with_ip "" default_traits) ∅ in
  result (init_webapp w) p = Return tt
  /\ emitted (init_webapp w) p = [EvLog CRITICAL MsgInsecure; EvListen 8888 ""]
  /\ sockets (after (init_webapp w) p) = [(8888, "")].
Proof. split; [|split]; vm_compute; reflexivity. Qed.

(** ** The signal coordinator *)

Lemma deliver_sigint_normal p :
  sigint p = handle_sigint_handler ->
  deliver SIGINT p =
    (Return tt,
     emit (EvThreadStart confirm_exit_target)
       (with_threads (threads p ++ [confirm_exit_target])
          (emit (EvSignal SIGINT signal_stop_handler)
             (with_sigint signal_stop_handler p)))).
Proof.
  intros H. unfold deliver. rewrite run_bind. unfold get. cbn beta iota.
  rewrite H. reflexivity.
Qed.

(** With [_signal_stop] registered, an interrupt asks the loop to stop and
    does nothing else, whatever the rest of the process is doing. *)
Lemma deliver_sigint_pending p :
  sigint p = signal_stop_handler ->
  deliver SIGINT p =
    (Return tt,
     emit EvLoopStop
       (with_stop_requested true
          (emit (EvLog CRITICAL (MsgReceivedSignal SIGINT)) p))).
Proof.
  intros H. unfold deliver. rewrite run_bind. unfold get. cbn beta iota.
  rewrite H. reflexivity.
Qed.

(** SIGTERM, once [init_signal] has run, stops the loop in every state. *)
Lemma deliver_sigterm p :
  sigterm p = Some signal_stop_handler ->
  deliver SIGTERM p =
    (Return tt,
     emit EvLoopStop
       (with_stop_requested true
          (emit (EvLog CRITICAL (MsgReceivedSignal SIGTERM)) p))).
Proof.
  intros H. unfold deliver. rewrite run_bind. unfold get. cbn beta iota.
  rewrite H. reflexivity.
Qed.

(** C4: an interrupt in state Normal registers [_signal_stop] for SIGINT
    and starts the confirmation thread (state ConfirmPending).  In any state
    [q] in which [_signal_stop] is registered, so in the state just reached
    and in any later one until the handler is restored, whatever the
    confirmation thread has done meanwhile, an interrupt runs
    [_signal_stop], which logs and asks the loop to stop (state ForcedStop);
    the confirmation thread is neither run nor waited for. *)
Theorem double_interrupt (p q : Process) :
  sigint p = handle_sigint_handler ->
  stop_requested p = false ->
  sigint q = signal_stop_handler ->
  let p1 := after (deliver SIGINT) p in
  let q1 := after (deliver SIGINT) q in
  signal_state p = Some Normal
  /\ result (deliver SIGINT) p = Return tt
  /\ signal_state p1 = Some ConfirmPending
  /\ sigint p1 = signal_stop_handler
  /\ threads p1 = threads p ++ [confirm_exit_target]
  /\ emitted (deliver SIGINT) p
     = [EvSignal SIGINT signal_stop_handler; EvThreadStart confirm_exit_target]
  /\ result (deliver SIGINT) q = Return tt
  /\ signal_state q1 = Some ForcedStop
  /\ stop_requested q1 = true
  /\ threads q1 = threads q
  /\ callbacks q1 = callbacks q
  /\ emitted (deliver SIGINT) q
     = [EvLog CRITICAL (MsgReceivedSignal SIGINT); EvLoopStop].
Proof.
  intros Hh Hs Hq p1 q1.
  pose proof (deliver_sigint_normal p Hh) as H1.
  pose proof (deliver_sigint_pending q Hq) as H2.
  assert (Hp1 : p1 = emit (EvThreadStart confirm_exit_target)
                  (with_threads (threads p ++ [confirm_exit_target])
                     (emit (EvSignal SIGINT signal_stop_handler)
                        (with_sigint signal_stop_handler p)))).
  { unfold p1, after. by rewrite H1. }
  assert (Hq1 : q1 = emit EvLoopStop
                  (with_stop_requested true
                     (emit (EvLog CRITICAL (MsgReceivedSignal SIGINT)) q))).
  { unfold q1, after. by rewrite H2. }
  clearbody p1 q1. subst p1 q1.
  split; [unfold signal_state; by rewrite Hs, Hh|].
  split; [unfold result; by rewrite H1|].
  split; [unfold signal_state; simpl; by rewrite Hs|].
  split; [reflexivity|]. split; [reflexivity|].
  split.
  { apply emitted_extends. unfold after. rewrite H1. simpl. by rewrite <- app_assoc. }
  split; [unfold result; by rewrite H2|].
  split; [reflexivity|]. split; [reflexivity|]. split; [reflexivity|].
  split; [reflexivity|].
  apply emitted_extends. unfold after. rewrite H2. simpl. by rewrite <- app_assoc.
Qed.

(** Two interrupts in a row after [init_signal] in a fresh process: the
    second finds the state the first one left. *)
Lemma double_interrupt_witness :
  let p := after init_signal (boot default_traits ∅) in
  let p1 := after (deliver SIGINT) p in
  let p2 := after (deliver SIGINT) p1 in
  signal_state p = Some Normal
  /\ result (deliver SIGINT) p = Return tt
  /\ signal_state p1 = Some ConfirmPending
  /\ sigint p1 = signal_stop_handler
  /\ threads p1 = threads p ++ [confirm_exit_target]
  /\ emitted (deliver SIGINT) p
     = [EvSignal SIGINT signal_stop_handler; EvThreadStart confirm_exit_target]
  /\ result (deliver SIGINT) p1 = Return tt
  /\ signal_state p2 = Some ForcedStop
  /\ stop_requested p2 = true
  /\ threads p2 = threads p1
  /\ callbacks p2 = callbacks p1
  /\ emitted (deliver SIGINT) p1
     = [EvLog CRITICAL (MsgReceivedSignal SIGINT); EvLoopStop].
Proof.
  intros p p1.
  apply (double_interrupt p p1); reflexivity.
Defined.

(** ** The confirmation thread *)

Section Confirmation.

Variable w : World.

Lemma confirm_exit_timeout p :
  answer w p = None ->
  _confirm_exit w p =
    (Return tt,
     emit (EvAddCallback restore_sigint_handler_callback)
       (with_callbacks (callbacks p ++ [restore_sigint_handler_callback])
          (emit_all [EvStdout "Shutdown Notebook Server (y/[n])? "; EvSelect 5;
                     EvStdout "No answer for 5s:";
                     EvStdout "resuming operation..."] p))).
Proof.
  unfold answer, _confirm_exit. intros H. rewrite run_bind.
  unfold stdout_write at 1, modify at 1. cbn beta iota.
  rewrite run_bind. unfold select_stdin at 1. cbn beta iota.
  cbn [trace emit]. rewrite length_app, Nat.add_1_r. cbn [length].
  destruct (stdin_ready w (S (length (trace p))) 5); [discriminate|].
  reflexivity.
Qed.

Lemma confirm_exit_answered p line :
  answer w p = Some line ->
  _confirm_exit w p =
    (Return tt,
     let q := emit_all [EvStdout "Shutdown Notebook Server (y/[n])? ";
                        EvSelect 5; EvReadline] p in
     if affirmative line
     then emit EvLoopStop
            (with_stop_requested true (emit (EvLog CRITICAL MsgShutdownConfirmed) q))
     else emit (EvAddCallback restore_sigint_handler_callback)
            (with_callbacks (callbacks p ++ [restore_sigint_handler_callback])
               (emit (EvStdout "resuming operation...") q))).
Proof.
  unfold answer, _confirm_exit. intros H. rewrite run_bind.
  unfold stdout_write at 1, modify at 1. cbn beta iota.
  rewrite run_bind. unfold select_stdin at 1. cbn beta iota.
  cbn [trace emit]. rewrite length_app, Nat.add_1_r. cbn [length].
  destruct (stdin_ready w (S (length (trace p))) 5); [|discriminate].
  injection H as <-.
  rewrite run_bind. unfold stdin_readline at 1. cbn beta iota.
  cbn [trace emit]. rewrite !length_app, !Nat.add_1_r. cbn [length].
  destruct (affirmative (stdin_line w (S (S (length (trace p)))))); reflexivity.
Qed.

(** The loop runs every queued callback once; each is
    [_restore_sigint_handler]. *)
Lemma run_callbacks_from cbs p :
  for_each cbs (fun cb => run_callback cb;; mret Next) p =
    (Return tt, foldl (fun q _ => restored q) p cbs).
Proof.
  revert p. induction cbs as [|[] cbs IH]; intros p; [reflexivity|].
  cbn [for_each foldl]. rewrite run_bind. rewrite <- IH. reflexivity.
Qed.

Lemma ioloop_run_callbacks_run p :
  ioloop_run_callbacks p =
    (Return tt, foldl (fun q _ => restored q) (with_callbacks [] p) (callbacks p)).
Proof.
  unfold ioloop_run_callbacks. rewrite run_bind. unfold get. cbn beta iota.
  rewrite run_bind. unfold modify. cbn beta iota. apply run_callbacks_from.
Qed.

Lemma trace_restored_all (cbs : list callback) p :
  trace (foldl (fun q _ => restored q) p cbs)
  = trace p ++ replicate (length cbs) (EvSignal SIGINT handle_sigint_handler).
Proof.
  revert p. induction cbs as [|cb cbs IH]; intros p; simpl.
  - by rewrite app_nil_r.
  - rewrite IH. simpl. by rewrite <- app_assoc.
Qed.

Lemma sigint_restored_all (cbs : list callback) p :
  cbs <> [] ->
  sigint (foldl (fun q _ => restored q) p cbs) = handle_sigint_handler.
Proof.
  intros Hne. induction cbs as [|cb cbs IH] using rev_ind; [done|].
  by rewrite foldl_app.
Qed.

Lemma callbacks_restored_all (cbs : list callback) p :
  callbacks (foldl (fun q _ => restored q) p cbs) = callbacks p.
Proof. revert p. induction cbs as [|cb cbs IH]; intros p; simpl; [done|by rewrite IH]. Qed.

Lemma stop_requested_restored_all (cbs : list callback) p :
  stop_requested (foldl (fun q _ => restored q) p cbs) = stop_requested p.
Proof. revert p. induction cbs as [|cb cbs IH]; intros p; simpl; [done|by rewrite IH]. Qed.

End Confirmation.

(** What [_confirm_exit] and the loop's next round of callbacks do, by the
    answer. *)
Lemma confirm_exit_outcome (w : World) (p : Process) :
  let q := after (_confirm_exit w) p in
  let r := after ioloop_run_callbacks q in
  result (_confirm_exit w) p = Return tt
  /\ emitted (_confirm_exit w) p
     = match answer w p with
       | Some line =>
           if affirmative line
           then [EvStdout "Shutdown Notebook Server (y/[n])? "; EvSelect 5;
                 EvReadline; EvLog CRITICAL MsgShutdownConfirmed; EvLoopStop]
           else [EvStdout "Shutdown Notebook Server (y/[n])? "; EvSelect 5;
                 EvReadline; EvStdout "resuming operation...";
                 EvAddCallback restore_sigint_handler_callback]
       | None =>
           [EvStdout "Shutdown Notebook Server (y/[n])? "; EvSelect 5;
            EvStdout "No answer for 5s:"; EvStdout "resuming operation...";
            EvAddCallback restore_sigint_handler_callback]
       end
  /\ sigint q = sigint p
  /\ if confirmed w p
     then stop_requested q = true
          /\ signal_state q = Some ForcedStop
          /\ callbacks q = callbacks p
     else stop_requested q = stop_requested p
          /\ callbacks q = callbacks p ++ [restore_sigint_handler_callback]
          /\ result ioloop_run_callbacks q = Return tt
          /\ emitted ioloop_run_callbacks q
             = replicate (S (length (callbacks p)))
                 (EvSignal SIGINT handle_sigint_handler)
          /\ sigint r = handle_sigint_handler
          /\ callbacks r = []
          /\ stop_requested r = stop_requested p.
Proof.
  cbv zeta. unfold confirmed.
  assert (Hloop : forall q0 : Process,
            callbacks q0 = callbacks p ++ [restore_sigint_handler_callback] ->
            stop_requested q0 = stop_requested p ->
            result ioloop_run_callbacks q0 = Return tt
            /\ emitted ioloop_run_callbacks q0
               = replicate (S (length (callbacks p)))
                   (EvSignal SIGINT handle_sigint_handler)
            /\ sigint (after ioloop_run_callbacks q0) = handle_sigint_handler
            /\ callbacks (after ioloop_run_callbacks q0) = []
            /\ stop_requested (after ioloop_run_callbacks q0) = stop_requested p).
  { intros q0 Hcb Hstop. unfold result, after.
    assert (Hem : emitted ioloop_run_callbacks q0
                  = replicate (S (length (callbacks p)))
                      (EvSignal SIGINT handle_sigint_handler)).
    { apply emitted_extends. unfold after. rewrite ioloop_run_callbacks_run.
      cbn [snd]. rewrite trace_restored_all, Hcb, length_app, Nat.add_1_r.
      reflexivity. }
    rewrite Hem. rewrite ioloop_run_callbacks_run. cbn [fst snd].
    rewrite callbacks_restored_all, stop_requested_restored_all.
    rewrite sigint_restored_all.
    - repeat split. exact Hstop.
    - rewrite Hcb. intros Hnil. by apply app_eq_nil in Hnil as [_ ?]. }
  destruct (answer w p) as [line|] eqn:Hans.
  - pose proof (confirm_exit_answered w p line Hans) as Hrun.
    cbv zeta in Hrun. unfold result, after.
    assert (Hem : emitted (_confirm_exit w) p
                  = [EvStdout "Shutdown Notebook Server (y/[n])? "; EvSelect 5;
                     EvReadline]
                    ++ (if affirmative line
                        then [EvLog CRITICAL MsgShutdownConfirmed; EvLoopStop]
                        else [EvStdout "resuming operation...";
                              EvAddCallback restore_sigint_handler_callback])).
    { apply emitted_extends. unfold after. rewrite Hrun. cbn [snd].
      destruct (affirmative line); cbn [trace emit with_callbacks with_stop_requested];
        rewrite trace_emit_all, <- !app_assoc; reflexivity. }
    rewrite Hem, Hrun. cbn [fst snd].
    destruct (affirmative line).
    + repeat split.
    + split; [reflexivity|]. split; [reflexivity|]. split; [reflexivity|].
      split; [reflexivity|]. split; [reflexivity|].
      apply Hloop; reflexivity.
  - pose proof (confirm_exit_timeout w p Hans) as Hrun.
    unfold result, after.
    assert (Hem : emitted (_confirm_exit w) p
                  = [EvStdout "Shutdown Notebook Server (y/[n])? "; EvSelect 5;
                     EvStdout "No answer for 5s:"; EvStdout "resuming operation...";
                     EvAddCallback restore_sigint_handler_callback]).
    { apply emitted_extends. unfold after. rewrite Hrun. cbn [snd].
      cbn [trace emit with_callbacks]. rewrite trace_emit_all, <- !app_assoc.
      reflexivity. }
    rewrite Hem, Hrun. cbn [fst snd].
    split; [reflexivity|]. split; [reflexivity|]. split; [reflexivity|].
    split; [reflexivity|]. split; [reflexivity|].
    apply Hloop; reflexivity.
Qed.

Lemma lower_ascii_y (c : ascii) :
  lower_ascii c = "y"%char <-> c = "y"%char \/ c = "Y"%char.
Proof.
  destruct c as [[] [] [] [] [] [] [] []]; vm_compute;
    (split; [intros H; first [discriminate H | by left | by right]
            |intros [H|H]; first [discriminate H | reflexivity]]).
Qed.

(** The test [line.lower().startswith('y')] looks at the first character
    only. *)
Lemma affirmative_first_char (line : string) :
  affirmative line
  = match line with
    | String c _ => bool_decide (c = "y"%char \/ c = "Y"%char)
    | EmptyString => false
    end.
Proof.
  unfold affirmative, startswith. destruct line as [|c rest]; [reflexivity|].
  cbn [lower String.prefix].
  destruct (ascii_dec "y" (lower_ascii c)) as [Heq|Hne].
  - rewrite bool_decide_true by (by apply lower_ascii_y).
    by destruct (lower rest).
  - rewrite bool_decide_false; [reflexivity|].
    intros Hy. apply lower_ascii_y in Hy. by symmetry in Hy.
Qed.

(** C5: the confirmation thread prompts, then waits in one [select] on the
    input with a timeout of 5 (seconds), and reads a line only if the input
    is ready.  If a line whose first character is [y] or [Y] arrives in time
    it logs and calls [IOLoop.stop()] (state ForcedStop).  On a timeout or
    any other line (the empty one included) it leaves the signal table and
    the stop flag alone and makes a single call to [add_callback]; when the
    loop then runs its callbacks, that callback registers [_handle_sigint]
    for SIGINT again, once. *)
Theorem confirmation_task (w : World) (p : Process) :
  let ready := stdin_ready w (S (length (trace p))) 5 in
  let line := stdin_line w (S (S (length (trace p)))) in
  let yes := match line with
             | String c _ => bool_decide (c = "y"%char \/ c = "Y"%char)
             | EmptyString => false
             end in
  let q := after (_confirm_exit w) p in
  let r := after ioloop_run_callbacks q in
  result (_confirm_exit w) p = Return tt
  /\ emitted (_confirm_exit w) p
     = (if ready
        then if yes
             then [EvStdout "Shutdown Notebook Server (y/[n])? "; EvSelect 5;
                   EvReadline; EvLog CRITICAL MsgShutdownConfirmed; EvLoopStop]
             else [EvStdout "Shutdown Notebook Server (y/[n])? "; EvSelect 5;
                   EvReadline; EvStdout "resuming operation...";
                   EvAddCallback restore_sigint_handler_callback]
        else [EvStdout "Shutdown Notebook Server (y/[n])? "; EvSelect 5;
              EvStdout "No answer for 5s:"; EvStdout "resuming operation...";
              EvAddCallback restore_sigint_handler_callback])
  /\ sigint q = sigint p
  /\ if ready && yes
     then stop_requested q = true
          /\ signal_state q = Some ForcedStop
          /\ callbacks q = callbacks p
     else stop_requested q = stop_requested p
          /\ callbacks q = callbacks p ++ [restore_sigint_handler_callback]
          /\ result ioloop_run_callbacks q = Return tt
          /\ emitted ioloop_run_callbacks q
             = replicate (S (length (callbacks p)))
                 (EvSignal SIGINT handle_sigint_handler)
          /\ sigint r = handle_sigint_handler
          /\ callbacks r = []
          /\ stop_requested r = stop_requested p.
Proof.
  cbv zeta.
  pose proof (confirm_exit_outcome w p) as H. cbv zeta in H.
  unfold confirmed, answer in H.
  destruct (stdin_ready w (S (length (trace p))) 5).
  - cbv beta iota in H. rewrite affirmative_first_char in H.
    cbn [andb]. exact H.
  - cbv beta iota in H. cbn [andb]. exact H.
Qed.

(** The answer [y] in time, the answer [no] in time, and no answer, each
    from the state after one interrupt. *)
Lemma confirmation_task_witness :
  let p := after (init_signal;; deliver SIGINT) (boot default_traits ∅) in
  let silent := world_of all_free (fun _ => 0) in
  (emitted (_confirm_exit (answering "y")) p
   = [EvStdout "Shutdown Notebook Server (y/[n])? "; EvSelect 5;
      EvReadline; EvLog CRITICAL MsgShutdownConfirmed; EvLoopStop]
   /\ stop_requested (after (_confirm_exit (answering "y")) p) = true
   /\ sigint (after (_confirm_exit (answering "y")) p) = signal_stop_handler)
  /\ (emitted (_confirm_exit (answering "no")) p
      = [EvStdout "Shutdown Notebook Server (y/[n])? "; EvSelect 5;
         EvReadline; EvStdout "resuming operation...";
         EvAddCallback restore_sigint_handler_callback]
      /\ stop_requested (after (_confirm_exit (answering "no")) p) = false
      /\ sigint (after ioloop_run_callbacks (after (_confirm_exit (answering "no")) p))
         = handle_sigint_handler)
  /\ (emitted (_confirm_exit silent) p
      = [EvStdout "Shutdown Notebook Server (y/[n])? "; EvSelect 5;
         EvStdout "No answer for 5s:"; EvStdout "resuming operation...";
         EvAddCallback restore_sigint_handler_callback]
      /\ emitted ioloop_run_callbacks (after (_confirm_exit silent) p)
         = [EvSignal SIGINT handle_sigint_handler]
      /\ sigint (after ioloop_run_callbacks (after (_confirm_exit silent) p))
         = handle_sigint_handler).
Proof.
  intros p silent.
  pose proof (confirmation_task (answering "y") p) as Hyes.
  pose proof (confirmation_task (answering "no") p) as Hno.
  pose proof (confirmation_task silent p) as Hsilent.
  cbv zeta in Hyes, Hno, Hsilent.
  destruct Hyes as (_ & Hy1 & Hy2 & Hy3 & _).
  destruct Hno as (_ & Hn1 & _ & Hn2 & _ & _ & _ & Hn3 & _).
  destruct Hsilent as (_ & Hs1 & _ & _ & _ & _ & Hs2 & Hs3 & _).
  split; [|split].
  - split; [exact Hy1|]. split; [exact Hy3|]. exact Hy2.
  - split; [exact Hn1|]. split; [exact Hn2|]. exact Hn3.
  - split; [exact Hs1|]. split; [exact Hs2|]. exact Hs3.
Defined.

(** The three ways the confirmation can go, from the state after one
    interrupt: no answer, the answer "Yes", the answer "no". *)
Example three_confirmations :
  let p := after (init_signal;; deliver SIGINT) (boot default_traits ∅) in
  let silent := world_of all_free (fun _ => 0) in
  signal_state (after (run_confirm_thread silent;; ioloop_run_callbacks) p) = Some Normal
  /\ signal_state (after (run_confirm_thread (answering "Yes");; ioloop_run_callbacks) p)
     = Some ForcedStop
  /\ signal_state (after (run_confirm_thread (answering "no");; ioloop_run_callbacks) p)
     = Some Normal
  /\ filter (fun e => bool_decide (e = EvSignal SIGINT handle_sigint_handler))
       (emitted (run_confirm_thread silent;; ioloop_run_callbacks) p)
     = [EvSignal SIGINT handle_sigint_handler].
Proof. repeat split; vm_compute; reflexivity. Qed.

(** ** Teardown *)

Section Teardown.

Variable w : World.

Lemma kill_loop_run (ids : list string) p :
  for_each ids (fun kid => kill_kernel w kid;; mret Next) p
  = (Return tt, foldl (kill_step w) p ids).
Proof.
  revert p. induction ids as [|kid ids IH]; intros p; [reflexivity|].
  cbn [for_each foldl]. rewrite run_bind. rewrite <- IH. reflexivity.
Qed.

Lemma trace_kill_steps (ids : list string) p :
  trace (foldl (kill_step w) p ids) = trace p ++ (EvKillKernel <$> ids).
Proof.
  revert p. induction ids as [|kid ids IH]; intros p; simpl.
  - by rewrite app_nil_r.
  - rewrite IH. simpl. by rewrite <- app_assoc.
Qed.

(** The list iterated over is fixed before the first [kill_kernel]: the
    ids are those of the registry as [cleanup_kernels] found it. *)
Lemma cleanup_kernels_run p :
  cleanup_kernels w p
  = (Return tt,
     foldl (kill_step w) (emit (EvLog INFO MsgShuttingDownKernels) p) (kernel_ids p)).
Proof.
  unfold cleanup_kernels. rewrite run_bind. unfold log at 1, modify at 1.
  cbn beta iota. rewrite run_bind. unfold get at 1. cbn beta iota.
  apply kill_loop_run.
Qed.

Lemma trace_cleanup_kernels p :
  trace (after (cleanup_kernels w) p)
  = trace p ++ EvLog INFO MsgShuttingDownKernels :: (EvKillKernel <$> kernel_ids p).
Proof.
  unfold after. rewrite cleanup_kernels_run. cbn [snd].
  rewrite trace_kill_steps. cbn [trace emit]. by rewrite <- app_assoc.
Qed.

Lemma killed_kill_events (ids : list string) : killed (EvKillKernel <$> ids) = ids.
Proof. induction ids as [|kid ids IH]; [reflexivity|]. cbn. f_equal. exact IH. Qed.

Lemma elem_of_kernel_ids kid p : kid ∈ kernel_ids p <-> kid ∈ dom (kernels p).
Proof.
  unfold kernel_ids. rewrite elem_of_dom, list_elem_of_fmap. split.
  - intros ([k v] & -> & Hin). apply elem_of_map_to_list in Hin. by exists v.
  - intros [v Hv]. exists (kid, v). split; [reflexivity|].
    by apply elem_of_map_to_list.
Qed.

Lemma count_in_NoDup (kid : string) (ids : list string) :
  NoDup ids ->
  length (filter (fun k => k = kid) ids) = if bool_decide (kid ∈ ids) then 1%nat else 0%nat.
Proof.
  induction 1 as [|k ids Hk Hnd IH].
  - reflexivity.
  - rewrite filter_cons. destruct (decide (k = kid)) as [->|Hne].
    + rewrite bool_decide_true by left. cbn [length]. rewrite IH.
      by rewrite bool_decide_false.
    + rewrite IH. apply f_equal with (f := fun b : bool => if b then 1%nat else 0%nat).
      apply bool_decide_ext. rewrite elem_of_cons. split; [by right|].
      intros [Heq|Hin]; [by subst|exact Hin].
Qed.

(** The [try] statement of [start], by the way the loop is left. *)
Lemma run_loop_run p :
  run_loop w p =
    (match fst (ioloop_start w p) with
     | Return _ => Return tt
     | Raise KeyboardInterrupt => Return tt
     | Raise e => Raise e
     end,
     after (cleanup_kernels w) (at_exit (ioloop_start w p))).
Proof.
  unfold run_loop, try_except_finally, at_exit, after.
  destruct (ioloop_start w p) as [[[]|e] p1]; cbn [fst snd].
  - rewrite cleanup_kernels_run. reflexivity.
  - destruct e; cbn beta iota; unfold log, modify; rewrite cleanup_kernels_run; reflexivity.
Qed.

End Teardown.

(** C6: [cleanup_kernels] copies the ids of the registry before its loop
    and calls [kill_kernel] on each id of the copy, in the copy's order:
    every id registered at that moment gets exactly one call and no other id
    gets any, whatever the calls do to the registry in between. *)
Theorem teardown_snapshot (w : World) (p : Process) (kid : string) :
  result (cleanup_kernels w) p = Return tt
  /\ emitted (cleanup_kernels w) p
     = EvLog INFO MsgShuttingDownKernels :: (EvKillKernel <$> kernel_ids p)
  /\ killed (emitted (cleanup_kernels w) p) = kernel_ids p
  /\ NoDup (kernel_ids p)
  /\ requests kid (emitted (cleanup_kernels w) p)
     = if bool_decide (kid ∈ dom (kernels p)) then 1%nat else 0%nat.
Proof.
  assert (Hem : emitted (cleanup_kernels w) p
                = EvLog INFO MsgShuttingDownKernels :: (EvKillKernel <$> kernel_ids p)).
  { apply emitted_extends, trace_cleanup_kernels. }
  assert (Hk : killed (emitted (cleanup_kernels w) p) = kernel_ids p).
  { rewrite Hem. change (killed (EvKillKernel <$> kernel_ids p) = kernel_ids p).
    apply killed_kill_events. }
  assert (Hnd : NoDup (kernel_ids p)) by apply NoDup_fst_map_to_list.
  split; [unfold result; by rewrite cleanup_kernels_run|].
  split; [exact Hem|]. split; [exact Hk|]. split; [exact Hnd|].
  unfold requests. rewrite Hk, (count_in_NoDup kid _ Hnd).
  apply f_equal with (f := fun b : bool => if b then 1%nat else 0%nat).
  apply bool_decide_ext, elem_of_kernel_ids.
Qed.

(** The specification's case: kernels A, B and C, and killing A also takes
    B out of the registry.  All three get their call, once each. *)
Example entangled_kernels_all_killed :
  let p := boot default_traits three_kernels in
  let es := emitted (cleanup_kernels entangled) p in
  requests "A" es = 1%nat /\ requests "B" es = 1%nat /\ requests "C" es = 1%nat
  /\ length (killed es) = 3%nat
  /\ kernels (after (cleanup_kernels entangled) p) = ∅.
Proof. repeat split; vm_compute; reflexivity. Qed.

(** ** [start] and the browser *)

Section Start.

Variable w : World.

(** With the browser switched off [start] goes from its log records to
    the [try] statement. *)
Lemma start_without_browser p :
  open_browser (traits p) = false ->
  start w p = run_loop w (announced p).
Proof.
  intros H. unfold start. rewrite run_bind. unfold get_self at 1.
  cbn beta iota zeta. rewrite H.
  rewrite run_bind. unfold log at 1, modify at 1. cbn beta iota.
  rewrite run_bind. unfold log at 1, modify at 1. cbn beta iota.
  rewrite run_bind. reflexivity.
Qed.

Lemma webbrowser_get_name self :
  (if truthy (browser self)
   then webbrowser_get w (Some (browser self))
   else webbrowser_get w None)
  = webbrowser_get w (browser_name self).
Proof. unfold browser_name. destruct (truthy (browser self)); reflexivity. Qed.

(** With the browser switched on and a controller found, [start] starts
    the thread that opens the page and goes on to the [try] statement; the
    thread is not joined. *)
Lemma start_with_browser p :
  open_browser (traits p) = true ->
  webbrowser_lookup w (browser_name (traits p)) = true ->
  start w p = run_loop w (browser_started p).
Proof.
  intros H Hfound. unfold start. rewrite run_bind. unfold get_self at 1.
  cbn beta iota zeta. rewrite H.
  rewrite run_bind. unfold log at 1, modify at 1. cbn beta iota.
  rewrite run_bind. unfold log at 1, modify at 1. cbn beta iota.
  rewrite run_bind. unfold launch_browser. rewrite run_bind.
  unfold get_self at 1. cbn beta iota zeta. rewrite run_bind.
  cbn [traits emit]. rewrite (webbrowser_get_name (traits p)).
  unfold webbrowser_get at 1. rewrite Hfound. reflexivity.
Qed.

(** With the browser switched on and no controller found,
    [webbrowser.get] raises in [start] itself, before the [try]. *)
Lemma start_browser_not_found p :
  open_browser (traits p) = true ->
  webbrowser_lookup w (browser_name (traits p)) = false ->
  start w p =
    (Raise WebbrowserError,
     emit (EvWebbrowserGet (browser_name (traits p))) (announced p)).
Proof.
  intros H Hfound. unfold start. rewrite run_bind. unfold get_self at 1.
  cbn beta iota zeta. rewrite H.
  rewrite run_bind. unfold log at 1, modify at 1. cbn beta iota.
  rewrite run_bind. unfold log at 1, modify at 1. cbn beta iota.
  rewrite run_bind. unfold launch_browser. rewrite run_bind.
  unfold get_self at 1. cbn beta iota zeta. rewrite run_bind.
  cbn [traits emit]. rewrite (webbrowser_get_name (traits p)).
  unfold webbrowser_get at 1. rewrite Hfound. reflexivity.
Qed.

End Start.

(** C7: however [IOLoop.start()] is left in [start] (by returning, as
    after a stop request; by a [KeyboardInterrupt], which is caught and
    logged; by any other exception, which goes on propagating), the
    [finally] clause runs [cleanup_kernels] from the state the loop was left
    in: every kernel registered then gets its [kill_kernel] call.  [start]
    reaches this [try] statement on every path on which it starts the loop:
    with the browser off, and with the browser on and found. *)
Theorem teardown_always_runs (w : World) (p : Process) :
  let left := ioloop_start w p in
  let q := at_exit left in
  after (run_loop w) p = after (cleanup_kernels w) q
  /\ trace (after (run_loop w) p)
     = trace q ++ EvLog INFO MsgShuttingDownKernels :: (EvKillKernel <$> kernel_ids q)
  /\ result (run_loop w) p
     = match fst left with
       | Return _ => Return tt
       | Raise KeyboardInterrupt => Return tt
       | Raise e => Raise e
       end
  /\ start w p
     = if open_browser (traits p)
       then if webbrowser_lookup w (browser_name (traits p))
            then run_loop w (browser_started p)
            else (Raise WebbrowserError,
                  emit (EvWebbrowserGet (browser_name (traits p))) (announced p))
       else run_loop w (announced p).
Proof.
  cbv zeta.
  assert (Hafter : after (run_loop w) p
                   = after (cleanup_kernels w) (at_exit (ioloop_start w p))).
  { unfold after at 1. rewrite run_loop_run. reflexivity. }
  split; [exact Hafter|]. split; [|split].
  - rewrite Hafter. apply trace_cleanup_kernels.
  - unfold result. rewrite run_loop_run. reflexivity.
  - destruct (open_browser (traits p)) eqn:Hopen.
    + destruct (webbrowser_lookup w (browser_name (traits p))) eqn:Hfound.
      * by apply start_with_browser.
      * by apply start_browser_not_found.
    + by apply start_without_browser.
Qed.

(** [start] with the browser switched off, three kernels, and a loop left
    by a propagating [KeyboardInterrupt]. *)
Example interrupt_then_cleanup :
  let p := boot (mkTraits LOCALHOST 8888 "" "" "" false "" false "/") three_kernels in
  result (start interrupted) p = Return tt
  /\ emitted (start interrupted) p
     = [EvLog INFO (MsgRunningAt "http" LOCALHOST 8888 "/"); EvLog INFO MsgUseControlC;
        EvLoopStart; EvLog INFO MsgInterrupted; EvLog INFO MsgShuttingDownKernels]
       ++ (EvKillKernel <$> kernel_ids p)
  /\ kernels (after (start interrupted) p) = ∅.
Proof. repeat split; vm_compute; reflexivity. Qed.

(** C9, evaluated on the code: with [open_browser] on, when
    [webbrowser.get] finds no browser, [start] ends with
    [webbrowser.Error] after its two log records and the lookup.  The
    browser thread is not started, the event loop is not started, and
    [cleanup_kernels] does not run. *)
Theorem browser_lookup_failure_is_fatal (w : World) (p : Process) :
  open_browser (traits p) = true ->
  webbrowser_lookup w (browser_name (traits p)) = false ->
  result (start w) p = Raise WebbrowserError
  /\ emitted (start w) p
     = [EvLog INFO (MsgRunningAt (if truthy (certfile (traits p)) then "https" else "http")
                      (display_host (traits p)) (port (traits p))
                      (base_project_url (traits p)));
        EvLog INFO MsgUseControlC;
        EvWebbrowserGet (browser_name (traits p))]
  /\ (EvLoopStart ∉ emitted (start w) p)
  /\ threads (after (start w) p) = threads p
  /\ kernels (after (start w) p) = kernels p.
Proof.
  intros Hopen Hnone.
  pose proof (start_browser_not_found w p Hopen Hnone) as Hrun.
  assert (Hem : emitted (start w) p
     = [EvLog INFO (MsgRunningAt (if truthy (certfile (traits p)) then "https" else "http")
                      (display_host (traits p)) (port (traits p))
                      (base_project_url (traits p)));
        EvLog INFO MsgUseControlC;
        EvWebbrowserGet (browser_name (traits p))]).
  { apply emitted_extends. unfold after. rewrite Hrun. cbn [snd].
    unfold announced. cbn [trace emit]. rewrite <- !app_assoc. reflexivity. }
  unfold result, after. rewrite Hem, Hrun. cbn [fst snd].
  split; [reflexivity|]. split; [reflexivity|]. split; [|split; reflexivity].
  intros Hin. repeat (apply elem_of_cons in Hin as [Hin|Hin]; [discriminate|]).
  by apply elem_of_nil in Hin.
Qed.

(** The default configuration on a machine without a browser. *)
Lemma browser_lookup_failure_is_fatal_witness :
  let p := boot default_traits three_kernels in
  result (start no_browser) p = Raise WebbrowserError
  /\ emitted (start no_browser) p
     = [EvLog INFO (MsgRunningAt "http" LOCALHOST 8888 "/");
        EvLog INFO MsgUseControlC;
        EvWebbrowserGet None]
  /\ (EvLoopStart ∉ emitted (start no_browser) p)
  /\ threads (after (start no_browser) p) = threads p
  /\ kernels (after (start no_browser) p) = kernels p.
Proof.
  intros p. apply (browser_lookup_failure_is_fatal no_browser p); reflexivity.
Defined.

(** ** The wildcard host *)

Lemma assign_ip_run (d : nat) (value : string) (p : Process) :
  assign_ip (S (S d)) value p =
    (Return tt,
     if String.eqb (ip (traits p)) value then p
     else with_traits (with_ip (if String.eqb value "*" then "" else value)) p).
Proof.
  cbn [assign_ip]. rewrite run_bind. unfold get_self at 1. cbn beta iota zeta.
  destruct (String.eqb (ip (traits p)) value) eqn:Hold; [reflexivity|].
  rewrite run_bind. unfold modify at 1. cbn beta iota. unfold _ip_changed.
  destruct (String.eqb value "*") eqn:Hstar; [|reflexivity].
  rewrite run_bind. unfold get_self at 1. cbn beta iota zeta.
  apply String.eqb_eq in Hstar. subst value. reflexivity.
Qed.

Lemma set_ip_run (value : string) (p : Process) :
  set_ip value p =
    (Return tt,
     if String.eqb (ip (traits p)) value then p
     else with_traits (with_ip (if String.eqb value "*" then "" else value)) p).
Proof. apply (assign_ip_run 998). Qed.

(** No assignment makes the trait the wildcard. *)
Lemma set_ip_never_wildcard (value : string) (p : Process) :
  ip (traits p) <> "*" -> ip (traits (after (set_ip value) p)) <> "*".
Proof.
  intros Hp. unfold after. rewrite set_ip_run. cbn [snd].
  destruct (String.eqb (ip (traits p)) value); [exact Hp|].
  cbn [traits with_traits ip with_ip].
  destruct (String.eqb value "*") eqn:Hstar; [discriminate|].
  by apply String.eqb_neq.
Qed.

Lemma configure_never_wildcard (values : list string) (p : Process) :
  ip (traits p) <> "*" -> ip (traits (after (configure values) p)) <> "*".
Proof.
  revert p. induction values as [|v values IH]; intros p Hp; [exact Hp|].
  unfold after, configure. cbn [for_each]. rewrite !run_bind.
  pose proof (set_ip_never_wildcard v p Hp) as Hv. unfold after in Hv.
  destruct (set_ip v p) as [[[]|e] q] eqn:Hrun.
  - cbn beta iota. apply (IH q). exact Hv.
  - rewrite set_ip_run in Hrun. discriminate.
Qed.

Lemma with_ip_same (p : Process) : with_traits (with_ip (ip (traits p))) p = p.
Proof. destruct p as [[] ? ? ? ? ? ? ? ? ? ?]. reflexivity. Qed.

(** C10: the [ip] trait never holds ["*"].  Starting from the declared
    default and after any sequence of assignments, the trait differs from
    ["*"]; assigning ["*"] returns with the trait empty and leaves the
    process exactly as assigning the empty string does.  So the three later
    tests ([not self.ip] in the warning, [self.ip if self.ip else ...] in the
    logged address, [self.ip or '127.0.0.1'] for the browser) see an empty
    host in both cases, and [init_webapp] and [start] run alike. *)
Theorem wildcard_host (t : Traits) (ks : gmap string kernel_handle)
    (values : list string) :
  let p := after (configure values) (boot (with_ip LOCALHOST t) ks) in
  let star := after (set_ip "*") p in
  let empty := after (set_ip "") p in
  ip (traits p) <> "*"
  /\ result (set_ip "*") p = Return tt
  /\ ip (traits star) = ""
  /\ star = empty
  /\ insecure (make_ssl_options (traits star)) (traits star)
     = bool_decide (make_ssl_options (traits star) = None)
       && negb (read_only (traits star) && negb (truthy (password (traits star))))
  /\ display_host (traits star) = "[all ip addresses on your system]"
  /\ browser_host (traits star) = "127.0.0.1"
  /\ forall w : World,
       init_webapp w star = init_webapp w empty /\ start w star = start w empty.
Proof.
  cbv zeta.
  set (p := after (configure values) (boot (with_ip LOCALHOST t) ks)).
  assert (Hp : ip (traits p) <> "*").
  { apply configure_never_wildcard. discriminate. }
  clearbody p.
  assert (Hstar : after (set_ip "*") p = with_traits (with_ip "") p).
  { unfold after. rewrite set_ip_run. cbn [snd].
    apply String.eqb_neq in Hp. rewrite Hp. reflexivity. }
  assert (Hempty : after (set_ip "") p = with_traits (with_ip "") p).
  { unfold after. rewrite set_ip_run. cbn [snd].
    destruct (String.eqb (ip (traits p)) "") eqn:He; [|reflexivity].
    apply String.eqb_eq in He. rewrite <- He. symmetry. apply with_ip_same. }
  split; [exact Hp|].
  split; [unfold result; by rewrite set_ip_run|].
  rewrite Hstar, Hempty. repeat split.
  unfold insecure. cbn [traits with_traits ip with_ip]. 
  change (truthy "") with false. cbn [negb]. by rewrite andb_true_r.
Qed.

(** The user wrote [--ip=*], or [--ip=] : the same process results, with
    an empty host. *)
Example star_or_empty_from_defaults :
  let p := boot default_traits ∅ in
  after (set_ip "*") p = after (set_ip "") p
  /\ ip (traits (after (set_ip "*") p)) = ""
  /\ ip (traits (after (configure ["*"; "10.0.0.1"; "*"; "*"]) p)) = "".
Proof. repeat split; vm_compute; reflexivity. Qed.

(** * Further properties of the module *)

(** ** Strings *)

Lemma append_nil_l (t : string) : EmptyString +:+ t = t.
Proof. reflexivity. Qed.

Lemma append_cons (c : ascii) (s t : string) : String c s +:+ t = String c (s +:+ t).
Proof. reflexivity. Qed.

Lemma append_nil_r (s : string) : s +:+ EmptyString = s.
Proof.
  induction s as [|c s IH]; [reflexivity|]. by rewrite append_cons, IH.
Qed.

Lemma append_assoc (s1 s2 s3 : string) : (s1 +:+ s2) +:+ s3 = s1 +:+ (s2 +:+ s3).
Proof.
  induction s1 as [|c s1 IH]; [reflexivity|]. by rewrite !append_cons, IH.
Qed.

Lemma length_append (s1 s2 : string) :
  String.length (s1 +:+ s2) = (String.length s1 + String.length s2)%nat.
Proof.
  induction s1 as [|c s1 IH]; [reflexivity|].
  rewrite append_cons. cbn [String.length]. by rewrite IH.
Qed.

Lemma append_eq_nil (s1 s2 : string) :
  s1 +:+ s2 = EmptyString -> s1 = EmptyString /\ s2 = EmptyString.
Proof.
  destruct s1; [rewrite append_nil_l; by intros ->|].
  rewrite append_cons. discriminate.
Qed.

Lemma endswith_spec (suffix s : string) :
  endswith suffix s = true <-> exists pre, s = pre +:+ suffix.
Proof.
  induction s as [|c s IH]; cbn [endswith].
  - rewrite orb_false_r, String.eqb_eq. split.
    + intros ->. by exists EmptyString.
    + intros [pre H]. symmetry in H. by apply append_eq_nil in H as [_ ->].
  - rewrite orb_true_iff, String.eqb_eq, IH. split.
    + intros [->|[pre ->]]; [by exists EmptyString|by exists (String c pre)].
    + intros [[|c' pre] H].
      * left. by rewrite append_nil_l in H.
      * right. rewrite append_cons in H. injection H as _ ->. by exists pre.
Qed.

Lemma startswith_slash (b : string) :
  startswith "/" b = true <-> exists rest, b = "/" +:+ rest.
Proof.
  unfold startswith. destruct b as [|c b]; cbn [String.prefix].
  - split; [discriminate|intros [rest H]; discriminate].
  - destruct (ascii_dec "/" c) as [<-|Hne].
    + split; [intros _; by exists b|by destruct b].
    + split; [discriminate|]. intros [rest H].
      change ("/" +:+ rest) with (String "/" rest) in H.
      injection H as -> _. done.
Qed.

Lemma drop_last_snoc (s : string) (c : ascii) :
  drop_last (s +:+ String c EmptyString) = s.
Proof.
  induction s as [|c' s IH]; [reflexivity|].
  rewrite append_cons. cbn [drop_last]. rewrite IH.
  destruct s; reflexivity.
Qed.

Lemma occurrences_append (c : ascii) (s1 s2 : string) :
  occurrences c (s1 +:+ s2) = (occurrences c s1 + occurrences c s2)%nat.
Proof.
  induction s1 as [|c' s1 IH]; [reflexivity|].
  rewrite append_cons. cbn [occurrences]. rewrite IH. lia.
Qed.

Lemma split_on_nonempty (sep : ascii) (s : string) : split_on sep s <> [].
Proof.
  induction s as [|c s IH]; cbn [split_on]; [discriminate|].
  destruct (Ascii.eqb c sep); [discriminate|].
  by destruct (split_on sep s).
Qed.

(** Splitting gives one part more than there are separators. *)
Lemma length_split_on (sep : ascii) (s : string) :
  length (split_on sep s) = S (occurrences sep s).
Proof.
  induction s as [|c s IH]; cbn [split_on occurrences]; [reflexivity|].
  destruct (Ascii.eqb c sep); cbn [length Nat.add]; [by rewrite IH|].
  pose proof (split_on_nonempty sep s).
  destruct (split_on sep s); [done|exact IH].
Qed.

(** ** [url_path_join] *)

(** X1: when the first part ends with a slash and the second starts with
    one, [url_path_join] puts exactly one slash between them. *)
Theorem url_path_join_one_slash (a b : string) :
  url_path_join (a +:+ "/") ("/" +:+ b) = a +:+ "/" +:+ b.
Proof.
  unfold url_path_join.
  assert (Hend : endswith "/" (a +:+ "/") = true).
  { apply endswith_spec. by exists a. }
  assert (Hstart : startswith "/" ("/" +:+ b) = true).
  { apply startswith_slash. by exists b. }
  rewrite Hend, Hstart. cbn [andb]. by rewrite drop_last_snoc.
Qed.

(** X2: whatever the parts, the joined path ends with the second part
    whole, and begins with the first part, shortened by its final slash
    exactly when the second part brings a slash of its own; no slash is ever
    added, and at most one character is dropped. *)
Theorem url_path_join_keeps_parts (a b : string) :
  let dropped := endswith "/" a && startswith "/" b in
  url_path_join a b = (if dropped then drop_last a else a) +:+ b
  /\ (if dropped then a = drop_last a +:+ "/" else True)
  /\ endswith b (url_path_join a b) = true
  /\ String.length (url_path_join a b)
     = (String.length a + String.length b - (if dropped then 1 else 0))%nat
  /\ occurrences "/" (url_path_join a b)
     = (occurrences "/" a + occurrences "/" b - (if dropped then 1 else 0))%nat.
Proof.
  cbv zeta. unfold url_path_join.
  destruct (endswith "/" a) eqn:Hend; cbn [andb].
  - destruct (startswith "/" b) eqn:Hb.
    + apply endswith_spec in Hend as [a' ->].
      rewrite drop_last_snoc.
      split; [reflexivity|]. split; [reflexivity|].
      split; [apply endswith_spec; by exists a'|].
      rewrite !length_append, !occurrences_append.
      cbn [String.length occurrences Ascii.eqb Bool.eqb]. split; lia.
    + split; [reflexivity|]. split; [exact I|].
      split; [apply endswith_spec; by exists a|].
      rewrite length_append, occurrences_append. split; lia.
  - split; [reflexivity|]. split; [exact I|].
    split; [apply endswith_spec; by exists a|].
    rewrite length_append, occurrences_append. split; lia.
Qed.

(** ** The routing table *)

(** X3: prefixing the routes with the base URL keeps their number, their
    order, their classes and their arguments; every pattern starts with a
    slash, so each new pattern is the base, without its final slash if it
    has one, followed by the old pattern.  With the default base ["/"] the
    table is unchanged. *)
Theorem new_handlers_prefix (base_project_url notebook_dir : string) :
  let stem := if endswith "/" base_project_url
              then drop_last base_project_url else base_project_url in
  new_handlers base_project_url notebook_dir
  = map (fun h : route => (stem +:+ h.1.1, h.1.2, h.2)) (handlers notebook_dir)
  /\ length (new_handlers base_project_url notebook_dir) = 19%nat
  /\ map (fun h : route => (h.1.2, h.2)) (new_handlers base_project_url notebook_dir)
     = map (fun h : route => (h.1.2, h.2)) (handlers notebook_dir)
  /\ new_handlers "/" notebook_dir = handlers notebook_dir.
Proof.
  cbv zeta. split; [|split; [reflexivity|split; reflexivity]].
  unfold new_handlers, handlers, url_path_join. cbn [map fst snd].
  destruct (endswith "/" base_project_url); reflexivity.
Qed.

(** ** Settings and the MathJax URL *)

Lemma static_path_default (here cookie_secret : string) :
  default_settings here cookie_secret !! "static_path" = Some (posix_join here "static").
Proof. reflexivity. Qed.

Lemma web_settings_lookup (here cookie_secret : string)
    (settings_overrides : gmap string string) (k : string) :
  web_settings here cookie_secret settings_overrides !! k
  = match settings_overrides !! k with
    | Some v => Some v
    | None => default_settings here cookie_secret !! k
    end.
Proof.
  unfold web_settings. destruct (settings_overrides !! k) as [v|] eqn:Hk.
  - by apply lookup_union_Some_l.
  - by apply lookup_union_r.
Qed.

(** X4: the overrides win over the four default settings and leave the
    others in place; and the directory in which [_mathjax_url_default]
    looks for a local MathJax is the [static_path] of the web application's
    settings, overridden or not: MathJax is taken from the server itself
    exactly when [mathjax/MathJax.js] exists under that directory, and then
    from under the static URL prefix. *)
Theorem local_mathjax_under_static_path (here cookie_secret : string)
    (settings_overrides : gmap string string) (env : Lookup) :
  exists static_path,
    web_settings here cookie_secret settings_overrides !! "static_path"
      = Some static_path
    /\ (settings_overrides !! "login_url" = None ->
        web_settings here cookie_secret settings_overrides !! "login_url"
          = Some "/login")
    /\ if path_exists env (posix_join (posix_join static_path "mathjax") "MathJax.js")
       then _mathjax_url_default true settings_overrides here env
            = (default "/static/" (settings_overrides !! "static_url_prefix")
                 +:+ "mathjax/MathJax.js",
               [(LOG_INFO, UsingLocalMathJax)])
       else exists host records,
              _mathjax_url_default true settings_overrides here env
              = ("https://" +:+ host +:+ "/mathjax/latest/MathJax.js",
                 (LOG_INFO, UsingMathJaxFromCDN) :: records).
Proof.
  exists (default (posix_join here "static") (settings_overrides !! "static_path")).
  split; [|split].
  - rewrite web_settings_lookup.
    by destruct (settings_overrides !! "static_path").
  - intros Hnone. rewrite web_settings_lookup, Hnone. reflexivity.
  - unfold _mathjax_url_default. cbn [negb].
    destruct (path_exists env _); [reflexivity|].
    eexists. eexists. cbn [app]. reflexivity.
Qed.

(** The default layout with MathJax unpacked under the static directory. *)
Lemma local_mathjax_under_static_path_witness :
  let env := mkLookup (String.eqb "/srv/nb/static/mathjax/MathJax.js") (fun _ => None) in
  exists static_path,
    web_settings "/srv/nb" "secret" ∅ !! "static_path" = Some static_path
    /\ static_path = "/srv/nb/static"
    /\ _mathjax_url_default true ∅ "/srv/nb" env
       = ("/static/mathjax/MathJax.js", [(LOG_INFO, UsingLocalMathJax)]).
Proof.
  intros env.
  destruct (local_mathjax_under_static_path "/srv/nb" "secret" ∅ env)
    as (sp & Hsp & _ & Hrun).
  exists sp. split; [exact Hsp|].
  assert (Heq : sp = "/srv/nb/static").
  { assert (H0 : web_settings "/srv/nb" "secret" ∅ !! "static_path"
                 = Some "/srv/nb/static") by reflexivity.
    rewrite H0 in Hsp. by injection Hsp. }
  split; [exact Heq|]. rewrite Heq in Hrun. exact Hrun.
Defined.

Lemma pick_alias_find (hostname : string) (names : list string) :
  pick_alias hostname names
  = from_option id hostname (List.find is_static_cloudfront names).
Proof.
  induction names as [|name names IH]; [reflexivity|].
  cbn [pick_alias List.find]. by destruct (is_static_cloudfront name).
Qed.

Lemma find_static_cloudfront (names : list string) (name : string) :
  List.find is_static_cloudfront names = Some name ->
  endswith ".cloudfront.net" name = true.
Proof.
  intros H. apply List.find_some in H as [_ H].
  unfold is_static_cloudfront in H. by apply andb_true_iff in H as [_ ?].
Qed.

(** X5: when no local MathJax exists, the URL is
    [https://HOST/mathjax/latest/MathJax.js], where HOST is the first name
    among the true host name and the aliases of [cdn.mathjax.org] (in that
    order) that has three dot-separated parts and ends in
    [.cloudfront.net], and [cdn.mathjax.org] itself when there is none or
    the lookup raised.  The four error records are logged exactly in that
    fallback case, the warning exactly when the lookup raised. *)
Theorem mathjax_cdn_host (settings : gmap string string) (here : string)
    (env : Lookup) :
  let static_path := default (posix_join here "static") (settings !! "static_path") in
  let names := match gethostbyname_ex env "cdn.mathjax.org" with
               | Some (true_host, aliases) => true_host :: aliases
               | None => []
               end in
  let found := List.find is_static_cloudfront names in
  path_exists env (posix_join (posix_join static_path "mathjax") "MathJax.js") = false ->
  _mathjax_url_default true settings here env
  = ("https://" +:+ from_option id "cdn.mathjax.org" found
       +:+ "/mathjax/latest/MathJax.js",
     [(LOG_INFO, UsingMathJaxFromCDN)]
     ++ match gethostbyname_ex env "cdn.mathjax.org" with
        | Some _ => []
        | None => [(LOG_WARN, CouldntDetermineCDN)]
        end
     ++ match found with
        | Some _ => []
        | None => cloudfront_errors
        end).
Proof.
  cbv zeta. intros Hno. unfold _mathjax_url_default. cbn [negb]. rewrite Hno.
  destruct (gethostbyname_ex env "cdn.mathjax.org") as [[true_host aliases]|].
  - cbn [fst snd]. rewrite pick_alias_find.
    destruct (List.find is_static_cloudfront (true_host :: aliases)) as [name|] eqn:Hfind.
    + cbn [from_option id]. by rewrite (find_static_cloudfront _ _ Hfind).
    + reflexivity.
  - reflexivity.
Qed.

(** The lookup answers with a dynamic and a static CloudFront name. *)
Lemma mathjax_cdn_host_witness :
  let env := mkLookup (fun _ => false)
               (fun _ => Some ("d1.lax3.cloudfront.net",
                               ["cdn.mathjax.org"; "d3eoax.cloudfront.net"])) in
  _mathjax_url_default true ∅ "/srv/nb" env
  = ("https://d3eoax.cloudfront.net/mathjax/latest/MathJax.js",
     [(LOG_INFO, UsingMathJaxFromCDN)]).
Proof.
  intros env. apply (mathjax_cdn_host ∅ "/srv/nb" env). reflexivity.
Defined.

(** X6: the alias test accepts exactly the names of the form
    [x.cloudfront.net] with no dot in [x] (the static names, not the
    dynamic ones such as [foo.lax3.cloudfront.net]). *)
Theorem static_cloudfront_form (alias : string) :
  is_static_cloudfront alias = true
  <-> exists x, alias = x +:+ ".cloudfront.net" /\ occurrences "." x = 0%nat.
Proof.
  unfold is_static_cloudfront.
  rewrite andb_true_iff, Nat.eqb_eq, length_split_on, endswith_spec.
  assert (Hsuffix : occurrences "." ".cloudfront.net" = 2%nat) by reflexivity.
  split.
  - intros [Hparts [x ->]]. exists x. split; [reflexivity|].
    rewrite occurrences_append, Hsuffix in Hparts. lia.
  - intros (x & -> & Hx). split; [|by exists x].
    rewrite occurrences_append, Hsuffix, Hx. reflexivity.
Qed.

(** ** The MathJax traits *)

Lemma assign_mathjax_url_run (d : nat) (value : string) (s : MathJaxTraits) :
  assign_mathjax_url (S (S d)) value s
  = Some (if String.eqb (mathjax_url s) value then s
          else if truthy value && negb (enable_mathjax s)
               then log_mathjax LOG_INFO (UsingMathJax EmptyString)
                      (store_mathjax_url EmptyString (store_mathjax_url value s))
               else log_mathjax LOG_INFO (UsingMathJax value)
                      (store_mathjax_url value s)).
Proof.
  cbn [assign_mathjax_url].
  destruct (String.eqb (mathjax_url s) value) eqn:Hsame; [reflexivity|].
  unfold _mathjax_url_changed at 1. cbn [enable_mathjax store_mathjax_url].
  destruct (truthy value) eqn:Hv; cbn [andb]; [|reflexivity].
  destruct (enable_mathjax s) eqn:He; cbn [negb]; [reflexivity|].
  change (mathjax_url (store_mathjax_url value s)) with value.
  assert (Hne : String.eqb value EmptyString = false).
  { unfold truthy in Hv. by apply negb_true_iff in Hv. }
  rewrite Hne. unfold _mathjax_url_changed. reflexivity.
Qed.

Lemma assign_enable_mathjax_run (d : nat) (value : bool) (s : MathJaxTraits) :
  assign_enable_mathjax (S (S (S d))) value s
  = Some (if Bool.eqb (enable_mathjax s) value then s
          else if value then store_enable_mathjax value s
               else if String.eqb (mathjax_url s) EmptyString
                    then store_enable_mathjax value s
                    else log_mathjax LOG_INFO (UsingMathJax EmptyString)
                           (store_mathjax_url EmptyString
                              (store_enable_mathjax value s))).
Proof.
  cbn [assign_enable_mathjax].
  destruct (Bool.eqb (enable_mathjax s) value); [reflexivity|].
  unfold _enable_mathjax_changed. destruct value; cbn [negb]; [reflexivity|].
  rewrite assign_mathjax_url_run. cbn [mathjax_url store_enable_mathjax].
  destruct (String.eqb (mathjax_url s) EmptyString); reflexivity.
Qed.

Lemma assign_mathjax_keeps (a : mathjax_assignment) (s : MathJaxTraits) :
  (enable_mathjax s = false -> mathjax_url s = EmptyString) ->
  exists s', assign_mathjax a s = Some s'
             /\ (enable_mathjax s' = false -> mathjax_url s' = EmptyString).
Proof.
  intros Hinv. destruct a as [v|v]; unfold assign_mathjax.
  - change recursion_limit with (S (S (S 997))).
    rewrite assign_enable_mathjax_run. eexists. split; [reflexivity|].
    destruct (Bool.eqb (enable_mathjax s) v) eqn:Hsame; [exact Hinv|].
    destruct v; [discriminate|].
    by destruct (String.eqb (mathjax_url s) EmptyString) eqn:Hu;
      [apply String.eqb_eq in Hu|].
  - change recursion_limit with (S (S 998)).
    rewrite assign_mathjax_url_run. eexists. split; [reflexivity|].
    destruct (String.eqb (mathjax_url s) v) eqn:Hsame; [exact Hinv|].
    destruct (truthy v) eqn:Hv; cbn [andb].
    + destruct (enable_mathjax s) eqn:He; cbn [negb]; [|reflexivity].
      cbn [enable_mathjax log_mathjax store_mathjax_url]. rewrite He. discriminate.
    + cbn [enable_mathjax mathjax_url log_mathjax store_mathjax_url].
      intros _. by apply truthy_false.
Qed.

(** X7: while MathJax is disabled its URL is empty.  Starting from a state
    where this holds, every sequence of assignments to [enable_mathjax] and
    [mathjax_url] returns and ends in such a state: an URL assigned while
    MathJax is disabled is reset at once, and disabling resets the URL.
    Enabling does not bring an URL back: after disabling and enabling again
    the URL is still empty. *)
Theorem mathjax_url_empty_when_disabled (l : list mathjax_assignment)
    (s : MathJaxTraits) :
  (enable_mathjax s = false -> mathjax_url s = EmptyString) ->
  (exists s', assign_all_mathjax l s = Some s'
              /\ (enable_mathjax s' = false -> mathjax_url s' = EmptyString))
  /\ (exists s', assign_all_mathjax [SetEnableMathjax false; SetEnableMathjax true] s
                 = Some s'
                 /\ enable_mathjax s' = true /\ mathjax_url s' = EmptyString).
Proof.
  intros Hinv. split.
  - revert s Hinv. induction l as [|a l IH]; intros s Hinv.
    + by exists s.
    + cbn [assign_all_mathjax].
      destruct (assign_mathjax_keeps a s Hinv) as (s1 & -> & Hinv1).
      by apply IH.
  - cbn [assign_all_mathjax assign_mathjax].
    change recursion_limit with (S (S (S 997))).
    rewrite assign_enable_mathjax_run.
    destruct (enable_mathjax s) eqn:He; cbn [Bool.eqb].
    + destruct (String.eqb (mathjax_url s) EmptyString) eqn:Hu;
        rewrite assign_enable_mathjax_run; eexists; (split; [reflexivity|]);
        cbn; split; try reflexivity.
      by apply String.eqb_eq in Hu.
    + rewrite assign_enable_mathjax_run. rewrite He. cbn [Bool.eqb].
      eexists. split; [reflexivity|]. split; [reflexivity|].
      cbn. by apply Hinv.
Qed.

(** MathJax disabled, with no URL; then an URL is assigned.  It is reset
    at once: MathJax is still disabled and the URL empty. *)
Lemma mathjax_url_empty_when_disabled_witness :
  let s := mkMathJaxTraits false "" [] in
  let l := [SetMathjaxUrl "http://example.org/MathJax.js"] in
  (enable_mathjax s = false -> mathjax_url s = EmptyString)
  /\ exists s', assign_all_mathjax l s = Some s'
                /\ enable_mathjax s' = false
                /\ mathjax_url s' = EmptyString.
Proof.
  intros s l.
  assert (Hinv : enable_mathjax s = false -> mathjax_url s = EmptyString)
    by (intros _; reflexivity).
  split; [exact Hinv|].
  destruct (mathjax_url_empty_when_disabled l s Hinv) as ((s' & Hrun & Hempty) & _).
  exists s'. split; [exact Hrun|].
  assert (Hoff : enable_mathjax s' = false).
  { vm_compute in Hrun. injection Hrun as <-. reflexivity. }
  split; [exact Hoff|]. exact (Hempty Hoff).
Defined.

(** ** The coordinator under any activity *)

Lemma no_confirm_after_removal (ts : list thread_target) :
  filter (fun t => t = confirm_exit_target) (list_difference ts [confirm_exit_target]) = [].
Proof.
  induction ts as [|t ts IH]; [reflexivity|].
  cbn [list_difference]. destruct (decide_rel elem_of t [confirm_exit_target]) as [Hin|Hout].
  - exact IH.
  - rewrite filter_cons. destruct (decide (t = confirm_exit_target)) as [->|_].
    + exfalso. apply Hout. left.
    + exact IH.
Qed.

Lemma removal_without_confirm (ts : list thread_target) :
  confirm_exit_target ∉ ts -> list_difference ts [confirm_exit_target] = ts.
Proof.
  induction ts as [|t ts IH]; intros Hout; [reflexivity|].
  cbn [list_difference]. apply not_elem_of_cons in Hout as [Hne Hout].
  destruct (decide_rel elem_of t [confirm_exit_target]) as [Hin|_].
  - apply list_elem_of_singleton in Hin. by subst.
  - by rewrite IH.
Qed.

Lemma confirm_counted (ts : list thread_target) :
  confirm_exit_target ∈ ts ->
  (1 <= length (filter (fun t => t = confirm_exit_target) ts))%nat.
Proof.
  intros Hin.
  assert (H : confirm_exit_target ∈ filter (fun t => t = confirm_exit_target) ts).
  { by apply list_elem_of_filter. }
  destruct (filter _ ts); [by apply elem_of_nil in H|simpl; lia].
Qed.

Lemma threads_restored_all (cbs : list callback) p :
  threads (foldl (fun q _ => restored q) p cbs) = threads p.
Proof. revert p. induction cbs as [|cb cbs IH]; intros p; simpl; [done|by rewrite IH]. Qed.

Lemma sigterm_restored_all (cbs : list callback) p :
  sigterm (foldl (fun q _ => restored q) p cbs) = sigterm p.
Proof. revert p. induction cbs as [|cb cbs IH]; intros p; simpl; [done|by rewrite IH]. Qed.

(** The confirmation thread, run to its end from a state [p], leaves the
    signal table alone and the thread list as it found it, and queues at
    most one callback. *)
Lemma confirm_exit_frame (w : World) (p : Process) :
  result (_confirm_exit w) p = Return tt
  /\ sigint (after (_confirm_exit w) p) = sigint p
  /\ sigterm (after (_confirm_exit w) p) = sigterm p
  /\ threads (after (_confirm_exit w) p) = threads p
  /\ (callbacks (after (_confirm_exit w) p) = callbacks p
      \/ callbacks (after (_confirm_exit w) p)
         = callbacks p ++ [restore_sigint_handler_callback]).
Proof.
  unfold result, after. destruct (answer w p) as [line|] eqn:Hans.
  - rewrite (confirm_exit_answered w p line Hans). cbv zeta. cbn [fst snd].
    destruct (affirmative line); repeat split; [by left|by right].
  - rewrite (confirm_exit_timeout w p Hans). cbn [fst snd].
    repeat split. by right.
Qed.

Lemma perform_confirm_run (w : World) (p : Process) :
  perform w ConfirmThreadRuns p
  = if bool_decide (confirm_exit_target ∈ threads p)
    then _confirm_exit w
           (with_threads (list_difference (threads p) [confirm_exit_target]) p)
    else (Return tt, p).
Proof.
  cbn [perform]. rewrite run_bind. unfold get at 1. cbn beta iota.
  destruct (bool_decide (confirm_exit_target ∈ threads p)); reflexivity.
Qed.

Lemma perform_coordinated (w : World) (a : action) (p : Process) :
  coordinated p ->
  result (perform w a) p = Return tt /\ coordinated (after (perform w a) p).
Proof.
  intros (Hterm & Hint & Hone & Hzero). unfold coordinated, outstanding in *.
  destruct a; cbn [perform].
  - (* an interrupt *)
    destruct (sigint p) eqn:Hh; [done| |].
    + unfold result, after. rewrite (deliver_sigint_normal p Hh). cbn [fst snd].
      specialize (Hzero eq_refl).
      cbn [sigint sigterm threads callbacks emit with_threads with_sigint].
      rewrite filter_app, length_app.
      change (length (filter (fun t => t = confirm_exit_target) [confirm_exit_target]))
        with 1%nat.
      repeat split; [exact Hterm|discriminate|lia|discriminate].
    + unfold result, after. rewrite (deliver_sigint_pending p Hh). cbn [fst snd].
      cbn [sigint sigterm threads callbacks emit with_stop_requested].
      rewrite Hh. repeat split; [exact Hterm|discriminate|exact Hone|discriminate].
  - (* a termination signal *)
    unfold result, after. rewrite (deliver_sigterm p Hterm). cbn [fst snd].
    cbn [sigint sigterm threads callbacks emit with_stop_requested].
    repeat split; [exact Hterm|exact Hint|exact Hone|exact Hzero].
  - (* the confirmation thread *)
    unfold result, after. fold (perform w ConfirmThreadRuns).
    rewrite perform_confirm_run.
    destruct (bool_decide (confirm_exit_target ∈ threads p)) eqn:Hpending.
    + apply bool_decide_eq_true in Hpending.
      pose proof (confirm_counted _ Hpending) as Hcount.
      assert (Hcb : callbacks p = []).
      { destruct (callbacks p); [reflexivity|simpl in Hone; lia]. }
      set (p' := with_threads (list_difference (threads p) [confirm_exit_target]) p).
      destruct (confirm_exit_frame w p') as (Hres & Hi & Ht & Hth & Hcbs).
      unfold result, after in *.
      destruct (_confirm_exit w p') as [r q]. cbn [fst snd] in *.
      subst r. rewrite Hi, Ht, Hth. unfold p'.
      cbn [sigint sigterm threads callbacks with_threads].
      rewrite no_confirm_after_removal.
      assert (Hlen : (length (callbacks q) <= 1)%nat).
      { destruct Hcbs as [->| ->]; unfold p'; cbn [callbacks with_threads];
          rewrite Hcb; simpl; lia. }
      repeat split; [exact Hterm|exact Hint|simpl; lia|].
      intros Hh. specialize (Hzero Hh). lia.
    + cbn [fst snd]. repeat split; [exact Hterm|exact Hint|exact Hone|exact Hzero].
  - (* the loop runs the callbacks *)
    unfold result, after. rewrite ioloop_run_callbacks_run. cbn [fst snd].
    rewrite threads_restored_all, sigterm_restored_all, callbacks_restored_all.
    cbn [threads sigterm callbacks with_callbacks length].
    destruct (callbacks p) as [|cb cbs] eqn:Hcb.
    + cbn [foldl sigint with_callbacks]. rewrite Nat.add_0_r in *.
      repeat split; [exact Hterm|exact Hint|exact Hone|exact Hzero].
    + rewrite sigint_restored_all by discriminate.
      cbn [length] in Hone.
      repeat split; [exact Hterm|discriminate|lia|intros _; lia].
Qed.

Lemma perform_all_coordinated (w : World) (l : list action) (p : Process) :
  coordinated p ->
  result (perform_all w l) p = Return tt
  /\ coordinated (after (perform_all w l) p).
Proof.
  revert p. induction l as [|a l IH]; intros p Hp; [by split|].
  destruct (perform_coordinated w a p Hp) as [Hres Hq].
  specialize (IH _ Hq). unfold result, after, perform_all in *.
  cbn [for_each]. rewrite !run_bind.
  destruct (perform w a p) as [r q]. cbn [fst snd] in *. subst r.
  cbn beta iota. exact IH.
Qed.

Lemma init_signal_coordinated (p : Process) :
  confirm_exit_target ∉ threads p -> callbacks p = [] ->
  coordinated (after init_signal p).
Proof.
  intros Hth Hcb.
  assert (Hnone : filter (fun t => t = confirm_exit_target) (threads p) = []).
  { induction (threads p) as [|t ts IH]; [reflexivity|].
    apply not_elem_of_cons in Hth as [Hne Hth].
    rewrite filter_cons. destruct (decide (t = confirm_exit_target)); [done|by apply IH]. }
  assert (Hrun : after init_signal p
                 = emit (EvSignal SIGTERM signal_stop_handler)
                     (with_sigterm (Some signal_stop_handler)
                        (emit (EvSignal SIGINT handle_sigint_handler)
                           (with_sigint handle_sigint_handler p)))) by reflexivity.
  rewrite Hrun. unfold coordinated, outstanding.
  cbn [sigint sigterm threads callbacks emit with_sigterm with_sigint].
  rewrite Hcb, Hnone. repeat split; [discriminate|simpl; lia].
Qed.

(** X8: once [init_signal] has run, whatever sequence of interrupts,
    termination signals, runs of the confirmation thread and runs of the
    loop's callbacks follows, no signal delivery raises (the default
    handler, which raises [KeyboardInterrupt], is never registered again),
    SIGTERM stays bound to [_signal_stop], and at most one confirmation is
    outstanding at any time (a thread not yet finished or a restoration not
    yet run), none at all while [_handle_sigint] is registered. *)
Theorem coordinator_invariant (w : World) (l : list action) (p : Process) :
  confirm_exit_target ∉ threads p ->
  callbacks p = [] ->
  let q := after (init_signal;; perform_all w l) p in
  result (init_signal;; perform_all w l) p = Return tt
  /\ sigterm q = Some signal_stop_handler
  /\ sigint q <> default_int_handler
  /\ (outstanding q <= 1)%nat
  /\ (sigint q = handle_sigint_handler -> outstanding q = 0%nat)
  /\ result (deliver SIGINT) q = Return tt.
Proof.
  intros Hth Hcb. cbv zeta.
  pose proof (init_signal_coordinated p Hth Hcb) as H0.
  destruct (perform_all_coordinated w l _ H0) as [Hres Hq].
  assert (Hrun : (init_signal;; perform_all w l) p
                 = perform_all w l (after init_signal p)) by reflexivity.
  unfold result, after in *. rewrite Hrun.
  destruct (perform_all w l (snd (init_signal p))) as [r q]. cbn [fst snd] in *.
  destruct Hq as (Hterm & Hint & Hone & Hzero).
  repeat split; try assumption.
  destruct (sigint q) eqn:Hh; [done| |].
  - by rewrite (deliver_sigint_normal q Hh).
  - by rewrite (deliver_sigint_pending q Hh).
Qed.

(** A busy session: interrupt, no answer, restoration, two interrupts in
    a row, a termination signal. *)
Lemma coordinator_invariant_witness :
  let w := world_of all_free (fun _ => 0) in
  let l := [Interrupt; ConfirmThreadRuns; LoopRunsCallbacks; Interrupt;
            Interrupt; Terminate; ConfirmThreadRuns] in
  let q := after (init_signal;; perform_all w l) (boot default_traits ∅) in
  result (init_signal;; perform_all w l) (boot default_traits ∅) = Return tt
  /\ sigterm q = Some signal_stop_handler
  /\ sigint q <> default_int_handler
  /\ (outstanding q <= 1)%nat
  /\ (sigint q = handle_sigint_handler -> outstanding q = 0%nat)
  /\ result (deliver SIGINT) q = Return tt.
Proof.
  intros w l.
  apply (coordinator_invariant w l (boot default_traits ∅)); [|reflexivity].
  apply not_elem_of_nil.
Defined.

(** X9: a termination signal needs no confirmation.  In every state the
    process can reach after [init_signal], SIGTERM is logged and the loop is
    asked to stop at once; no thread is started, nothing is queued, and the
    handler registered for SIGINT stays what it was. *)
Theorem terminate_stops_at_once (w : World) (l : list action) (p : Process) :
  confirm_exit_target ∉ threads p ->
  callbacks p = [] ->
  let q := after (init_signal;; perform_all w l) p in
  let q' := after (deliver SIGTERM) q in
  result (deliver SIGTERM) q = Return tt
  /\ stop_requested q' = true
  /\ signal_state q' = Some ForcedStop
  /\ emitted (deliver SIGTERM) q
     = [EvLog CRITICAL (MsgReceivedSignal SIGTERM); EvLoopStop]
  /\ threads q' = threads q
  /\ callbacks q' = callbacks q
  /\ sigint q' = sigint q.
Proof.
  intros Hth Hcb. cbv zeta.
  pose proof (init_signal_coordinated p Hth Hcb) as H0.
  destruct (perform_all_coordinated w l _ H0) as [_ Hq].
  assert (Hrun : after (init_signal;; perform_all w l) p
                 = after (perform_all w l) (after init_signal p)) by reflexivity.
  rewrite Hrun. set (q := after (perform_all w l) (after init_signal p)) in *.
  clearbody q. destruct Hq as (Hterm & _ & _ & _).
  pose proof (deliver_sigterm q Hterm) as Hd.
  assert (Hem : emitted (deliver SIGTERM) q
                = [EvLog CRITICAL (MsgReceivedSignal SIGTERM); EvLoopStop]).
  { apply emitted_extends. unfold after. rewrite Hd. cbn [snd trace emit with_stop_requested].
    by rewrite <- app_assoc. }
  unfold result, after. rewrite Hem, Hd. cbn [fst snd].
  repeat split.
Qed.

(** SIGTERM while a confirmation is pending. *)
Lemma terminate_stops_at_once_witness :
  let w := world_of all_free (fun _ => 0) in
  let q := after (init_signal;; perform_all w [Interrupt]) (boot default_traits ∅) in
  let q' := after (deliver SIGTERM) q in
  result (deliver SIGTERM) q = Return tt
  /\ stop_requested q' = true
  /\ signal_state q' = Some ForcedStop
  /\ emitted (deliver SIGTERM) q
     = [EvLog CRITICAL (MsgReceivedSignal SIGTERM); EvLoopStop]
  /\ threads q' = threads q
  /\ callbacks q' = callbacks q
  /\ sigint q' = sigint q.
Proof.
  intros w.
  apply (terminate_stops_at_once w [Interrupt] (boot default_traits ∅)); [|reflexivity].
  apply not_elem_of_nil.
Defined.

Lemma removal_after_start (ts : list thread_target) :
  confirm_exit_target ∉ ts ->
  list_difference (ts ++ [confirm_exit_target]) [confirm_exit_target] = ts.
Proof.
  induction ts as [|t ts IH]; intros Hout.
  - reflexivity.
  - apply not_elem_of_cons in Hout as [Hne Hout].
    change ((t :: ts) ++ [confirm_exit_target]) with (t :: (ts ++ [confirm_exit_target])).
    cbn [list_difference].
    destruct (decide_rel elem_of t [confirm_exit_target]) as [Hin|_].
    + apply list_elem_of_singleton in Hin. by subst.
    + by rewrite IH.
Qed.

Lemma emit_all_same_fields (es : list event) (p : Process) :
  emit_all es p
  = mkProcess (traits p) (ssl_options p) (sockets p) (sigint p) (sigterm p)
      (stop_requested p) (callbacks p) (threads p) (kernels p) (draws p)
      (trace p ++ es).
Proof.
  revert p. induction es as [|e es IH]; intros p.
  - cbn [emit_all foldl]. rewrite app_nil_r. by destruct p.
  - change (emit_all (e :: es) p) with (emit_all es (emit e p)).
    rewrite IH. cbn [traits ssl_options sockets sigint sigterm stop_requested
                     callbacks threads kernels draws trace emit].
    by rewrite <- app_assoc.
Qed.

(** X10: an interrupt that is not confirmed (no answer within the timeout,
    or an answer that does not start with "y") leaves the process as it
    was, once the thread has run and the loop has run the queued callback:
    [_handle_sigint] is registered again, no thread and no callback is
    outstanding, the stop flag is untouched.  Only the trace has grown, and
    in it the two registrations frame the dialogue. *)
Theorem unanswered_interrupt_restores (w : World) (p : Process) :
  sigint p = handle_sigint_handler ->
  confirm_exit_target ∉ threads p ->
  callbacks p = [] ->
  confirmed w (after (deliver SIGINT) p) = false ->
  let m := deliver SIGINT;; run_confirm_thread w;; ioloop_run_callbacks in
  result m p = Return tt
  /\ after m p = emit_all (emitted m p) p
  /\ exists dialogue,
       emitted m p
       = [EvSignal SIGINT signal_stop_handler; EvThreadStart confirm_exit_target]
         ++ dialogue
         ++ [EvAddCallback restore_sigint_handler_callback;
             EvSignal SIGINT handle_sigint_handler]
       /\ Forall (fun e => match e with
                           | EvStdout _ | EvSelect _ | EvReadline => True
                           | _ => False
                           end) dialogue.
Proof.
  intros Hh Hth Hcb Hno. cbv zeta.
  set (p1 := emit (EvThreadStart confirm_exit_target)
               (with_threads (threads p ++ [confirm_exit_target])
                  (emit (EvSignal SIGINT signal_stop_handler)
                     (with_sigint signal_stop_handler p)))).
  assert (H1 : deliver SIGINT p = (Return tt, p1)) by apply (deliver_sigint_normal p Hh).
  assert (Hno1 : confirmed w p1 = false).
  { unfold after in Hno. by rewrite H1 in Hno. }
  set (p2 := with_threads (list_difference (threads p1) [confirm_exit_target]) p1).
  assert (Hans : answer w p2 = answer w p1) by reflexivity.
  assert (Hchain : forall q : Process,
            _confirm_exit w p2 = (Return tt, q) ->
            (deliver SIGINT;; run_confirm_thread w;; ioloop_run_callbacks) p
            = ioloop_run_callbacks q).
  { intros q Hq.
    change ((deliver SIGINT;; run_confirm_thread w;; ioloop_run_callbacks) p)
      with (match deliver SIGINT p with
            | (Return _, p') => (run_confirm_thread w;; ioloop_run_callbacks) p'
            | (Raise e, p') => (Raise e, p')
            end).
    rewrite H1.
    change ((run_confirm_thread w;; ioloop_run_callbacks) p1)
      with (match _confirm_exit w p2 with
            | (Return _, p') => ioloop_run_callbacks p'
            | (Raise e, p') => (Raise e, p')
            end).
    by rewrite Hq. }
  assert (Hthreads : threads p2 = threads p).
  { unfold p2, p1. cbn [threads with_threads emit]. by apply removal_after_start. }
  assert (Hfinal : forall (dialogue : list event) (q : Process),
            _confirm_exit w p2 = (Return tt, q) ->
            q = emit (EvAddCallback restore_sigint_handler_callback)
                  (with_callbacks (callbacks p2 ++ [restore_sigint_handler_callback])
                     (emit_all dialogue p2)) ->
            let m := deliver SIGINT;; run_confirm_thread w;; ioloop_run_callbacks in
            result m p = Return tt
            /\ after m p = emit_all (emitted m p) p
            /\ emitted m p
               = [EvSignal SIGINT signal_stop_handler; EvThreadStart confirm_exit_target]
                 ++ dialogue
                 ++ [EvAddCallback restore_sigint_handler_callback;
                     EvSignal SIGINT handle_sigint_handler]).
  { intros dialogue q Hq Hshape. cbv zeta.
    pose proof (Hchain q Hq) as Hrun.
    rewrite ioloop_run_callbacks_run in Hrun.
    assert (Hq_cb : callbacks q = [restore_sigint_handler_callback]).
    { rewrite Hshape. cbn [callbacks emit with_callbacks].
      unfold p2, p1. cbn [callbacks with_threads emit with_sigint]. by rewrite Hcb. }
    rewrite Hq_cb in Hrun. cbn [foldl] in Hrun.
    assert (Hfin : restored (with_callbacks [] q)
                   = emit_all ([EvSignal SIGINT signal_stop_handler;
                                EvThreadStart confirm_exit_target]
                               ++ dialogue
                               ++ [EvAddCallback restore_sigint_handler_callback;
                                   EvSignal SIGINT handle_sigint_handler]) p).
    { rewrite emit_all_same_fields, Hshape.
      unfold restored.
      cbn [traits ssl_options sockets sigint sigterm stop_requested callbacks
           threads kernels draws trace emit with_callbacks with_sigint].
      rewrite !emit_all_same_fields.
      cbn [traits ssl_options sockets sigint sigterm stop_requested callbacks
           threads kernels draws trace emit with_callbacks with_sigint].
      rewrite Hthreads. unfold p2, p1.
      cbn [traits ssl_options sockets sigint sigterm stop_requested callbacks
           threads kernels draws trace emit with_callbacks with_sigint with_threads].
      rewrite Hh, Hcb. unfold emit, with_callbacks, with_sigint.
      cbn [traits ssl_options sockets sigint sigterm stop_requested callbacks
           threads kernels draws trace].
      f_equal. rewrite <- !app_assoc. reflexivity. }
    assert (Hem : emitted (deliver SIGINT;; run_confirm_thread w;; ioloop_run_callbacks) p
                  = [EvSignal SIGINT signal_stop_handler; EvThreadStart confirm_exit_target]
                    ++ dialogue
                    ++ [EvAddCallback restore_sigint_handler_callback;
                        EvSignal SIGINT handle_sigint_handler]).
    { apply emitted_extends. unfold after. rewrite Hrun. cbn [snd].
      rewrite Hfin. apply trace_emit_all. }
    unfold result, after. rewrite Hem, Hrun. cbn [fst snd].
    split; [reflexivity|]. split; [exact Hfin|reflexivity]. }
  unfold confirmed in Hno1. rewrite <- Hans in Hno1.
  destruct (answer w p2) as [line|] eqn:Hanswer.
  - pose proof (confirm_exit_answered w p2 line Hanswer) as Hq.
    cbv zeta in Hq. rewrite Hno1 in Hq.
    destruct (Hfinal [EvStdout "Shutdown Notebook Server (y/[n])? "; EvSelect 5;
                      EvReadline; EvStdout "resuming operation..."] _ Hq)
      as (Hres & Hafter & Hem); [reflexivity|].
    split; [exact Hres|]. split; [exact Hafter|].
    eexists. split; [exact Hem|]. repeat constructor.
  - pose proof (confirm_exit_timeout w p2 Hanswer) as Hq.
    destruct (Hfinal [EvStdout "Shutdown Notebook Server (y/[n])? "; EvSelect 5;
                      EvStdout "No answer for 5s:";
                      EvStdout "resuming operation..."] _ Hq)
      as (Hres & Hafter & Hem); [reflexivity|].
    split; [exact Hres|]. split; [exact Hafter|].
    eexists. split; [exact Hem|]. repeat constructor.
Qed.

(** Nobody answers the prompt. *)
Lemma unanswered_interrupt_restores_witness :
  let w := world_of all_free (fun _ => 0) in
  let p := after init_signal (boot default_traits ∅) in
  let m := deliver SIGINT;; run_confirm_thread w;; ioloop_run_callbacks in
  result m p = Return tt
  /\ after m p = emit_all (emitted m p) p
  /\ exists dialogue,
       emitted m p
       = [EvSignal SIGINT signal_stop_handler; EvThreadStart confirm_exit_target]
         ++ dialogue
         ++ [EvAddCallback restore_sigint_handler_callback;
             EvSignal SIGINT handle_sigint_handler]
       /\ Forall (fun e => match e with
                           | EvStdout _ | EvSelect _ | EvReadline => True
                           | _ => False
                           end) dialogue.
Proof.
  intros w p.
  apply (unanswered_interrupt_restores w p); [reflexivity| |reflexivity|reflexivity].
  apply not_elem_of_nil.
Defined.

(** ** What the port search can do *)

Section SearchOutcome.

Variable w : World.

(** The loop either binds nothing and leaves the traits alone, or returns
    having bound exactly one socket, on the last candidate it tried, and
    made that candidate the [port] trait. *)
Lemma search_outcome (cands : list Z) (p : Process) :
  let r := result (for_each cands (try_port w)) p in
  let q := after (for_each cands (try_port w)) p in
  search_frame p q
  /\ ssl_options q = ssl_options p
  /\ draws q = draws p
  /\ exists es,
       trace q = trace p ++ es
       /\ ((sockets q = sockets p /\ traits q = traits p)
           \/ (r = Return tt
               /\ exists c, c ∈ cands
                   /\ last (listened es) = Some c
                   /\ sockets q = sockets p ++ [(c, ip (traits p))]
                   /\ traits q = with_port c (traits p))).
Proof.
  cbv zeta. revert p. induction cands as [|c cands IH]; intros p.
  - unfold search_frame, result, after. cbn [for_each].
    repeat split. exists []. split; [by rewrite app_nil_r|]. by left.
  - unfold result, after. cbn [for_each]. rewrite run_bind.
    destruct (net w (length (trace p)) c (ip (traits p))) as [e|] eqn:Hnet.
    + destruct (decide (e = SocketError EADDRINUSE)) as [->|Hne].
      * rewrite (try_port_in_use _ _ _ Hnet).
        set (p' := emit (EvLog INFO (MsgPortInUse c))
                     (emit (EvListen c (ip (traits p))) p)).
        destruct (IH p') as (Hframe & Hssl & Hdraws & es & Htr & Hcases).
        unfold result, after in *.
        destruct (for_each cands (try_port w) p') as [r q]. cbn [fst snd] in *.
        split; [exact Hframe|]. split; [exact Hssl|]. split; [exact Hdraws|].
        exists ([EvListen c (ip (traits p)); EvLog INFO (MsgPortInUse c)] ++ es).
        split.
        { rewrite Htr. unfold p'. cbn [trace emit]. by rewrite <- !app_assoc. }
        destruct Hcases as [[Hs Ht]|(Hr & c' & Hin & Hlast & Hs & Ht)].
        -- left. by split.
        -- right. split; [exact Hr|]. exists c'.
           split; [by right|]. split; [|by split].
           change (listened ([EvListen c (ip (traits p));
                              EvLog INFO (MsgPortInUse c)] ++ es))
             with (c :: listened es).
           rewrite last_cons, Hlast. reflexivity.
      * rewrite (try_port_fatal _ _ _ _ Hnet Hne). cbn [fst snd].
        unfold search_frame. repeat split.
        exists [EvListen c (ip (traits p))]. split; [reflexivity|]. by left.
    + rewrite (try_port_free _ _ _ Hnet). cbn [fst snd].
      unfold search_frame. repeat split.
      exists [EvListen c (ip (traits p))]. split; [reflexivity|].
      right. split; [reflexivity|]. exists c. repeat split. left.
Qed.

(** The same for the whole of [init_webapp]. *)
Lemma init_webapp_outcome (p : Process) :
  let r := result (init_webapp w) p in
  let q := after (init_webapp w) p in
  let cands := candidates_from w (port (traits p)) (draws p) in
  ssl_options q = make_ssl_options (traits p)
  /\ sigint q = sigint p /\ sigterm q = sigterm p
  /\ stop_requested q = stop_requested p /\ callbacks q = callbacks p
  /\ threads q = threads p /\ kernels q = kernels p
  /\ ((sockets q = sockets p /\ traits q = traits p)
      \/ (r = Return tt
          /\ exists c, c ∈ cands
              /\ last (listened (emitted (init_webapp w) p)) = Some c
              /\ sockets q = sockets p ++ [(c, ip (traits p))]
              /\ traits q = with_port c (traits p))).
Proof.
  cbv zeta.
  set (p0 := before_search p).
  set (p1 := with_draws (draws p0 + Z.to_nat (n - 5))%nat p0).
  assert (Htraits : traits p0 = traits p).
  { unfold p0, before_search. by destruct (insecure _ _). }
  assert (Hdraws : draws p0 = draws p).
  { unfold p0, before_search. by destruct (insecure _ _). }
  assert (Hrun : init_webapp w p
                 = for_each (candidates_from w (port (traits p)) (draws p))
                     (try_port w) p1).
  { rewrite init_webapp_run, acquire_port_run. fold p0. unfold p1.
    rewrite Htraits, Hdraws. reflexivity. }
  destruct (search_outcome (candidates_from w (port (traits p)) (draws p)) p1)
    as (Hframe & Hssl & _ & es & Htr & Hcases).
  destruct (init_webapp_emitted w p) as (es0 & Hem & _).
  assert (Hes : emitted (init_webapp w) p
                = (if insecure (make_ssl_options (traits p)) (traits p)
                   then [EvLog CRITICAL MsgInsecure] else []) ++ es).
  { apply emitted_extends. unfold after in *. rewrite Hrun, Htr.
    unfold p1. cbn [trace with_draws]. unfold p0.
    rewrite trace_before_search. symmetry. apply app_assoc. }
  unfold result, after in *. rewrite Hes. rewrite Hrun.
  destruct (for_each (candidates_from w (port (traits p)) (draws p)) (try_port w) p1)
    as [r q]. cbn [fst snd] in *.
  destruct Hframe as (_ & Hi & Ht & Hst & Hcb & Hth & Hk).
  assert (Hfields : ssl_options p1 = make_ssl_options (traits p)
                    /\ sigint p1 = sigint p /\ sigterm p1 = sigterm p
                    /\ stop_requested p1 = stop_requested p
                    /\ callbacks p1 = callbacks p /\ threads p1 = threads p
                    /\ kernels p1 = kernels p /\ sockets p1 = sockets p
                    /\ traits p1 = traits p).
  { unfold p1, p0, before_search. by destruct (insecure _ _). }
  destruct Hfields as (F1 & F2 & F3 & F4 & F5 & F6 & F7 & F8 & F9).
  rewrite Hssl, Hi, Ht, Hst, Hcb, Hth, Hk, F1, F2, F3, F4, F5, F6, F7.
  repeat split.
  destruct Hcases as [[Hs Htq]|(Hr & c & Hin & Hlast & Hs & Htq)].
  - left. by rewrite Hs, Htq, F8, F9.
  - right. split; [exact Hr|]. exists c. split; [exact Hin|].
    rewrite Hs, Htq, F8, F9. repeat split.
    rewrite listened_app.
    assert (Hnone : listened (if insecure (make_ssl_options (traits p)) (traits p)
                              then [EvLog CRITICAL MsgInsecure] else []) = []).
    { by destruct (insecure _ _). }
    rewrite Hnone. exact Hlast.
Qed.

End SearchOutcome.

(** X11: the first candidate that is not refused with address-in-use, if
    [listen] succeeds on it, ends the search: exactly that socket is bound,
    the candidate becomes the [port] trait (no other trait changes), and no
    later candidate is tried.  With nothing refused before it this is the
    preferred port itself. *)
Theorem first_free_port_is_bound (w : World) (p : Process) (k : nat) (c : Z) :
  let cands := candidates_from w (port (traits p)) (draws p) in
  let host := ip (traits p) in
  cands !! k = Some c ->
  refused w (length (trace p)) host (take k cands) = true ->
  net w (length (trace p) + 2 * k)%nat c host = None ->
  result (acquire_port w) p = Return tt
  /\ emitted (acquire_port w) p = refusals host (take k cands) ++ [EvListen c host]
  /\ listened (emitted (acquire_port w) p) = take (S k) cands
  /\ sockets (after (acquire_port w) p) = sockets p ++ [(c, host)]
  /\ traits (after (acquire_port w) p) = with_port c (traits p).
Proof.
  intros cands host Hk Hpre Hnet.
  set (q := with_draws (draws p + Z.to_nat (n - 5))%nat p).
  assert (Hlen : length (take k cands) = k).
  { apply length_take_le. apply lookup_lt_Some in Hk. lia. }
  assert (Hrun : acquire_port w p
                 = (Return tt,
                    with_traits (with_port c)
                      (with_sockets (sockets p ++ [(c, host)])
                         (emit (EvListen c host)
                            (emit_all (refusals host (take k cands)) q))))).
  { rewrite acquire_port_run. fold cands q.
    rewrite <- (take_drop_middle cands k c Hk) at 1.
    apply (for_each_bound w (take k cands) c (drop (S k) cands) q).
    - exact Hpre.
    - rewrite Hlen. exact Hnet. }
  assert (Hev : emitted (acquire_port w) p = refusals host (take k cands) ++ [EvListen c host]).
  { apply emitted_extends. unfold after. rewrite Hrun.
    cbn [snd trace with_traits with_sockets emit].
    rewrite trace_emit_all. cbn [trace q with_draws]. by rewrite <- app_assoc. }
  unfold result, after. rewrite Hev, Hrun. cbn [fst snd].
  rewrite listened_app, listened_refusals.
  cbn [sockets traits with_traits with_sockets emit].
  rewrite traits_emit_all. cbn [traits q with_draws].
  repeat split. symmetry. by apply take_S_r.
Qed.

(** Ports 8888 and 8889 are in use, 8890 is free. *)
Lemma first_free_port_is_bound_witness :
  let w := world_of (fun _ c _ => if c <? 8890
                                  then Some (SocketError EADDRINUSE) else None)
             (fun _ => 0) in
  let p := boot default_traits ∅ in
  result (acquire_port w) p = Return tt
  /\ emitted (acquire_port w) p
     = [EvListen 8888 LOCALHOST; EvLog INFO (MsgPortInUse 8888);
        EvListen 8889 LOCALHOST; EvLog INFO (MsgPortInUse 8889);
        EvListen 8890 LOCALHOST]
  /\ listened (emitted (acquire_port w) p) = [8888; 8889; 8890]
  /\ sockets (after (acquire_port w) p) = [(8890, LOCALHOST)]
  /\ traits (after (acquire_port w) p) = with_port 8890 default_traits.
Proof.
  intros w p.
  apply (first_free_port_is_bound w p 2 8890); reflexivity.
Defined.

(** X12: whatever the network answers, [init_webapp] binds at most one
    socket and calls [listen] at most fifty times.  If it binds one, it
    returns normally, the socket is on the last port tried and on the
    configured host, that port is one of the candidates and becomes the
    [port] trait; otherwise sockets and traits are as before.  The signal
    table, the loop, the threads and the kernels are never touched. *)
Theorem init_webapp_binds_at_most_one (w : World) (p : Process) :
  let q := after (init_webapp w) p in
  (length (listened (emitted (init_webapp w) p)) <= 50)%nat
  /\ sigint q = sigint p /\ sigterm q = sigterm p
  /\ stop_requested q = stop_requested p /\ callbacks q = callbacks p
  /\ threads q = threads p /\ kernels q = kernels p
  /\ ((sockets q = sockets p /\ traits q = traits p)
      \/ (result (init_webapp w) p = Return tt
          /\ exists c, c ∈ candidates_from w (port (traits p)) (draws p)
              /\ last (listened (emitted (init_webapp w) p)) = Some c
              /\ sockets q = sockets p ++ [(c, ip (traits p))]
              /\ traits q = with_port c (traits p))).
Proof.
  cbv zeta.
  destruct (init_webapp_outcome w p) as (_ & H).
  split; [|exact H].
  destruct (init_webapp_emitted w p) as (es0 & Hem & _).
  destruct (acquire_port_events w (before_search p)) as (es & Htr & Hpre & _).
  assert (Hes : emitted (init_webapp w) p
                = (if insecure (make_ssl_options (traits p)) (traits p)
                   then [EvLog CRITICAL MsgInsecure] else []) ++ es).
  { apply emitted_extends. rewrite after_init_webapp, Htr, trace_before_search.
    symmetry. apply app_assoc. }
  rewrite Hes, listened_app.
  assert (Hnone : listened (if insecure (make_ssl_options (traits p)) (traits p)
                            then [EvLog CRITICAL MsgInsecure] else []) = []).
  { by destruct (insecure _ _). }
  rewrite Hnone. cbn [app].
  apply prefix_length in Hpre. rewrite length_candidates_from in Hpre. exact Hpre.
Qed.

(** X13: the SSL options given to the HTTP server follow the certificate
    alone: none without [certfile], whatever [keyfile] says; with a
    certificate, the key file is passed along only if one is set.  The
    scheme [start] then logs agrees with them: [start], run in the state
    [init_webapp] leaves, first logs the address with scheme https exactly
    when the server got SSL options, and http otherwise, then the hint on
    Control-C, and goes on with the same scheme to the browser and the
    loop. *)
Theorem scheme_follows_ssl_options (w : World) (p : Process) :
  let q := after (init_webapp w) p in
  let self := traits q in
  let scheme := match ssl_options q with Some _ => "https" | None => "http" end in
  let shown := if String.eqb (ip self) "" then "[all ip addresses on your system]"
               else ip self in
  ssl_options q
  = (if truthy (certfile (traits p))
     then Some (certfile (traits p),
                if truthy (keyfile (traits p)) then Some (keyfile (traits p)) else None)
     else None)
  /\ (ssl_options q = None <-> certfile (traits p) = EmptyString)
  /\ start w q
     = ((if open_browser self then launch_browser w scheme else mret tt);; run_loop w)
         (emit (EvLog INFO MsgUseControlC)
            (emit (EvLog INFO (MsgRunningAt scheme shown (port self)
                                 (base_project_url self))) q)).
Proof.
  cbv zeta.
  destruct (init_webapp_outcome w p) as (Hssl & _ & _ & _ & _ & _ & _ & Hcases).
  assert (Hcert : certfile (traits (after (init_webapp w) p)) = certfile (traits p)).
  { destruct Hcases as [[_ ->]|(_ & c & _ & _ & _ & ->)]; reflexivity. }
  split; [rewrite Hssl; reflexivity|].
  split.
  { rewrite Hssl. unfold make_ssl_options.
    destruct (truthy (certfile (traits p))) eqn:Hc.
    - apply truthy_true in Hc. split; [discriminate|done].
    - apply truthy_false in Hc. split; done. }
  assert (Hscheme : match ssl_options (after (init_webapp w) p) with
                    | Some _ => "https" | None => "http" end
                    = if truthy (certfile (traits (after (init_webapp w) p)))
                      then "https" else "http").
  { rewrite Hssl, Hcert. unfold make_ssl_options.
    by destruct (truthy (certfile (traits p))). }
  rewrite Hscheme.
  set (q := after (init_webapp w) p). clearbody q.
  unfold start. rewrite run_bind. unfold get_self at 1. cbn beta iota zeta.
  rewrite run_bind. unfold log at 1, modify at 1. cbn beta iota.
  rewrite run_bind. unfold log at 1, modify at 1. cbn beta iota.
  unfold display_host, truthy.
  by destruct (String.eqb (ip (traits q)) "").
Qed.

(** ** The launch *)

(** A launch that reaches [init_webapp] in [p0] runs [initialize] from
    there as [init_webapp] followed by [init_signal]. *)
Lemma initialize_run (w : World) (su : Startup) (p p0 : Process) :
  reaches_webapp w su p p0 ->
  initialize w su (after (instance su) p) = (init_webapp w;; init_signal) p0.
Proof.
  intros (_ & Hdec & Hpre & ->). cbv zeta in *.
  unfold initialize. rewrite Hdec. clear Hdec.
  set (p1 := after (instance su) p) in *. clearbody p1.
  unfold result, after in *. rewrite run_bind in Hpre. rewrite !run_bind.
  destruct (super_initialize su p1) as [[[]|e] p2]; [|discriminate Hpre].
  rewrite !run_bind.
  destruct (init_configurables su p2) as [[[]|e] p3]; [|discriminate Hpre].
  reflexivity.
Qed.

Lemma launch_new_instance_run (w : World) (su : Startup) (p p0 : Process) :
  reaches_webapp w su p p0 ->
  launch_new_instance w su p
  = match (init_webapp w;; init_signal) p0 with
    | (Return _, q) => start w q
    | (Raise e, q) => (Raise e, q)
    end.
Proof.
  intros H. pose proof (initialize_run w su p p0 H) as Hinit.
  destruct H as (Hinst & _). cbv zeta in *.
  unfold launch_new_instance. rewrite run_bind.
  unfold result, after in *.
  destruct (instance su p) as [[[]|e] p1]; [|discriminate Hinst].
  cbn [fst snd] in *. rewrite run_bind, Hinit.
  by destruct ((init_webapp w;; init_signal) p0) as [[[]|e] q].
Qed.

(** Once [init_webapp] has returned, [init_signal] registers the two
    handlers and [initialize] returns. *)
Lemma initialize_after_webapp (w : World) (su : Startup) (p p0 : Process) :
  reaches_webapp w su p p0 ->
  result (init_webapp w) p0 = Return tt ->
  initialize w su (after (instance su) p)
  = (Return tt,
     emit (EvSignal SIGTERM signal_stop_handler)
       (with_sigterm (Some signal_stop_handler)
          (emit (EvSignal SIGINT handle_sigint_handler)
             (with_sigint handle_sigint_handler (after (init_webapp w) p0))))).
Proof.
  intros H Hret. rewrite (initialize_run w su p p0 H), run_bind.
  unfold result, after in *.
  destruct (init_webapp w p0) as [[[]|e] q]; [reflexivity|discriminate Hret].
Qed.

(** X14: an error of [init_webapp] aborts the launch there.  When the
    constructor, the parent's [initialize] and [init_configurables] have
    returned and [init_webapp] raises, [launch_new_instance] ends with the
    same exception in the state [init_webapp] left: compared with the state
    in which [init_webapp] began, no socket is bound, the traits are
    unchanged, no signal handler is registered, no thread is started, and
    the trace has grown only by the warning and the search (no browser, no
    event loop, no teardown). *)
Theorem fatal_bind_aborts_launch (w : World) (su : Startup) (p p0 : Process) (e : exn) :
  reaches_webapp w su p p0 ->
  result (init_webapp w) p0 = Raise e ->
  let final := after (launch_new_instance w su) p in
  result (launch_new_instance w su) p = Raise e
  /\ final = after (init_webapp w) p0
  /\ sockets final = sockets p0
  /\ traits final = traits p0
  /\ sigint final = sigint p0
  /\ sigterm final = sigterm p0
  /\ threads final = threads p0
  /\ exists es,
       trace final = trace p0 ++ es
       /\ Forall (fun ev => ev = EvLog CRITICAL MsgInsecure \/ search_event ev) es.
Proof.
  intros Hreach Hraise. cbv zeta.
  assert (Hsame : launch_new_instance w su p = init_webapp w p0).
  { rewrite (launch_new_instance_run w su p p0 Hreach), run_bind.
    unfold result in Hraise.
    destruct (init_webapp w p0) as [[[]|e'] q]; [discriminate Hraise|reflexivity]. }
  assert (Hres : result (launch_new_instance w su) p = Raise e).
  { unfold result. rewrite Hsame. exact Hraise. }
  assert (Hfin : after (launch_new_instance w su) p = after (init_webapp w) p0).
  { unfold after. rewrite Hsame. reflexivity. }
  rewrite Hfin. clear Hsame Hfin.
  destruct (init_webapp_outcome w p0) as (_ & Hi & Ht & _ & _ & Hth & _ & Hcases).
  destruct (acquire_port_events w (before_search p0)) as (es & Htr & _ & Hall).
  split; [exact Hres|]. split; [reflexivity|].
  destruct Hcases as [[Hs Htraits]|(Hr & _)]; [|congruence].
  split; [exact Hs|]. split; [exact Htraits|]. split; [exact Hi|].
  split; [exact Ht|]. split; [exact Hth|].
  exists ((if insecure (make_ssl_options (traits p0)) (traits p0)
           then [EvLog CRITICAL MsgInsecure] else []) ++ es).
  split.
  - rewrite after_init_webapp, Htr, trace_before_search. symmetry. apply app_assoc.
  - apply Forall_app. split.
    + destruct (insecure _ _); [|constructor].
      apply Forall_cons. split; [by left|constructor].
    + eapply Forall_impl; [exact Hall|]. intros ev Hev. by right.
Qed.

(** The configuration sets the host to all interfaces; port 8888 is in
    use, 8889 raises [EACCES] (13). *)
Lemma fatal_bind_aborts_launch_witness :
  let w := world_of (in_use_below 8889 13) (fun _ => 0) in
  let su := configuring_startup in
  let p := boot default_traits three_kernels in
  let p0 := after (super_initialize su;; init_configurables su) (after (instance su) p) in
  let final := after (launch_new_instance w su) p in
  reaches_webapp w su p p0
  /\ result (init_webapp w) p0 = Raise (SocketError 13)
  /\ result (launch_new_instance w su) p = Raise (SocketError 13)
  /\ final = after (init_webapp w) p0
  /\ sockets final = sockets p0
  /\ traits final = traits p0
  /\ sigint final = sigint p0
  /\ sigterm final = sigterm p0
  /\ threads final = threads p0
  /\ exists es,
       trace final = trace p0 ++ es
       /\ Forall (fun ev => ev = EvLog CRITICAL MsgInsecure \/ search_event ev) es.
Proof.
  intros w su p p0.
  assert (Hreach : reaches_webapp w su p p0) by (repeat split; reflexivity).
  assert (Hraise : result (init_webapp w) p0 = Raise (SocketError 13)) by reflexivity.
  split; [exact Hreach|]. split; [exact Hraise|].
  exact (fatal_bind_aborts_launch w su p p0 (SocketError 13) Hreach Hraise).
Defined.

(** X15: when the launch has reached [init_webapp] and [init_webapp] has
    bound a socket, [initialize] returns with the signal handlers
    registered and [launch_new_instance] goes on to [start], which logs the
    bound port with the scheme of the certificate and the base path, and,
    with the browser on and found, starts the browser thread on a URL with
    the same scheme, port and base path; the browser's host is the
    configured one, or the loopback address when the server listens on all
    interfaces.  Then [start] enters its [try] statement. *)
Theorem announced_port_is_bound_port (w : World) (su : Startup) (p p0 : Process) (c : Z) :
  reaches_webapp w su p p0 ->
  sockets (after (init_webapp w) p0) = sockets p0 ++ [(c, ip (traits p0))] ->
  let self := traits p0 in
  let q := after (initialize w su) (after (instance su) p) in
  let scheme := if String.eqb (certfile self) "" then "http" else "https" in
  let shown := if String.eqb (ip self) "" then "[all ip addresses on your system]"
               else ip self in
  let opened := if String.eqb (ip self) "" then "127.0.0.1" else ip self in
  let name := if String.eqb (browser self) "" then None else Some (browser self) in
  let t := browser_open_target (scheme, opened, c, base_project_url self) in
  let q1 := emit (EvLog INFO MsgUseControlC)
              (emit (EvLog INFO (MsgRunningAt scheme shown c (base_project_url self))) q) in
  result (initialize w su) (after (instance su) p) = Return tt
  /\ sockets q = sockets p0 ++ [(c, ip self)]
  /\ port (traits q) = c
  /\ sigint q = handle_sigint_handler
  /\ sigterm q = Some signal_stop_handler
  /\ launch_new_instance w su p = start w q
  /\ (open_browser self = false -> start w q = run_loop w q1)
  /\ (open_browser self = true -> webbrowser_lookup w name = true ->
      start w q
      = run_loop w (emit (EvThreadStart t)
                      (with_threads (threads q ++ [t])
                         (emit (EvWebbrowserGet name) q1))))
  /\ (open_browser self = true -> webbrowser_lookup w name = false ->
      start w q = (Raise WebbrowserError, emit (EvWebbrowserGet name) q1)).
Proof.
  intros Hreach Hbound. cbv zeta.
  destruct (init_webapp_outcome w p0) as (_ & _ & _ & _ & _ & _ & _ & Hcases).
  destruct Hcases as [[Hs _]|(Hr & c' & _ & _ & Hs & Htr)].
  { rewrite Hs in Hbound. apply (f_equal length) in Hbound.
    rewrite length_app in Hbound. simpl in Hbound. lia. }
  rewrite Hs in Hbound. apply app_inv_head in Hbound. injection Hbound as ->.
  pose proof (initialize_after_webapp w su p p0 Hreach Hr) as Hinit.
  pose proof (launch_new_instance_run w su p p0 Hreach) as Hlaunch.
  rewrite <- (initialize_run w su p p0 Hreach), Hinit in Hlaunch.
  assert (Hres : result (initialize w su) (after (instance su) p) = Return tt).
  { unfold result. rewrite Hinit. reflexivity. }
  set (q0 := after (init_webapp w) p0) in *.
  set (q := emit (EvSignal SIGTERM signal_stop_handler)
              (with_sigterm (Some signal_stop_handler)
                 (emit (EvSignal SIGINT handle_sigint_handler)
                    (with_sigint handle_sigint_handler q0)))) in *.
  assert (Hq : after (initialize w su) (after (instance su) p) = q).
  { change (after (initialize w su) (after (instance su) p))
      with (snd (initialize w su (after (instance su) p))).
    rewrite Hinit. reflexivity. }
  rewrite Hq. clear Hq Hinit Hr. clearbody q0.
  assert (Htraits : traits q = with_port c (traits p0)) by exact Htr.
  assert (Hbrowser : browser_name (traits q)
                     = if String.eqb (browser (traits p0)) "" then None
                       else Some (browser (traits p0))).
  { rewrite Htraits. unfold browser_name, truthy. cbn [browser with_port].
    by destruct (String.eqb (browser (traits p0)) ""). }
  assert (Hann : announced q
                 = emit (EvLog INFO MsgUseControlC)
                     (emit (EvLog INFO
                              (MsgRunningAt
                                 (if String.eqb (certfile (traits p0)) ""
                                  then "http" else "https")
                                 (if String.eqb (ip (traits p0)) ""
                                  then "[all ip addresses on your system]"
                                  else ip (traits p0))
                                 c (base_project_url (traits p0)))) q)).
  { unfold announced, display_host, truthy. cbv zeta. rewrite Htraits.
    cbn [certfile ip port base_project_url with_port].
    by destruct (String.eqb (certfile (traits p0)) ""),
                (String.eqb (ip (traits p0)) ""). }
  split; [exact Hres|]. split; [exact Hs|].
  split; [rewrite Htraits; reflexivity|].
  split; [reflexivity|]. split; [reflexivity|]. split; [exact Hlaunch|].
  assert (Hopen : open_browser (traits q) = open_browser (traits p0)).
  { rewrite Htraits. reflexivity. }
  split; [|split].
  - intros Hoff. rewrite start_without_browser by (by rewrite Hopen).
    by rewrite Hann.
  - intros Hon Hfound.
    rewrite start_with_browser; [|by rewrite Hopen|by rewrite Hbrowser].
    unfold browser_started. cbv zeta. rewrite Hbrowser, Hann.
    unfold browser_host, str_or, truthy. rewrite Htraits.
    cbn [certfile ip port base_project_url with_port].
    by destruct (String.eqb (certfile (traits p0)) ""),
                (String.eqb (ip (traits p0)) "").
  - intros Hon Hmissing.
    rewrite start_browser_not_found; [|by rewrite Hopen|by rewrite Hbrowser].
    by rewrite Hbrowser, Hann.
Qed.

(** The configuration sets the host to all interfaces; every port is
    free and a browser is found. *)
Lemma announced_port_is_bound_port_witness :
  let w := world_of all_free (fun _ => 0) in
  let su := configuring_startup in
  let p := boot default_traits three_kernels in
  let p0 := after (super_initialize su;; init_configurables su) (after (instance su) p) in
  let q := after (initialize w su) (after (instance su) p) in
  let t := browser_open_target ("http", "127.0.0.1", 8888, "/") in
  let q1 := emit (EvLog INFO MsgUseControlC)
              (emit (EvLog INFO (MsgRunningAt "http" "[all ip addresses on your system]"
                                   8888 "/")) q) in
  reaches_webapp w su p p0
  /\ sockets (after (init_webapp w) p0) = sockets p0 ++ [(8888, ip (traits p0))]
  /\ result (initialize w su) (after (instance su) p) = Return tt
  /\ sockets q = [(8888, "")]
  /\ port (traits q) = 8888
  /\ sigint q = handle_sigint_handler
  /\ sigterm q = Some signal_stop_handler
  /\ launch_new_instance w su p = start w q
  /\ start w q
     = run_loop w (emit (EvThreadStart t)
                     (with_threads (threads q ++ [t])
                        (emit (EvWebbrowserGet None) q1))).
Proof.
  intros w su p p0 q t q1.
  assert (Hreach : reaches_webapp w su p p0) by (repeat split; reflexivity).
  assert (Hbound : sockets (after (init_webapp w) p0)
                   = sockets p0 ++ [(8888, ip (traits p0))]) by reflexivity.
  split; [exact Hreach|]. split; [exact Hbound|].
  destruct (announced_port_is_bound_port w su p p0 8888 Hreach Hbound)
    as (H1 & H2 & H3 & H4 & H5 & H6 & _ & H8 & _).
  split; [exact H1|]. split; [exact H2|]. split; [exact H3|].
  split; [exact H4|]. split; [exact H5|]. split; [exact H6|].
  apply H8; reflexivity.
Defined.

(** ** The alias table and the answer test *)

(** X16: for any alias table of the kernel, the notebook's table has no
    alias [f], maps [ip], [port], [keyfile], [certfile], [notebook-dir] and
    [browser] to the notebook's own traits (overriding the kernel's entries
    of the same name), and agrees with the kernel's table on every other
    name; each alias in the list scrubbed from the kernel's command line is
    in the table. *)
Theorem aliases_table (ipkernel_aliases : gmap string string) (k : string) :
  aliases ipkernel_aliases !! k
  = (if bool_decide (k = "f") then None
     else match notebook_alias_updates !! k with
          | Some v => Some v
          | None => ipkernel_aliases !! k
          end)
  /\ aliases ipkernel_aliases !! "f" = None
  /\ aliases ipkernel_aliases !! "ip" = Some "NotebookApp.ip"
  /\ aliases ipkernel_aliases !! "port" = Some "NotebookApp.port"
  /\ aliases ipkernel_aliases !! "keyfile" = Some "NotebookApp.keyfile"
  /\ aliases ipkernel_aliases !! "certfile" = Some "NotebookApp.certfile"
  /\ aliases ipkernel_aliases !! "notebook-dir" = Some "NotebookManager.notebook_dir"
  /\ aliases ipkernel_aliases !! "browser" = Some "NotebookApp.browser"
  /\ Forall (fun a => is_Some (aliases ipkernel_aliases !! a)) notebook_aliases.
Proof.
  assert (Hgen : forall k',
            aliases ipkernel_aliases !! k'
            = (if bool_decide (k' = "f") then None
               else match notebook_alias_updates !! k' with
                    | Some v => Some v
                    | None => ipkernel_aliases !! k'
                    end)).
  { intros k'. unfold aliases. case_bool_decide as Hk.
    - subst k'. apply lookup_delete_eq.
    - rewrite lookup_delete_ne by done.
      destruct (notebook_alias_updates !! k') as [v|] eqn:Hv.
      + by apply lookup_union_Some_l.
      + by apply lookup_union_r. }
  split; [apply Hgen|].
  repeat split; try (rewrite Hgen; reflexivity).
  unfold notebook_aliases. repeat constructor; rewrite Hgen; by eexists.
Qed.

(** X17: the answers that confirm the shutdown are exactly the lines whose
    first character is [y] or [Y]; the empty line (end of input), a line
    that starts with a blank, and every other line do not.  So
    [_confirm_exit] asks the loop to stop only when such a line arrives
    within the timeout. *)
Theorem affirmative_answers (w : World) (p : Process) (line : string) :
  (affirmative line = true
   <-> exists c rest, line = String c rest /\ (c = "y"%char \/ c = "Y"%char))
  /\ (confirmed w p = true
      <-> exists c rest, answer w p = Some (String c rest)
                         /\ (c = "y"%char \/ c = "Y"%char))
  /\ (stop_requested (after (_confirm_exit w) p) = true
      <-> stop_requested p = true \/ confirmed w p = true).
Proof.
  assert (Haff : forall l, affirmative l = true
            <-> exists c rest, l = String c rest /\ (c = "y"%char \/ c = "Y"%char)).
  { intros l. unfold affirmative, startswith. destruct l as [|c rest].
    - split; [discriminate|]. by intros (c & rest & H & _).
    - cbn [lower String.prefix].
      destruct (ascii_dec "y" (lower_ascii c)) as [Heq|Hne].
      + split.
        * intros _. exists c, rest. split; [reflexivity|].
          by apply lower_ascii_y.
        * intros _. by destruct (lower rest).
      + split; [discriminate|]. intros (c' & rest' & H & Hy).
        injection H as <- <-. apply lower_ascii_y in Hy. by symmetry in Hy. }
  split; [apply Haff|]. split.
  - unfold confirmed. destruct (answer w p) as [l|].
    + rewrite Haff. split.
      * intros (c & rest & -> & Hy). by exists c, rest.
      * intros (c & rest & H & Hy). injection H as ->. by exists c, rest.
    + split; [discriminate|]. by intros (c & rest & H & _).
  - unfold confirmed, after. destruct (answer w p) as [l|] eqn:Hans.
    + rewrite (confirm_exit_answered w p l Hans). cbv zeta. cbn [snd].
      destruct (affirmative l); cbn [stop_requested emit with_stop_requested with_callbacks].
      * split; [by right|reflexivity].
      * split; [by left|]. by intros [H|H].
    + rewrite (confirm_exit_timeout w p Hans).
      cbn [snd stop_requested emit with_callbacks emit_all foldl].
      split; [by left|]. by intros [H|H].
Qed.

(** ** A launch from beginning to end *)

Lemma with_port_same (t : Traits) : with_port (port t) t = t.
Proof. by destruct t. Qed.

Lemma init_webapp_preferred_free (w : World) (p : Process) :
  net w (length (trace (before_search p))) (port (traits p)) (ip (traits p)) = None ->
  init_webapp w p
  = (Return tt,
     with_traits (with_port (port (traits p)))
       (with_sockets (sockets p ++ [(port (traits p), ip (traits p))])
          (emit (EvListen (port (traits p)) (ip (traits p)))
             (with_draws (draws p + Z.to_nat (n - 5))%nat (before_search p))))).
Proof.
  intros Hfree.
  assert (Htraits : traits (before_search p) = traits p).
  { unfold before_search. by destruct (insecure _ _). }
  assert (Hdraws : draws (before_search p) = draws p).
  { unfold before_search. by destruct (insecure _ _). }
  assert (Hsock : sockets (before_search p) = sockets p).
  { unfold before_search. by destruct (insecure _ _). }
  rewrite init_webapp_run, acquire_port_run, Htraits, Hdraws.
  set (q := with_draws (draws p + Z.to_nat (n - 5))%nat (before_search p)).
  pose proof (for_each_bound w [] (port (traits p))
                (drop 1 (candidates_from w (port (traits p)) (draws p))) q) as Hb.
  cbv zeta in Hb. cbn [refused refusals flat_map emit_all foldl app length] in Hb.
  assert (Hfirst : candidates_from w (port (traits p)) (draws p)
                   = port (traits p)
                     :: drop 1 (candidates_from w (port (traits p)) (draws p))).
  { by rewrite candidates_from_shape. }
  rewrite Hfirst at 1. rewrite Hb.
  - unfold q. cbn [traits sockets with_draws]. by rewrite Htraits, Hsock.
  - reflexivity.
  - unfold q. cbn [traits trace with_draws]. rewrite Htraits, Nat.add_0_r. exact Hfree.
Qed.

(** X18: a launch that reaches [init_webapp] with the preferred port free,
    and the browser either switched off or found.  [launch_new_instance]
    goes through [initialize] to [start]; the preferred port is bound on the
    configured host and stays the [port] trait, both signal handlers are
    registered before [start] enters its [try] statement, and when the loop
    is left, however it is left, the teardown is the last thing in the
    trace: every kernel in the registry at that moment gets exactly one
    [kill_kernel] call, and no other id gets any. *)
Theorem launch_on_free_port (w : World) (su : Startup) (p p0 : Process) :
  reaches_webapp w su p p0 ->
  net w (length (trace (before_search p0))) (port (traits p0)) (ip (traits p0)) = None ->
  (open_browser (traits p0) = true ->
   webbrowser_lookup w (browser_name (traits p0)) = true) ->
  let q := after (initialize w su) (after (instance su) p) in
  let q0 := if open_browser (traits p0) then browser_started q else announced q in
  let left := at_exit (ioloop_start w q0) in
  let final := after (launch_new_instance w su) p in
  launch_new_instance w su p = start w q
  /\ start w q = run_loop w q0
  /\ sockets q0 = sockets p0 ++ [(port (traits p0), ip (traits p0))]
  /\ traits q0 = traits p0
  /\ sigint q0 = handle_sigint_handler
  /\ sigterm q0 = Some signal_stop_handler
  /\ trace final
     = trace left ++ EvLog INFO MsgShuttingDownKernels
                     :: (EvKillKernel <$> kernel_ids left)
  /\ forall kid,
       requests kid (drop (length (trace left)) (trace final))
       = if bool_decide (kid ∈ dom (kernels left)) then 1%nat else 0%nat.
Proof.
  intros Hreach Hfree Hbrowser. cbv zeta.
  pose proof (init_webapp_preferred_free w p0 Hfree) as Hweb.
  set (q1 := with_traits (with_port (port (traits p0)))
               (with_sockets (sockets p0 ++ [(port (traits p0), ip (traits p0))])
                  (emit (EvListen (port (traits p0)) (ip (traits p0)))
                     (with_draws (draws p0 + Z.to_nat (n - 5))%nat (before_search p0)))))
    in *.
  set (q := emit (EvSignal SIGTERM signal_stop_handler)
              (with_sigterm (Some signal_stop_handler)
                 (emit (EvSignal SIGINT handle_sigint_handler)
                    (with_sigint handle_sigint_handler q1)))).
  assert (Hinitialize : initialize w su (after (instance su) p) = (Return tt, q)).
  { rewrite (initialize_run w su p p0 Hreach), run_bind, Hweb. reflexivity. }
  assert (Hlaunch : launch_new_instance w su p = start w q).
  { rewrite (launch_new_instance_run w su p p0 Hreach), run_bind, Hweb. reflexivity. }
  assert (Hq : after (initialize w su) (after (instance su) p) = q).
  { change (after (initialize w su) (after (instance su) p))
      with (snd (initialize w su (after (instance su) p))).
    rewrite Hinitialize. reflexivity. }
  rewrite Hq. clear Hq Hinitialize Hweb.
  assert (Htraits : traits q = traits p0).
  { unfold q, q1. cbn [traits emit with_sigterm with_sigint with_traits].
    cbn [traits with_sockets emit with_draws].
    assert (Hb : traits (before_search p0) = traits p0).
    { unfold before_search. by destruct (insecure _ _). }
    rewrite Hb. apply with_port_same. }
  assert (Hsockets : sockets q = sockets p0 ++ [(port (traits p0), ip (traits p0))])
    by reflexivity.
  assert (Hsigint : sigint q = handle_sigint_handler) by reflexivity.
  assert (Hsigterm : sigterm q = Some signal_stop_handler) by reflexivity.
  clearbody q. clear q1.
  assert (Hstart : start w q
                   = run_loop w (if open_browser (traits p0)
                                 then browser_started q else announced q)).
  { destruct (open_browser (traits p0)) eqn:Hopen.
    - apply start_with_browser; rewrite Htraits; [exact Hopen|by apply Hbrowser].
    - apply start_without_browser. by rewrite Htraits. }
  set (q0 := if open_browser (traits p0) then browser_started q else announced q) in *.
  assert (Hfields : sockets q0 = sockets q /\ traits q0 = traits q
                    /\ sigint q0 = sigint q /\ sigterm q0 = sigterm q).
  { unfold q0. by destruct (open_browser (traits p0)). }
  destruct Hfields as (F1 & F2 & F3 & F4).
  clearbody q0.
  assert (Hfinal : trace (after (launch_new_instance w su) p)
                   = trace (at_exit (ioloop_start w q0))
                     ++ EvLog INFO MsgShuttingDownKernels
                        :: (EvKillKernel <$> kernel_ids (at_exit (ioloop_start w q0)))).
  { unfold after at 1. rewrite Hlaunch, Hstart, run_loop_run. cbn [snd].
    apply trace_cleanup_kernels. }
  split; [exact Hlaunch|]. split; [exact Hstart|].
  split; [by rewrite F1|]. split; [by rewrite F2|].
  split; [by rewrite F3|]. split; [by rewrite F4|].
  split; [exact Hfinal|].
  intros kid. rewrite Hfinal, drop_app_length. unfold requests.
  change (killed (EvLog INFO MsgShuttingDownKernels
                  :: (EvKillKernel <$> kernel_ids (at_exit (ioloop_start w q0)))))
    with (killed (EvKillKernel <$> kernel_ids (at_exit (ioloop_start w q0)))).
  rewrite killed_kill_events.
  assert (Hnd : NoDup (kernel_ids (at_exit (ioloop_start w q0))))
    by apply NoDup_fst_map_to_list.
  rewrite (count_in_NoDup kid _ Hnd).
  apply f_equal with (f := fun b : bool => if b then 1%nat else 0%nat).
  apply bool_decide_ext, elem_of_kernel_ids.
Qed.

(** The configuration sets the host to all interfaces; every port is
    free, a browser is found, three kernels are started while the loop runs,
    and the loop returns.  Each of the three gets its call. *)
Lemma launch_on_free_port_witness :
  let w := serving in
  let su := configuring_startup in
  let p := boot default_traits ∅ in
  let p0 := after (super_initialize su;; init_configurables su) (after (instance su) p) in
  let q := after (initialize w su) (after (instance su) p) in
  let q0 := browser_started q in
  let left := at_exit (ioloop_start w q0) in
  let final := after (launch_new_instance w su) p in
  reaches_webapp w su p p0
  /\ net w (length (trace (before_search p0))) (port (traits p0)) (ip (traits p0)) = None
  /\ webbrowser_lookup w (browser_name (traits p0)) = true
  /\ launch_new_instance w su p = start w q
  /\ start w q = run_loop w q0
  /\ sockets q0 = [(8888, "")]
  /\ traits q0 = with_ip "" default_traits
  /\ sigint q0 = handle_sigint_handler
  /\ sigterm q0 = Some signal_stop_handler
  /\ trace final
     = trace left ++ EvLog INFO MsgShuttingDownKernels
                     :: (EvKillKernel <$> kernel_ids left)
  /\ dom (kernels left) = {[ "A"; "B"; "C" ]}
  /\ forall kid,
       requests kid (drop (length (trace left)) (trace final))
       = if bool_decide (kid ∈ dom (kernels left)) then 1%nat else 0%nat.
Proof.
  intros w su p p0 q q0 left final.
  assert (Hreach : reaches_webapp w su p p0) by (repeat split; reflexivity).
  assert (Hfree : net w (length (trace (before_search p0))) (port (traits p0))
                    (ip (traits p0)) = None) by reflexivity.
  assert (Hfound : webbrowser_lookup w (browser_name (traits p0)) = true)
    by reflexivity.
  split; [exact Hreach|]. split; [exact Hfree|]. split; [exact Hfound|].
  destruct (launch_on_free_port w su p p0 Hreach Hfree (fun _ => Hfound))
    as (H1 & H2 & H3 & H4 & H5 & H6 & H7 & H8).
  split; [exact H1|]. split; [exact H2|]. split; [exact H3|].
  split; [exact H4|]. split; [exact H5|]. split; [exact H6|].
  split; [exact H7|]. split; [|exact H8].
  by_evaluation.
Defined.
